(** * Cendika: SMS routing / pricing engine and OTP lifecycle

    Shallow embedding of the algorithmic core of the gateway:
    - [SMSValidationService] (phone validation, message units),
    - [SMSRouterService] (provider selection, pricing, routing),
    - [SMSService.sendBulkSMS],
    - [OTPService], [VerificationStorageService] and [VerificationService].

    JavaScript strings are sequences of UTF-16 code units; numbers that are
    integers in the source are in [Z], prices and rates in [Q]. *)

From Stdlib Require Import ZArith NArith QArith Qround List Bool Lia String Ascii.
From Stdlib Require DecimalString Finite.
Import ListNotations.

Open Scope Z_scope.

(** * Part I: the program *)

(** ** The JavaScript runtime pieces the services rely on *)

Module JS.

(** A string is the list of its UTF-16 code units. *)
Definition jsstring := list N.

(** Code units of a literal written in Basic Latin. *)
Definition js (s : string) : jsstring :=
  List.map N_of_ascii (list_ascii_of_string s).

Fixpoint jseqb (a b : jsstring) : bool :=
  match a, b with
  | [], [] => true
  | x :: a', y :: b' => N.eqb x y && jseqb a' b'
  | _, _ => false
  end.

(** [s.length] *)
Definition jslength (s : jsstring) : Z := Z.of_nat (List.length s).

(** [s.startsWith(p)] *)
Fixpoint startsWith (s p : jsstring) : bool :=
  match p, s with
  | [], _ => true
  | c :: p', d :: s' => N.eqb c d && startsWith s' p'
  | _ :: _, [] => false
  end.

(** [s.substring(a, b)] for [0 <= a <= b]. *)
Definition substring (s : jsstring) (a b : nat) : jsstring :=
  firstn (b - a) (skipn a s).

(** [s.charAt(i)]: the empty string when [i] is out of range. *)
Definition charAt (s : jsstring) (i : Z) : jsstring :=
  if i <? 0 then []
  else match nth_error s (Z.to_nat i) with
       | Some c => [c]
       | None => []
       end.

(** [arr.includes(x)] on an array of strings. *)
Definition includes (arr : list jsstring) (x : jsstring) : bool :=
  existsb (jseqb x) arr.

(** [arr.join(sep)] *)
Fixpoint join (sep : jsstring) (arr : list jsstring) : jsstring :=
  match arr with
  | [] => []
  | [x] => x
  | x :: rest => x ++ sep ++ join sep rest
  end.

(** The class [\d] of a regular expression without the [u] flag. *)
Definition isDigit (c : N) : bool := (48 <=? c)%N && (c <=? 57)%N.

Definition plus_sign : N := 43.
Definition underscore : N := 95.

(** [s.replace(/\D/g, '')] *)
Definition digitsOnly (s : jsstring) : jsstring := filter isDigit s.

(** [s.replace(/[^\d+]/g, '')] *)
Definition digitsAndPlus (s : jsstring) : jsstring :=
  filter (fun c => isDigit c || N.eqb c plus_sign) s.

(** [s.split('_')[0]] *)
Fixpoint beforeUnderscore (s : jsstring) : jsstring :=
  match s with
  | [] => []
  | c :: s' => if N.eqb c underscore then [] else c :: beforeUnderscore s'
  end.

(** [s.toUpperCase()] on the Basic Latin letters; the verify route only
    admits codes matching [/^[A-Z0-9]+$/i], for which this is the whole
    of the runtime's mapping. *)
Definition upperUnit (c : N) : N :=
  if (97 <=? c)%N && (c <=? 122)%N then (c - 32)%N else c.

Definition toUpperCase (s : jsstring) : jsstring := List.map upperUnit s.

(** Outcome of a call that may throw. *)
Inductive Result (A : Type) : Type :=
| Ok (a : A)
| Throw (message : jsstring).
Arguments Ok {A} a.
Arguments Throw {A} message.

(** [x || d] on a number: [0] is falsy. *)
Definition orElse (x d : Q) : Q := if Qeq_bool x 0 then d else x.

(** [x || d] on an optional integer: [undefined] and [0] are falsy. *)
Definition orElseZ (x : option Z) (d : Z) : Z :=
  match x with
  | Some v => if v =? 0 then d else v
  | None => d
  end.

(** [x || y] on optional strings: [undefined] and [''] are falsy. *)
Definition truthy (x : option jsstring) : option jsstring :=
  match x with
  | Some [] => None
  | other => other
  end.

(** [Math.ceil(a / b)] on two integers. *)
Definition Math_ceil_div (a b : Z) : Z :=
  Qceiling (inject_Z a / inject_Z b)%Q.

(** [Math.round(a / b)] on two integers: [Math.floor(a / b + 0.5)]. *)
Definition Math_round_div (a b : Z) : Z :=
  Qfloor (inject_Z a / inject_Z b + (1 # 2))%Q.

(** [arr.sort(cmp)], stable; [le x y] is [cmp(x, y) <= 0].  The same
    function orders the rows a query returns under [orderBy]. *)
Fixpoint insertBy {A : Type} (le : A -> A -> bool) (x : A) (l : list A)
  : list A :=
  match l with
  | [] => [x]
  | y :: l' => if le x y then x :: y :: l' else y :: insertBy le x l'
  end.

Definition sortBy {A : Type} (le : A -> A -> bool) (l : list A) : list A :=
  fold_right (insertBy le) [] l.

End JS.
Import JS.

(** ** geo.middleware: network detection from the phone number *)

Module GeoMiddleware.

Record NetworkInfo := {
  country : option jsstring;
  network : option jsstring;
  operator : option jsstring
}.

Definition info (c n o : string) : NetworkInfo :=
  {| country := Some (js c); network := Some (js n); operator := Some (js o) |}.

Definition strs (l : list string) : list jsstring := List.map js l.

Definition ghana (prefix : jsstring) : option NetworkInfo :=
  if includes (strs ["20"; "50"; "23"; "28"]%string) prefix
  then Some (info "GH" "telecel" "Telecel Ghana")
  else if includes (strs ["24"; "54"; "55"; "53"; "23"; "59"]%string) prefix
  then Some (info "GH" "mtn" "MTN Ghana")
  else if includes (strs ["26"; "56"; "27"; "57"]%string) prefix
  then Some (info "GH" "airteltigo" "AirtelTigo")
  else None.

Definition nigeria (prefix : jsstring) : option NetworkInfo :=
  if includes (strs ["803"; "806"; "810"; "813"; "816"; "903"; "906"]%string) prefix
  then Some (info "NG" "mtn" "MTN Nigeria")
  else if includes (strs ["805"; "807"; "811"; "815"; "905"]%string) prefix
  then Some (info "NG" "glo" "Globacom")
  else if includes (strs ["802"; "808"; "812"; "902"; "907"; "901"]%string) prefix
  then Some (info "NG" "airtel" "Airtel Nigeria")
  else if includes (strs ["809"; "817"; "818"; "909"]%string) prefix
  then Some (info "NG" "9mobile" "9mobile")
  else None.

Definition kenya (prefix : jsstring) : option NetworkInfo :=
  if includes (strs ["701"; "702"; "703"; "704"; "705"; "706"; "707"; "708"; "709"]%string) prefix
  then Some (info "KE" "safaricom" "Safaricom")
  else if includes (strs ["710"; "711"; "712"; "713"; "714"; "715"]%string) prefix
  then Some (info "KE" "airtel" "Airtel Kenya")
  else if includes (strs ["770"; "771"; "772"; "773"; "774"; "775"]%string) prefix
  then Some (info "KE" "telkom" "Telkom Kenya")
  else None.

Definition southAfrica (prefix : jsstring) : option NetworkInfo :=
  if includes (strs ["82"; "83"; "84"]%string) prefix
  then Some (info "ZA" "vodacom" "Vodacom")
  else if includes (strs ["71"; "72"; "73"; "74"; "76"; "78"]%string) prefix
  then Some (info "ZA" "mtn" "MTN South Africa")
  else if includes (strs ["81"; "84"]%string) prefix
  then Some (info "ZA" "cellc" "Cell C")
  else None.

(** One [if (cleaned.startsWith(code)) { ... }] block: a block whose table
    has no entry for the prefix falls through to the next block. *)
Definition block (cleaned : jsstring) (code : string) (from to : nat)
  (table : jsstring -> option NetworkInfo) : option NetworkInfo :=
  if startsWith cleaned (js code)
  then table (substring cleaned from to)
  else None.

Definition orNext (a : option NetworkInfo) (b : NetworkInfo) : NetworkInfo :=
  match a with
  | Some i => i
  | None => b
  end.

Definition detectNetwork (phone : jsstring) : NetworkInfo :=
  let cleaned := digitsOnly phone in
  orNext (block cleaned "233" 3 5 ghana)
  (orNext (block cleaned "234" 3 6 nigeria)
  (orNext (block cleaned "254" 3 6 kenya)
  (orNext (block cleaned "27" 2 4 southAfrica)
     {| country := None; network := None; operator := None |}))).

End GeoMiddleware.

(** ** sms-validation.service *)

Module SMSValidationService.

Record SMSValidationResult := {
  valid : bool;
  phone : jsstring;
  formatted : jsstring;
  country : option jsstring;
  countryCode : jsstring;
  network : option jsstring;
  operator : option jsstring;
  type : jsstring;
  errors : option (list jsstring)
}.

Definition err_start : jsstring :=
  js "Phone number must start with + and country code".
Definition err_length : jsstring :=
  js "Phone number must be between 10 and 15 digits".

(** The two checks of [validatePhoneNumber] push onto [errors] in order. *)
Definition phoneErrors (cleaned : jsstring) : list jsstring :=
  (if negb (startsWith cleaned [plus_sign]) then [err_start] else [])
  ++ (if (jslength cleaned <? 10) || (jslength cleaned >? 16)
      then [err_length] else []).

(** [validatePhoneNumber]; the warning logged for a number outside the
    African calling codes does not reach the result. *)
Definition validatePhoneNumber (phone : jsstring) : SMSValidationResult :=
  let cleaned := digitsAndPlus phone in
  let errors := phoneErrors cleaned in
  let networkInfo := GeoMiddleware.detectNetwork cleaned in
  {| valid := (List.length errors =? 0)%nat;
     phone := phone;
     formatted := cleaned;
     country := truthy (GeoMiddleware.country networkInfo);
     countryCode :=
       substring cleaned 0 (if jslength cleaned >=? 4 then 4 else 3);
     network := truthy (GeoMiddleware.network networkInfo);
     operator := truthy (GeoMiddleware.operator networkInfo);
     type := js "mobile";
     errors := if (0 <? List.length errors)%nat then Some errors else None |}.

Inductive Encoding := GSM7 | UCS2.

Record MessageUnits := {
  messageLength : Z;
  units : Z;
  encoding : Encoding;
  charactersPerUnit : Z
}.

(** The character class of the [gsm7chars] regular expression, in the order
    it is written: single code units and the ranges [0-9], [A-Z], [a-z].
    (Between [0xD1] and [0xBF] the source file holds the one code unit
    [0x727].) *)
Definition gsm7class : list (N * N) :=
  List.map (fun c => (c, c))
    [0x40; 0xA3; 0x24; 0xA5; 0xE8; 0xE9; 0xF9; 0xEC; 0xF2; 0xC7; 0x0A; 0xD8;
     0xF8; 0x0D; 0xC5; 0xE5; 0x394; 0x5F; 0x3A6; 0x393; 0x39B; 0x3A9; 0x3A0;
     0x3A8; 0x3A3; 0x398; 0x39E; 0xC6; 0xE6; 0xDF; 0xC9; 0x20; 0x21; 0x22;
     0x23; 0xA4; 0x25; 0x26; 0x27; 0x28; 0x29; 0x2A; 0x2B; 0x2C; 0x2D; 0x2E;
     0x2F]%N
  ++ [(0x30, 0x39)]%N
  ++ List.map (fun c => (c, c)) [0x3A; 0x3B; 0x3C; 0x3D; 0x3E; 0x3F; 0xA1]%N
  ++ [(0x41, 0x5A)]%N
  ++ List.map (fun c => (c, c)) [0xA8; 0xC4; 0xD6; 0xD1; 0x727; 0xBF]%N
  ++ [(0x61, 0x7A)]%N
  ++ List.map (fun c => (c, c)) [0xAC; 0xE4; 0xF6; 0xF1; 0xFC; 0xE0]%N.

Definition inClass (cls : list (N * N)) (c : N) : bool :=
  existsb (fun r => (fst r <=? c)%N && (c <=? snd r)%N) cls.

(** [gsm7chars.test(message)]: the pattern is [^[...]*$]. *)
Definition gsm7chars_test (message : jsstring) : bool :=
  forallb (inClass gsm7class) message.

Definition calculateMessageUnits (message : jsstring) : MessageUnits :=
  let length := jslength message in
  let encoding := if negb (gsm7chars_test message) then UCS2 else GSM7 in
  let charactersPerUnit :=
    if negb (gsm7chars_test message) then 70 else 160 in
  if length =? 0 then
    {| messageLength := length; units := 0; encoding := encoding;
       charactersPerUnit := charactersPerUnit |}
  else match encoding with
  | GSM7 =>
      if length <=? 160 then
        {| messageLength := length; units := 1; encoding := encoding;
           charactersPerUnit := charactersPerUnit |}
      else
        {| messageLength := length; units := Math_ceil_div length 153;
           encoding := encoding; charactersPerUnit := 153 |}
  | UCS2 =>
      if length <=? 70 then
        {| messageLength := length; units := 1; encoding := encoding;
           charactersPerUnit := charactersPerUnit |}
      else
        {| messageLength := length; units := Math_ceil_div length 67;
           encoding := encoding; charactersPerUnit := 67 |}
  end.

(** The regular-expression engine behind [new RegExp(pattern, 'g')] and
    [subject.replace(regex, value)]: building the expression from a
    caller-supplied key may throw a [SyntaxError]. *)
Record RegExpEngine := {
  replaceAll : jsstring -> jsstring -> jsstring -> Result jsstring
}.

(** [replaceVariables]: for every entry, [{{key}}] then [{key}]. *)
Fixpoint replaceVariables (re : RegExpEngine) (message : jsstring)
  (variables : list (jsstring * jsstring)) : Result jsstring :=
  match variables with
  | [] => Ok message
  | (key, value) :: rest =>
      match replaceAll re (js "{{" ++ key ++ js "}}") message value with
      | Throw e => Throw e
      | Ok r1 =>
          match replaceAll re (js "{" ++ key ++ js "}") r1 value with
          | Throw e => Throw e
          | Ok r2 => replaceVariables re r2 rest
          end
      end
  end.

End SMSValidationService.

(** ** sms-router.service *)

Module SMSRouterService.

Inductive MessageType := SMS | BULK | OTP.

Definition MessageType_eqb (a b : MessageType) : bool :=
  match a, b with
  | SMS, SMS | BULK, BULK | OTP, OTP => true
  | _, _ => false
  end.

Inductive PriorityHint := cost | speed | reliability.

(** Modelled from the spec: the provider row (the Prisma schema is not part
    of the sources): supported countries and networks, status, priority
    rank, rolling success rate, rolling average latency, error counter. *)
Record Provider := {
  id : jsstring;
  name : jsstring;
  type : jsstring;
  status : jsstring;
  supportedCountries : list jsstring;
  supportedNetworks : list jsstring;
  priority : Z;
  successRate : Q;
  avgLatency : Q;
  errorCount : Z
}.

Record ProviderSelectionCriteria := {
  country : jsstring;
  network : option jsstring;
  messageType : MessageType;
  hint : option PriorityHint
}.

Record ProviderInfo := {
  info_id : jsstring;
  info_name : jsstring;
  info_type : jsstring;
  countries : list jsstring;
  networks : list jsstring;
  info_priority : Z;
  info_successRate : option Q;
  info_avgLatency : option Q;
  costPerUnit : Q
}.

(** [where: { type: 'SMS', status: 'ACTIVE', supportedCountries: { has } }] *)
Definition eligible (country : jsstring) (p : Provider) : bool :=
  jseqb (type p) (js "SMS") && jseqb (status p) (js "ACTIVE")
  && includes (supportedCountries p) country.

(** [orderBy: [{ priority: 'desc' }, { successRate: 'desc' }]] *)
Definition byPriority (a b : Provider) : bool :=
  (priority b <? priority a)
  || ((priority a =? priority b) && Qle_bool (successRate b) (successRate a)).

(** [(a, b) => (a.avgLatency || 1000) - (b.avgLatency || 1000)] *)
Definition byLatency (a b : Provider) : bool :=
  Qle_bool (orElse (avgLatency a) 1000) (orElse (avgLatency b) 1000).

(** [(a, b) => (b.successRate || 0) - (a.successRate || 0)] *)
Definition bySuccessRate (a b : Provider) : bool :=
  Qle_bool (orElse (successRate b) 0) (orElse (successRate a) 0).

Definition findManyProviders (table : list Provider) (country : jsstring)
  : list Provider :=
  sortBy byPriority (filter (eligible country) table).

(** The network filter with its fall-back to the country-only list. *)
Definition filterByNetwork (providers : list Provider)
  (network : option jsstring) : list Provider :=
  match truthy network with
  | Some n =>
      match filter (fun p => includes (supportedNetworks p) n) providers with
      | [] => providers
      | filtered => filtered
      end
  | None => providers
  end.

Definition applyPriority (filteredProviders : list Provider)
  (hint : option PriorityHint) : option Provider :=
  match hint with
  | Some cost => hd_error filteredProviders
  | Some speed => hd_error (sortBy byLatency filteredProviders)
  | Some reliability => hd_error (sortBy bySuccessRate filteredProviders)
  | None => hd_error filteredProviders
  end.

Definition zeroAsUndefined (x : Q) : option Q :=
  if Qeq_bool x 0 then None else Some x.

Definition toInfo (p : Provider) : ProviderInfo :=
  {| info_id := id p;
     info_name := name p;
     info_type := type p;
     countries := supportedCountries p;
     networks := supportedNetworks p;
     info_priority := priority p;
     info_successRate := zeroAsUndefined (successRate p);
     info_avgLatency := zeroAsUndefined (avgLatency p);
     costPerUnit := 35 # 1000 |}.

(** The provider [selectProvider] settles on, before the projection to
    [ProviderInfo].  [db] is what [prisma.provider.findMany] sees, or the
    error it raises; the [catch] turns every error into [null]. *)
Definition selectedProvider (db : Result (list Provider))
  (criteria : ProviderSelectionCriteria) : option Provider :=
  match db with
  | Throw _ => None
  | Ok table =>
      match findManyProviders table (country criteria) with
      | [] => None
      | providers =>
          applyPriority (filterByNetwork providers (network criteria))
            (hint criteria)
      end
  end.

Definition selectProvider (db : Result (list Provider))
  (criteria : ProviderSelectionCriteria) : option ProviderInfo :=
  option_map toInfo (selectedProvider db criteria).

(** Modelled from the spec: the pricing-rate row (the Prisma schema is not
    part of the sources): country, optional network ([None] is the
    country-wide default), service type, message type, rate per unit,
    currency, effective window; [isActive] is the flag the query filters
    on.  Times are milliseconds since the epoch. *)
Record PricingRate := {
  rate_country : jsstring;
  rate_network : option jsstring;
  rate_messageType : MessageType;
  serviceType : jsstring;
  isActive : bool;
  effectiveFrom : Z;
  effectiveTo : option Z;
  ratePerUnit : Q;
  currency : jsstring
}.

Record SMSPricing := {
  pricing_country : jsstring;
  pricing_network : option jsstring;
  pricing_ratePerUnit : Q;
  pricing_currency : jsstring;
  pricing_units : Z;
  totalCost : Q
}.

Definition optionEqb (a b : option jsstring) : bool :=
  match a, b with
  | None, None => true
  | Some x, Some y => jseqb x y
  | _, _ => false
  end.

(** The [where] clause of the pricing query; [network] is already
    [network || null]. *)
Definition rateMatches (now : Z) (country : jsstring)
  (network : option jsstring) (messageType : MessageType) (r : PricingRate)
  : bool :=
  jseqb (rate_country r) country
  && optionEqb (rate_network r) network
  && MessageType_eqb (rate_messageType r) messageType
  && jseqb (serviceType r) (js "SMS")
  && isActive r
  && (effectiveFrom r <=? now)
  && match effectiveTo r with
     | None => true
     | Some t => now <=? t
     end.

(** [orderBy: { effectiveFrom: 'desc' }] *)
Definition byEffectiveFrom (a b : PricingRate) : bool :=
  effectiveFrom b <=? effectiveFrom a.

Definition findFirstRate (table : list PricingRate) (now : Z)
  (country : jsstring) (network : option jsstring)
  (messageType : MessageType) : option PricingRate :=
  hd_error (sortBy byEffectiveFrom
              (filter (rateMatches now country network messageType) table)).

Definition fallbackRate : Q := 35 # 1000.

Definition fallbackPricing (country : jsstring) (network : option jsstring)
  (units : Z) : SMSPricing :=
  {| pricing_country := country;
     pricing_network := network;
     pricing_ratePerUnit := fallbackRate;
     pricing_currency := js "GHS";
     pricing_units := units;
     totalCost := (fallbackRate * inject_Z units)%Q |}.

(** [getPricing]: one query keyed on [(country, network || null)], then the
    default pricing; the [catch] returns the default pricing too. *)
Definition getPricing (db : Result (list PricingRate)) (now : Z)
  (country : jsstring) (network : option jsstring)
  (messageType : MessageType) (units : Z) : SMSPricing :=
  match db with
  | Throw _ => fallbackPricing country network units
  | Ok table =>
      match findFirstRate table now country (truthy network) messageType with
      | None => fallbackPricing country network units
      | Some pricing =>
          {| pricing_country := country;
             pricing_network := truthy network;
             pricing_ratePerUnit := ratePerUnit pricing;
             pricing_currency := currency pricing;
             pricing_units := units;
             totalCost := (ratePerUnit pricing * inject_Z units)%Q |}
      end
  end.

(** [Object.entries(countryCodeMap)]: the keys are integer-like, so they
    are visited in ascending numeric order. *)
Definition countryCodeMap : list (jsstring * jsstring) :=
  List.map (fun kv => (js (fst kv), js (snd kv)))
    [("20", "EG"); ("27", "ZA"); ("212", "MA"); ("213", "DZ"); ("221", "SN");
     ("225", "CI"); ("233", "GH"); ("234", "NG"); ("237", "CM");
     ("250", "RW"); ("251", "ET"); ("254", "KE"); ("255", "TZ");
     ("256", "UG")]%string.

Definition getCountryFromPhone (phone : jsstring) : jsstring :=
  let cleaned := digitsOnly phone in
  match find (fun kv => startsWith cleaned (fst kv)) countryCodeMap with
  | Some kv => snd kv
  | None => js "GH"
  end.

Definition net (n : string) : option jsstring := Some (js n).

Definition ghanaNetwork (prefix : jsstring) : option jsstring :=
  if includes (GeoMiddleware.strs ["20"; "50"; "23"; "28"]%string) prefix
  then net "vodafone"
  else if includes (GeoMiddleware.strs ["24"; "54"; "55"; "59"]%string) prefix
  then net "mtn"
  else if includes (GeoMiddleware.strs ["26"; "56"; "27"; "57"]%string) prefix
  then net "airteltigo"
  else None.

Definition nigeriaNetwork (prefix : jsstring) : option jsstring :=
  if includes (GeoMiddleware.strs
       ["803"; "806"; "810"; "813"; "816"; "903"; "906"]%string) prefix
  then net "mtn"
  else if includes (GeoMiddleware.strs
       ["805"; "807"; "811"; "815"; "905"]%string) prefix
  then net "glo"
  else if includes (GeoMiddleware.strs
       ["802"; "808"; "812"; "902"; "907"; "901"]%string) prefix
  then net "airtel"
  else None.

Definition kenyaNetwork (prefix : jsstring) : option jsstring :=
  if includes (GeoMiddleware.strs
       ["701"; "702"; "703"; "704"; "705"; "706"; "707"; "708"; "709"]%string)
       prefix
  then net "safaricom"
  else if includes (GeoMiddleware.strs
       ["710"; "711"; "712"; "713"; "714"; "715"]%string) prefix
  then net "airtel"
  else None.

Definition networkBlock (cleaned : jsstring) (code : string) (to : nat)
  (table : jsstring -> option jsstring) : option jsstring :=
  if startsWith cleaned (js code) then table (substring cleaned 3 to)
  else None.

(** [detectNetworkFromPhone], reduced to the [network] field its caller
    reads ([networkInfo?.network]). *)
Definition detectNetworkFromPhone (phone : jsstring) : option jsstring :=
  let cleaned := digitsOnly phone in
  match networkBlock cleaned "233" 5 ghanaNetwork with
  | Some n => Some n
  | None =>
      match networkBlock cleaned "234" 6 nigeriaNetwork with
      | Some n => Some n
      | None => networkBlock cleaned "254" 6 kenyaNetwork
      end
  end.

Record Routing := {
  provider : option ProviderInfo;
  pricing : SMSPricing;
  routing_country : jsstring;
  routing_network : option jsstring
}.

Definition routeMessage (providers : Result (list Provider))
  (rates : Result (list PricingRate)) (now : Z) (to : jsstring)
  (messageType : MessageType) (hint : option PriorityHint) : Routing :=
  let country := getCountryFromPhone to in
  let network := detectNetworkFromPhone to in
  {| provider :=
       selectProvider providers
         {| country := country; network := network;
            messageType := messageType; hint := hint |};
     pricing := getPricing rates now country network messageType 1;
     routing_country := country;
     routing_network := network |}.

End SMSRouterService.

(** ** sms.service: bulk dispatch *)

Module SMSService.

Import SMSRouterService.

Inductive MessageStatus := PENDING | QUEUED | SENT | DELIVERED | FAILED | EXPIRED.

(** Modelled from the spec: the sender-identity row (the Prisma schema is
    not part of the sources), with the columns the queries filter on. *)
Record SenderId := {
  sender_id : jsstring;
  sender_accountId : jsstring;
  sender_name : jsstring;
  sender_status : jsstring;
  sender_isActive : bool;
  sender_isDefault : bool
}.

(** The columns [prisma.message.create] is given; free-form metadata and
    tags are copied through and left out. *)
Record Message := {
  msg_id : jsstring;
  msg_accountId : jsstring;
  recipient : jsstring;
  recipientCountry : jsstring;
  recipientNetwork : option jsstring;
  content : jsstring;
  msg_messageType : MessageType;
  msg_senderId : jsstring;
  senderName : jsstring;
  msg_status : MessageStatus;
  msg_provider : jsstring;
  msg_units : Z;
  unitCost : Q;
  msg_totalCost : Q;
  msg_currency : jsstring;
  msg_batchId : option jsstring;
  msg_scheduledFor : option Z
}.

(** The tables the dispatcher reads and writes; the store is taken to be
    available, so that reading and inserting rows succeed. *)
Record World := {
  providers : list Provider;
  rates : list PricingRate;
  senderIds : list SenderId;
  messages : list Message
}.

(** What the surroundings hand to one bulk call: the [nanoid(16)] drawn for
    the batch, the clock at the pricing query of the i-th recipient, the
    primary key the store gives to its n-th message row, and the
    regular-expression engine. *)
Record Env := {
  nanoid : jsstring;
  clock : nat -> Z;
  newId : nat -> jsstring;
  regexp : SMSValidationService.RegExpEngine
}.

Definition approved (accountId : jsstring) (s : SenderId) : bool :=
  jseqb (sender_accountId s) accountId
  && jseqb (sender_status s) (js "APPROVED")
  && sender_isActive s.

Definition senderPair (s : SenderId) : jsstring * jsstring :=
  (sender_id s, sender_name s).

(** The part of the fall-back chain the two [resolveSenderId] share:
    the requested identity, then the default one, then any approved one. *)
Definition lookupSender (table : list SenderId) (accountId : jsstring)
  (requestedSenderId : option jsstring) : option SenderId :=
  let requested :=
    match truthy requestedSenderId with
    | Some n =>
        find (fun s => approved accountId s && jseqb (sender_name s) n) table
    | None => None
    end in
  match requested with
  | Some s => Some s
  | None =>
      match find (fun s => approved accountId s && sender_isDefault s) table with
      | Some s => Some s
      | None => find (approved accountId) table
      end
  end.

Definition resolveSenderId (table : list SenderId) (accountId : jsstring)
  (requestedSenderId : option jsstring) : Result (jsstring * jsstring) :=
  match lookupSender table accountId requestedSenderId with
  | Some s => Ok (senderPair s)
  | None =>
      Throw (js "No approved sender ID found. Please register a sender ID first.")
  end.

Record Recipient := {
  to : jsstring;
  message : option jsstring;
  variables : option (list (jsstring * jsstring))
}.

Record BulkSMSRequest := {
  recipients : list Recipient;
  defaultMessage : option jsstring;
  senderId : option jsstring;
  scheduledFor : option Z
}.

Inductive RowStatus := accepted | rejected.

Definition RowStatus_eqb (a b : RowStatus) : bool :=
  match a, b with
  | accepted, accepted | rejected, rejected => true
  | _, _ => false
  end.

Record Row := {
  row_id : jsstring;
  row_to : jsstring;
  row_status : RowStatus;
  error : option jsstring
}.

Record BulkSMSResponse := {
  batchId : jsstring;
  totalRecipients : Z;
  acceptedCount : Z;
  rejectedCount : Z;
  estimatedCost : Q;
  response_currency : jsstring;
  rows : list Row
}.

(** The variables the loop over the recipients carries. *)
Record Loop := {
  results : list Row;
  totalCost : Q;
  world : World
}.

Definition reject (st : Loop) (r : Recipient) (e : option jsstring) : Loop :=
  {| results :=
       results st ++ [{| row_id := []; row_to := to r; row_status := rejected;
                         error := e |}];
     totalCost := totalCost st;
     world := world st |}.

(** [recipient.message || request.message] *)
Definition messageFor (request : BulkSMSRequest) (r : Recipient)
  : option jsstring :=
  match truthy (message r) with
  | Some m => Some m
  | None => truthy (defaultMessage request)
  end.

Definition finalMessageFor (env : Env) (message : jsstring) (r : Recipient)
  : Result jsstring :=
  match variables r with
  | Some vars => SMSValidationService.replaceVariables (regexp env) message vars
  | None => Ok message
  end.

Definition insertMessage (w : World) (m : Message) : World :=
  {| providers := providers w; rates := rates w; senderIds := senderIds w;
     messages := messages w ++ [m] |}.

(** The body of the loop of [sendBulkSMS] for the i-th recipient. *)
Definition processRecipient (env : Env) (accountId : jsstring)
  (request : BulkSMSRequest) (sender : jsstring * jsstring) (i : nat)
  (r : Recipient) (st : Loop) : Loop :=
  match messageFor request r with
  | None => reject st r (Some (js "No message provided"))
  | Some message =>
      match finalMessageFor env message r with
      | Throw e => reject st r (Some e)
      | Ok finalMessage =>
          let validation := SMSValidationService.validatePhoneNumber (to r) in
          if negb (SMSValidationService.valid validation) then
            reject st r
              (option_map (join (js ", "))
                 (SMSValidationService.errors validation))
          else
            let messageUnits :=
              SMSValidationService.calculateMessageUnits finalMessage in
            let w := world st in
            let routing :=
              routeMessage (Ok (providers w)) (Ok (rates w)) (clock env i)
                (SMSValidationService.formatted validation) BULK None in
            match provider routing with
            | None => reject st r (Some (js "No provider available"))
            | Some prov =>
                let pricing :=
                  getPricing (Ok (rates w)) (clock env i)
                    (routing_country routing) (routing_network routing) BULK
                    (SMSValidationService.units messageUnits) in
                let msg :=
                  {| msg_id := newId env (List.length (messages w));
                     msg_accountId := accountId;
                     recipient := SMSValidationService.formatted validation;
                     recipientCountry := routing_country routing;
                     recipientNetwork := routing_network routing;
                     content := finalMessage;
                     msg_messageType := BULK;
                     msg_senderId := fst sender;
                     senderName := snd sender;
                     msg_status := QUEUED;
                     msg_provider := info_name prov;
                     msg_units := SMSValidationService.units messageUnits;
                     unitCost := pricing_ratePerUnit pricing;
                     msg_totalCost := SMSRouterService.totalCost pricing;
                     msg_currency := pricing_currency pricing;
                     msg_batchId := Some (nanoid env);
                     msg_scheduledFor := scheduledFor request |} in
                {| results :=
                     results st
                     ++ [{| row_id := msg_id msg;
                            row_to := SMSValidationService.formatted validation;
                            row_status := accepted;
                            error := None |}];
                   totalCost :=
                     (totalCost st + SMSRouterService.totalCost pricing)%Q;
                   world := insertMessage w msg |}
            end
      end
  end.

Fixpoint processRecipients (env : Env) (accountId : jsstring)
  (request : BulkSMSRequest) (sender : jsstring * jsstring) (i : nat)
  (rs : list Recipient) (st : Loop) : Loop :=
  match rs with
  | [] => st
  | r :: rest =>
      processRecipients env accountId request sender (S i) rest
        (processRecipient env accountId request sender i r st)
  end.

Definition countStatus (s : RowStatus) (l : list Row) : Z :=
  Z.of_nat (List.length (filter (fun r => RowStatus_eqb (row_status r) s) l)).

Definition sendBulkSMS (env : Env) (w : World) (accountId : jsstring)
  (request : BulkSMSRequest) : Result (BulkSMSResponse * World) :=
  let batchId := nanoid env in
  match resolveSenderId (senderIds w) accountId (senderId request) with
  | Throw e => Throw e
  | Ok sender =>
      let st :=
        processRecipients env accountId request sender 0 (recipients request)
          {| results := []; totalCost := 0; world := w |} in
      Ok ({| batchId := batchId;
             totalRecipients := Z.of_nat (List.length (recipients request));
             acceptedCount := countStatus accepted (results st);
             rejectedCount := countStatus rejected (results st);
             estimatedCost := totalCost st;
             response_currency := js "GHS";
             rows := results st |},
          world st)
  end.

End SMSService.

(** ** otp.service *)

Module OTPService.

Inductive PinType := NUMERIC | ALPHANUMERIC | ALPHABETIC.

Inductive Duration := seconds | minutes | hours.

(** The two random sources of the runtime: the i-th value [Math.random()]
    returns during a call, and the i-th value a
    [crypto.getRandomValues] draw would give. *)
Record RandomSources := {
  Math_random : nat -> Q;
  crypto_getRandomValues : nat -> N
}.

(** [Bun.password]: [hash] with the salt it draws, and [verify], which may
    throw on a malformed hash. *)
Record BunPassword := {
  hash : jsstring -> N -> jsstring;
  verify : jsstring -> jsstring -> Result bool
}.

Definition characters (type : PinType) : jsstring :=
  match type with
  | NUMERIC => js "0123456789"
  | ALPHANUMERIC => js "0123456789ABCDEFGHIJKLMNOPQRSTUVWXYZ"
  | ALPHABETIC => js "ABCDEFGHIJKLMNOPQRSTUVWXYZ"
  end.

(** [n] more rounds of the loop of [generateCode], the next one being
    round [i]:
    [code += characters.charAt(Math.floor(Math.random() * charactersLength))]. *)
Fixpoint generateFrom (rnd : RandomSources) (characters : jsstring)
  (i n : nat) : jsstring :=
  match n with
  | O => []
  | S n' =>
      charAt characters
        (Qfloor (Math_random rnd i * inject_Z (jslength characters))%Q)
      ++ generateFrom rnd characters (S i) n'
  end.

Definition generateCode (rnd : RandomSources) (length : Z) (type : PinType)
  : jsstring :=
  generateFrom rnd (characters type) 0 (Z.to_nat length).

(** [hashCode]: [Bun.password.hash] refuses the empty password, and the
    error is not caught. *)
Definition hashCode (bun : BunPassword) (code : jsstring) (salt : N)
  : Result jsstring :=
  match code with
  | [] => Throw (js "password must not be empty")
  | _ :: _ => Ok (hash bun code salt)
  end.

(** [verifyCode]: an error of the verifier counts as a mismatch. *)
Definition verifyCode (bun : BunPassword) (code hash : jsstring) : bool :=
  match verify bun code hash with
  | Ok isValid => isValid
  | Throw _ => false
  end.

Definition calculateExpiry (now amount : Z) (duration : Duration) : Z :=
  now + match duration with
        | seconds => amount * 1000
        | minutes => amount * 60 * 1000
        | hours => amount * 60 * 60 * 1000
        end.

(** [isExpired(expiresAt)] when the clock reads [now]. *)
Definition isExpired (now expiresAt : Z) : bool := now >? expiresAt.

(** The calling codes and local lengths of [africanCountries]. *)
Definition africanCountries : list (jsstring * Z) :=
  List.map (fun c => (js (fst c), snd c))
    [("233", 10); ("234", 11); ("254", 10); ("27", 10); ("256", 10);
     ("255", 10); ("250", 10); ("225", 10); ("221", 9); ("237", 9);
     ("20", 11); ("212", 10); ("213", 10); ("251", 10)]%string.

Definition normalizePhoneNumber (phone : jsstring) : jsstring :=
  let cleaned := digitsAndPlus phone in
  if startsWith cleaned [plus_sign] then cleaned
  else
    let local :=
      if startsWith cleaned (js "0")
      then find (fun c => jslength cleaned =? snd c) africanCountries
      else None in
    match local with
    | Some country => [plus_sign] ++ fst country ++ skipn 1 cleaned
    | None =>
        match find (fun c => startsWith cleaned (fst c)) africanCountries with
        | Some _ => [plus_sign] ++ cleaned
        | None =>
            if (jslength cleaned >=? 9)
               && negb (startsWith cleaned [plus_sign])
            then [plus_sign] ++ cleaned
            else cleaned
        end
    end.

End OTPService.

(** ** verification-storage.service *)

Module VerificationStorageService.

Import OTPService.

Inductive OTPStatus := PENDING | VERIFIED | FAILED | EXPIRED.

Definition OTPStatus_eqb (a b : OTPStatus) : bool :=
  match a, b with
  | PENDING, PENDING | VERIFIED, VERIFIED | FAILED, FAILED
  | EXPIRED, EXPIRED => true
  | _, _ => false
  end.

(** Modelled from the spec: the OTP row (the Prisma schema is not part of
    the sources), with the columns the service reads and writes; the
    primary key the store generates is the number of the row.  Cost,
    currency, purpose and metadata are constants or copied through and are
    left out. *)
Record OtpMessage := {
  id : N;
  accountId : jsstring;
  recipient : jsstring;
  codeHash : jsstring;
  codeLength : Z;
  status : OTPStatus;
  expiresAt : Z;
  maxAttempts : Z;
  attempts : Z;
  senderId : jsstring;
  senderName : jsstring;
  createdAt : Z;
  verifiedAt : option Z
}.

Definition Table := list OtpMessage.

(** The argument of [storeOTP]. *)
Record OTPStoreInput := {
  in_id : jsstring;
  in_phone : jsstring;
  in_codeHash : jsstring;
  in_expiresAt : Z;
  in_maxAttempts : Z;
  in_status : OTPStatus;
  in_pinLength : Z;
  in_pinType : PinType;
  in_senderId : jsstring
}.

(** What [getActiveOTP] returns. *)
Record OTPStorageData := {
  data_id : N;
  data_phone : jsstring;
  data_codeHash : jsstring;
  data_expiresAt : Z;
  data_attempts : Z;
  data_maxAttempts : Z;
  data_status : OTPStatus;
  data_pinLength : Z;
  data_pinType : PinType;
  data_senderId : jsstring;
  data_createdAt : Z;
  data_verifiedAt : option Z
}.

(** [storeOTP]: the account is read back from the composite id,
    [data.id.split('_')[0]]; [now] is the creation time the store stamps. *)
Definition storeOTP (table : Table) (now : Z) (data : OTPStoreInput)
  : N * Table :=
  let otp :=
    {| id := N.of_nat (List.length table);
       accountId := beforeUnderscore (in_id data);
       recipient := in_phone data;
       codeHash := in_codeHash data;
       codeLength := in_pinLength data;
       status := in_status data;
       expiresAt := in_expiresAt data;
       maxAttempts := in_maxAttempts data;
       attempts := 0;
       senderId := in_senderId data;
       senderName := in_senderId data;
       createdAt := now;
       verifiedAt := None |} in
  (id otp, table ++ [otp]).

Definition forPair (accountId phone : jsstring) (o : OtpMessage) : bool :=
  jseqb (VerificationStorageService.accountId o) accountId
  && jseqb (recipient o) phone.

Definition isPending (o : OtpMessage) : bool := OTPStatus_eqb (status o) PENDING.

(** [orderBy: { createdAt: 'desc' }] *)
Definition byCreatedAt (a b : OtpMessage) : bool := createdAt b <=? createdAt a.

(** [findFirst({ where: { accountId, recipient }, orderBy: createdAt desc })] *)
Definition findLast (table : Table) (accountId phone : jsstring)
  : option OtpMessage :=
  hd_error (sortBy byCreatedAt (filter (forPair accountId phone) table)).

(** The row [getActiveOTP] selects. *)
Definition findActive (table : Table) (now : Z) (accountId phone : jsstring)
  : option OtpMessage :=
  hd_error
    (sortBy byCreatedAt
       (filter (fun o => forPair accountId phone o && isPending o
                         && (expiresAt o >? now)) table)).

Definition getActiveOTP (table : Table) (now : Z) (accountId phone : jsstring)
  : option OTPStorageData :=
  match findActive table now accountId phone with
  | None => None
  | Some otp =>
      Some {| data_id := id otp;
              data_phone := recipient otp;
              data_codeHash := codeHash otp;
              data_expiresAt := expiresAt otp;
              data_attempts := attempts otp;
              data_maxAttempts := maxAttempts otp;
              data_status := status otp;
              data_pinLength := codeLength otp;
              data_pinType := NUMERIC;
              data_senderId := senderName otp;
              data_createdAt := createdAt otp;
              data_verifiedAt := verifiedAt otp |}
  end.

Definition setStatus (s : OTPStatus) (o : OtpMessage) : OtpMessage :=
  {| id := id o; accountId := accountId o; recipient := recipient o;
     codeHash := codeHash o; codeLength := codeLength o; status := s;
     expiresAt := expiresAt o; maxAttempts := maxAttempts o;
     attempts := attempts o; senderId := senderId o;
     senderName := senderName o; createdAt := createdAt o;
     verifiedAt := verifiedAt o |}.

Definition setVerified (now : Z) (o : OtpMessage) : OtpMessage :=
  {| id := id o; accountId := accountId o; recipient := recipient o;
     codeHash := codeHash o; codeLength := codeLength o; status := VERIFIED;
     expiresAt := expiresAt o; maxAttempts := maxAttempts o;
     attempts := attempts o; senderId := senderId o;
     senderName := senderName o; createdAt := createdAt o;
     verifiedAt := Some now |}.

Definition addAttempt (o : OtpMessage) : OtpMessage :=
  {| id := id o; accountId := accountId o; recipient := recipient o;
     codeHash := codeHash o; codeLength := codeLength o; status := status o;
     expiresAt := expiresAt o; maxAttempts := maxAttempts o;
     attempts := attempts o + 1; senderId := senderId o;
     senderName := senderName o; createdAt := createdAt o;
     verifiedAt := verifiedAt o |}.

Definition findById (table : Table) (otpId : N) : option OtpMessage :=
  find (fun o => N.eqb (id o) otpId) table.

(** [prisma.otpMessage.update({ where: { id }, data })]: throws when no
    row has the id. *)
Definition update (table : Table) (otpId : N) (f : OtpMessage -> OtpMessage)
  : Result Table :=
  match findById table otpId with
  | None => Throw (js "Record to update not found.")
  | Some _ =>
      Ok (List.map (fun o => if N.eqb (id o) otpId then f o else o) table)
  end.

Definition incrementAttempts (table : Table) (otpId : N) : Result (Z * Table) :=
  match update table otpId addAttempt with
  | Throw e => Throw e
  | Ok table' =>
      match findById table' otpId with
      | Some otp => Ok (attempts otp, table')
      | None => Throw (js "Record to update not found.")
      end
  end.

Definition markAsVerified (table : Table) (now : Z) (otpId : N) : Result Table :=
  update table otpId (setVerified now).

Definition markAsFailed (table : Table) (otpId : N) : Result Table :=
  update table otpId (setStatus FAILED).

Definition markAsExpired (table : Table) (otpId : N) : Result Table :=
  update table otpId (setStatus EXPIRED).

(** [invalidatePendingOTPs]: the [updateMany] and the count it reports. *)
Definition invalidatePendingOTPs (table : Table) (accountId phone : jsstring)
  : Z * Table :=
  (Z.of_nat (List.length
     (filter (fun o => forPair accountId phone o && isPending o) table)),
   List.map (fun o => if forPair accountId phone o && isPending o
                      then setStatus EXPIRED o else o) table).

Record RateLimitInfo := {
  canSend : bool;
  cooldownEndsAt : option Z;
  remainingSeconds : option Z;
  reason : option jsstring
}.

(** The decimal digits of a number, as a template literal prints it. *)
Definition decimal (n : Z) : jsstring :=
  js (DecimalString.NilZero.string_of_int (Z.to_int n)).

Definition checkRateLimit (table : Table) (now : Z)
  (accountId phone : jsstring) (cooldownSeconds : Z) : RateLimitInfo :=
  match findLast table accountId phone with
  | None =>
      {| canSend := true; cooldownEndsAt := None; remainingSeconds := None;
         reason := None |}
  | Some lastOTP =>
      let lastSentAt := createdAt lastOTP in
      let cooldownMs := cooldownSeconds * 1000 in
      let elapsed := now - lastSentAt in
      if elapsed <? cooldownMs then
        let remainingMs := cooldownMs - elapsed in
        let remainingSeconds := Math_ceil_div remainingMs 1000 in
        {| canSend := false;
           cooldownEndsAt := Some (lastSentAt + cooldownMs);
           remainingSeconds := Some remainingSeconds;
           reason :=
             Some (js "Please wait " ++ decimal remainingSeconds
                   ++ js " seconds before requesting another OTP") |}
      else
        {| canSend := true; cooldownEndsAt := None; remainingSeconds := None;
           reason := None |}
  end.

End VerificationStorageService.

(** ** verification.service *)

Module VerificationService.

Import OTPService VerificationStorageService.

Record OTPExpiry := {
  amount : Z;
  duration : Duration
}.

Record OTPRequest := {
  phone : jsstring;
  from : option jsstring;
  pinLength : option Z;
  pinType : option PinType;
  expiry : option OTPExpiry;
  maxAttempts : option Z
}.

Record OTPVerifyRequest := {
  verify_phone : jsstring;
  code : jsstring
}.

Record OTPResendRequest := {
  resend_phone : jsstring
}.

Record OTPResponse := {
  response_id : N;
  response_phone : jsstring;
  response_from : jsstring;
  response_expiresAt : Z;
  expiresIn : Z;
  response_status : OTPStatus;
  response_message : jsstring
}.

Record OTPVerifyResponse := {
  success : bool;
  verified_phone : jsstring;
  verified : bool;
  attemptsLeft : option Z;
  message : jsstring;
  verifiedAt : option Z
}.

Record OTPResendResponse := {
  resend_id : N;
  resent_phone : jsstring;
  resend_from : jsstring;
  resend_expiresAt : Z;
  resend_expiresIn : Z;
  resend_message : jsstring;
  resend_cooldownEndsAt : Z
}.

(** What the surroundings hand to one [requestOTP] or [resendOTP] call:
    the clock at the cooldown check, the random sources, the salt of the
    hash, the clock at the expiry computation, the sender identities the
    directory holds, the creation time the store stamps, whether
    [SMSService.sendSMS] returns or throws, and the clock when the response
    is built.  The rendered text travels to the dispatcher only. *)
Record RequestEnv := {
  t_check : Z;
  random : RandomSources;
  salt : N;
  t_expiry : Z;
  senders : list SMSService.SenderId;
  t_created : Z;
  sendSMS : Result unit;
  t_return : Z
}.

(** The clock readings of one [verifyOTP] call: in the query of
    [getActiveOTP], in [isExpired], in [markAsVerified], and in the
    response of a successful verification. *)
Record VerifyEnv := {
  t_query : Z;
  t_expired : Z;
  t_verified : Z;
  t_response : Z
}.

(** The private [resolveSenderId] of the verification service: the chain
    of the dispatcher, ending in the brand name instead of an error. *)
Definition resolveSenderId (table : list SMSService.SenderId)
  (accountId : jsstring) (requestedSenderId : option jsstring)
  : jsstring * jsstring :=
  match SMSService.lookupSender table accountId requestedSenderId with
  | Some s => SMSService.senderPair s
  | None => (js "default", js "AfriCom")
  end.

(** [getExpiryInSeconds] *)
Definition getExpiryInSeconds (now expiresAt : Z) : Z :=
  Z.max 0 ((expiresAt - now) / 1000).

Definition orNumeric (t : option PinType) : PinType :=
  match t with
  | Some t' => t'
  | None => NUMERIC
  end.

(** The code [requestOTP] generates. *)
Definition requestCode (env : RequestEnv) (request : OTPRequest) : jsstring :=
  generateCode (random env) (orElseZ (pinLength request) 6)
    (orNumeric (pinType request)).

(** The code [resendOTP] generates from the last row. *)
Definition resendCode (env : RequestEnv) (lastOTP : OtpMessage) : jsstring :=
  generateCode (random env) (codeLength lastOTP) NUMERIC.

(** The [catch] around the dispatch: mark the new row FAILED and throw. *)
Definition dispatch {A : Type} (env : RequestEnv) (table : Table) (otpId : N)
  (failure : jsstring) (response : A) : Result A * Table :=
  match sendSMS env with
  | Ok _ => (Ok response, table)
  | Throw _ =>
      match markAsFailed table otpId with
      | Ok table' => (Throw failure, table')
      | Throw e => (Throw e, table)
      end
  end.

Definition requestOTP (bun : BunPassword) (env : RequestEnv) (table : Table)
  (accountId : jsstring) (request : OTPRequest)
  : Result OTPResponse * Table :=
  let phone := normalizePhoneNumber (phone request) in
  let rateLimitInfo := checkRateLimit table (t_check env) accountId phone 30 in
  if negb (canSend rateLimitInfo) then
    (Throw match truthy (reason rateLimitInfo) with
           | Some r => r
           | None => js "Please wait before requesting another OTP"
           end, table)
  else
    let table1 := snd (invalidatePendingOTPs table accountId phone) in
    let code := requestCode env request in
    match hashCode bun code (salt env) with
    | Throw e => (Throw e, table1)
    | Ok codeHash =>
        let expiry :=
          match expiry request with
          | Some e => e
          | None => {| amount := 10; duration := minutes |}
          end in
        let expiresAt :=
          calculateExpiry (t_expiry env) (amount expiry) (duration expiry) in
        let senderId :=
          resolveSenderId (senders env) accountId (from request) in
        let stored :=
          storeOTP table1 (t_created env)
            {| in_id := accountId ++ js "_" ++ phone;
               in_phone := phone;
               in_codeHash := codeHash;
               in_expiresAt := expiresAt;
               in_maxAttempts := orElseZ (maxAttempts request) 3;
               in_status := PENDING;
               in_pinLength := orElseZ (pinLength request) 6;
               in_pinType := orNumeric (pinType request);
               in_senderId := fst senderId |} in
        dispatch env (snd stored) (fst stored)
          (js "Failed to send OTP. Please try again.")
          {| response_id := fst stored;
             response_phone := phone;
             response_from := snd senderId;
             response_expiresAt := expiresAt;
             expiresIn := getExpiryInSeconds (t_return env) expiresAt;
             response_status := PENDING;
             response_message := js "OTP sent successfully" |}
    end.

Definition failure (phone message : jsstring) (left : option Z)
  : OTPVerifyResponse :=
  {| success := false; verified_phone := phone; verified := false;
     attemptsLeft := left; message := message; verifiedAt := None |}.

Definition msg_noActive : jsstring :=
  js "No active OTP found. Please request a new one.".
Definition msg_expired : jsstring :=
  js "OTP has expired. Please request a new one.".
Definition msg_maxReached : jsstring :=
  js "Maximum verification attempts reached. Please request a new OTP.".
Definition msg_invalidMax : jsstring :=
  js "Invalid code. Maximum attempts reached. Please request a new OTP.".
Definition msg_invalid (attemptsLeft : Z) : jsstring :=
  js "Invalid code. " ++ decimal attemptsLeft ++ js " attempt"
  ++ (if attemptsLeft =? 1 then [] else js "s") ++ js " remaining.".
Definition msg_verified : jsstring := js "OTP verified successfully".

(** A storage call followed by the response that is returned when it
    does not throw. *)
Definition andReturn (table : Table) (r : Result Table)
  (response : OTPVerifyResponse) : Result OTPVerifyResponse * Table :=
  match r with
  | Ok table' => (Ok response, table')
  | Throw e => (Throw e, table)
  end.

Definition verifyOTP (bun : BunPassword) (env : VerifyEnv) (table : Table)
  (accountId : jsstring) (request : OTPVerifyRequest)
  : Result OTPVerifyResponse * Table :=
  let phone := normalizePhoneNumber (verify_phone request) in
  match getActiveOTP table (t_query env) accountId phone with
  | None => (Ok (failure phone msg_noActive None), table)
  | Some otp =>
      if isExpired (t_expired env) (data_expiresAt otp) then
        andReturn table (markAsExpired table (data_id otp))
          (failure phone msg_expired None)
      else if data_attempts otp >=? data_maxAttempts otp then
        andReturn table (markAsFailed table (data_id otp))
          (failure phone msg_maxReached None)
      else if negb (verifyCode bun (toUpperCase (code request))
                      (data_codeHash otp)) then
        match incrementAttempts table (data_id otp) with
        | Throw e => (Throw e, table)
        | Ok (newAttempts, table') =>
            let attemptsLeft := data_maxAttempts otp - newAttempts in
            if attemptsLeft <=? 0 then
              andReturn table' (markAsFailed table' (data_id otp))
                (failure phone msg_invalidMax None)
            else
              (Ok (failure phone (msg_invalid attemptsLeft)
                     (Some attemptsLeft)), table')
        end
      else
        andReturn table (markAsVerified table (t_verified env) (data_id otp))
          {| success := true; verified_phone := phone; verified := true;
             attemptsLeft := None; message := msg_verified;
             verifiedAt := Some (t_response env) |}
  end.

Definition resendOTP (bun : BunPassword) (env : RequestEnv) (table : Table)
  (accountId : jsstring) (request : OTPResendRequest)
  : Result OTPResendResponse * Table :=
  let phone := normalizePhoneNumber (resend_phone request) in
  let rateLimitInfo := checkRateLimit table (t_check env) accountId phone 30 in
  if negb (canSend rateLimitInfo) then
    (Throw match truthy (reason rateLimitInfo) with
           | Some r => r
           | None => js "Please wait before resending OTP"
           end, table)
  else
    match findLast table accountId phone with
    | None =>
        (Throw (js "No previous OTP found. Please request a new one."), table)
    | Some lastOTP =>
        let table1 := snd (invalidatePendingOTPs table accountId phone) in
        let code := resendCode env lastOTP in
        match hashCode bun code (salt env) with
        | Throw e => (Throw e, table1)
        | Ok codeHash =>
            let expiryMinutes :=
              Math_round_div (expiresAt lastOTP - createdAt lastOTP)
                (1000 * 60) in
            let expiresAt :=
              calculateExpiry (t_expiry env) expiryMinutes minutes in
            let senderId :=
              resolveSenderId (senders env) accountId
                (Some (senderName lastOTP)) in
            let stored :=
              storeOTP table1 (t_created env)
                {| in_id := accountId ++ js "_" ++ phone;
                   in_phone := phone;
                   in_codeHash := codeHash;
                   in_expiresAt := expiresAt;
                   in_maxAttempts :=
                     VerificationStorageService.maxAttempts lastOTP;
                   in_status := PENDING;
                   in_pinLength := codeLength lastOTP;
                   in_pinType := NUMERIC;
                   in_senderId := fst senderId |} in
            dispatch env (snd stored) (fst stored)
              (js "Failed to resend OTP. Please try again.")
              {| resend_id := fst stored;
                 resent_phone := phone;
                 resend_from := snd senderId;
                 resend_expiresAt := expiresAt;
                 resend_expiresIn :=
                   getExpiryInSeconds (t_return env) expiresAt;
                 resend_message := js "OTP resent successfully";
                 resend_cooldownEndsAt := t_return env + 30 * 1000 |}
        end
    end.

(** A call on the public interface of the service, and the table a
    sequence of calls leaves behind. *)
Inductive Call :=
| Request (env : RequestEnv) (accountId : jsstring) (request : OTPRequest)
| Verify (env : VerifyEnv) (accountId : jsstring) (request : OTPVerifyRequest)
| Resend (env : RequestEnv) (accountId : jsstring) (request : OTPResendRequest).

Definition afterCall (bun : BunPassword) (table : Table) (c : Call) : Table :=
  match c with
  | Request env accountId request =>
      snd (requestOTP bun env table accountId request)
  | Verify env accountId request =>
      snd (verifyOTP bun env table accountId request)
  | Resend env accountId request =>
      snd (resendOTP bun env table accountId request)
  end.

Definition afterCalls (bun : BunPassword) (table : Table) (cs : list Call)
  : Table :=
  fold_left (afterCall bun) cs table.

End VerificationService.

(** ** sms-validation.service: the other validators *)

Module SMSValidationRest.

Import SMSValidationService.

Record PhoneNumbers := {
  validNumbers : list SMSValidationResult;
  invalidNumbers : list SMSValidationResult
}.

(** [validatePhoneNumbers]: the fields [valid] and [invalid] of the result. *)
Definition validatePhoneNumbers (phones : list jsstring) : PhoneNumbers :=
  let results := List.map validatePhoneNumber phones in
  {| validNumbers := filter valid results;
     invalidNumbers := filter (fun r => negb (valid r)) results |}.

(** The code units [trim] strips and [\s] matches: white space and line
    terminators. *)
Definition isWhiteSpace (c : N) : bool :=
  existsb (N.eqb c)
    [0x09; 0x0A; 0x0B; 0x0C; 0x0D; 0x20; 0xA0; 0x1680; 0x2028; 0x2029;
     0x202F; 0x205F; 0x3000; 0xFEFF]%N
  || ((0x2000 <=? c)%N && (c <=? 0x200A)%N).

Fixpoint trimStart (s : jsstring) : jsstring :=
  match s with
  | [] => []
  | c :: s' => if isWhiteSpace c then trimStart s' else s
  end.

(** [s.trim()] *)
Definition trim (s : jsstring) : jsstring :=
  rev (trimStart (rev (trimStart s))).

Record MessageValidation := {
  message_valid : bool;
  length : Z;
  message_errors : option (list jsstring)
}.

Definition err_empty : jsstring := js "Message cannot be empty".
Definition err_long : jsstring :=
  js "Message exceeds maximum length of 1600 characters".

(** [validateMessage]; the warning logged for characters outside the listed
    ranges does not reach the result. *)
Definition validateMessage (message : jsstring) : MessageValidation :=
  let errors :=
    (if (jslength message =? 0) || (jslength (trim message) =? 0)
     then [err_empty] else [])
    ++ (if jslength message >? 1600 then [err_long] else []) in
  {| message_valid := (List.length errors =? 0)%nat;
     length := jslength message;
     message_errors :=
       if (0 <? List.length errors)%nat then Some errors else None |}.

Definition isLetter (c : N) : bool :=
  ((65 <=? c)%N && (c <=? 90)%N) || ((97 <=? c)%N && (c <=? 122)%N).

(** [/^[a-zA-Z0-9]+$/.test(s)] *)
Definition alphanumeric_test (s : jsstring) : bool :=
  negb (jslength s =? 0) && forallb (fun c => isLetter c || isDigit c) s.

(** [/^\d+$/.test(s)] *)
Definition digits_test (s : jsstring) : bool :=
  negb (jslength s =? 0) && forallb isDigit s.

Record SenderIdValidation := {
  sender_valid : bool;
  sender_errors : option (list jsstring)
}.

Definition err_sender_length : jsstring :=
  js "Sender ID must be between 3 and 11 characters".
Definition err_sender_alnum : jsstring :=
  js "Sender ID must be alphanumeric only".
Definition err_sender_digits : jsstring :=
  js "Sender ID cannot be all numbers".

Definition validateSenderId (senderId : jsstring) : SenderIdValidation :=
  let errors :=
    (if (jslength senderId <? 3) || (jslength senderId >? 11)
     then [err_sender_length] else [])
    ++ (if negb (alphanumeric_test senderId) then [err_sender_alnum] else [])
    ++ (if digits_test senderId then [err_sender_digits] else []) in
  {| sender_valid := (List.length errors =? 0)%nat;
     sender_errors :=
       if (0 <? List.length errors)%nat then Some errors else None |}.

Record ScheduleValidation := {
  schedule_valid : bool;
  schedule_error : option jsstring
}.

(** [validateScheduleTime] when the clock reads [now]; times are
    milliseconds since the epoch. *)
Definition validateScheduleTime (now scheduledFor : Z) : ScheduleValidation :=
  let maxFuture := now + 30 * 24 * 60 * 60 * 1000 in
  if scheduledFor <? now then
    {| schedule_valid := false;
       schedule_error := Some (js "Scheduled time must be in the future") |}
  else if scheduledFor >? maxFuture then
    {| schedule_valid := false;
       schedule_error :=
         Some (js "Scheduled time cannot be more than 30 days in the future") |}
  else {| schedule_valid := true; schedule_error := None |}.

End SMSValidationRest.

(** ** otp.service: the other helpers *)

Module OTPServiceRest.

Import OTPService.

(** [validatePinType]: [/^\d+$/], [/^[A-Z0-9]+$/i] and [/^[A-Z]+$/i]; without
    the [u] flag the [i] flag folds only Basic Latin letters onto [A-Z]. *)
Definition validatePinType (code : jsstring) (pinType : PinType) : bool :=
  match pinType with
  | NUMERIC => SMSValidationRest.digits_test code
  | ALPHANUMERIC => SMSValidationRest.alphanumeric_test code
  | ALPHABETIC =>
      negb (jslength code =? 0) && forallb SMSValidationRest.isLetter code
  end.

(** [maskPhoneNumber] *)
Definition maskPhoneNumber (phone : jsstring) : jsstring :=
  if jslength phone <=? 4 then js "***"
  else substring phone 0 4 ++ js "***"
       ++ substring phone (List.length phone - 3) (List.length phone).

(** [isInCooldown] when the clock reads [now]. *)
Definition isInCooldown (now lastSentAt cooldownSeconds : Z) : bool :=
  let cooldownMs := cooldownSeconds * 1000 in
  now - lastSentAt <? cooldownMs.

(** [getRemainingCooldown] when the clock reads [now]. *)
Definition getRemainingCooldown (now lastSentAt cooldownSeconds : Z) : Z :=
  let cooldownMs := cooldownSeconds * 1000 in
  let elapsed := now - lastSentAt in
  Z.max 0 (Math_ceil_div (cooldownMs - elapsed) 1000).

(** [generateCooldownTimestamp] when the clock reads [now]. *)
Definition generateCooldownTimestamp (now seconds : Z) : Z :=
  now + seconds * 1000.

(** [s.toLowerCase()] on the Basic Latin letters. *)
Definition lowerUnit (c : N) : N :=
  if (65 <=? c)%N && (c <=? 90)%N then (c + 32)%N else c.

Definition toLowerCase (s : jsstring) : jsstring := List.map lowerUnit s.

(** [s.includes(sub)] on strings. *)
Fixpoint stringIncludes (s sub : jsstring) : bool :=
  startsWith s sub
  || match s with
     | [] => false
     | _ :: s' => stringIncludes s' sub
     end.

Definition sensitiveFields : list jsstring :=
  List.map js ["password"; "secret"; "token"; "apiKey"; "privateKey"]%string.

(** The test [sanitizeMetadata] applies to a key. *)
Definition isSensitive (key : jsstring) : bool :=
  existsb (fun field => stringIncludes (toLowerCase key) field) sensitiveFields.

(** [sanitized[key] = value] adds an own property for every key but
    [__proto__], where it goes to the setter of [Object.prototype] and adds
    none. *)
Definition assigns (key : jsstring) : bool := negb (jseqb key (js "__proto__")).

(** [sanitizeMetadata]; an object is the list [Object.entries] gives for
    it (distinct keys, integer keys first), whose values are JSON data and
    are copied as they are: a prototype installed through [__proto__] then
    holds plain data properties only, and every other assignment still
    adds an own property. *)
Definition sanitizeMetadata {V : Type} (metadata : option (list (jsstring * V)))
  : option (list (jsstring * V)) :=
  match metadata with
  | None => None
  | Some entries =>
      let sanitized :=
        filter (fun kv => negb (isSensitive (fst kv)) && assigns (fst kv))
          entries in
      if (0 <? List.length sanitized)%nat then Some sanitized else None
  end.

End OTPServiceRest.

(** ** verification-storage.service: the periodic sweep *)

Module VerificationStorageRest.

Import VerificationStorageService.

Definition overdue (now : Z) (o : OtpMessage) : bool :=
  isPending o && (expiresAt o <? now).

(** [cleanupExpiredOTPs] when the clock reads [now]: the count and the
    table the [updateMany] leaves. *)
Definition cleanupExpiredOTPs (table : Table) (now : Z) : Z * Table :=
  (Z.of_nat (List.length (filter (overdue now) table)),
   List.map (fun o => if overdue now o then setStatus EXPIRED o else o) table).

End VerificationStorageRest.

(** ** sms-router.service: provider health *)

Module SMSRouterRest.

Import SMSRouterService.

(** [checkProviderHealth]; [db] is what [findUnique] sees, or the error it
    raises. *)
Definition checkProviderHealth (db : Result (list Provider))
  (providerId : jsstring) : bool :=
  match db with
  | Throw _ => false
  | Ok table =>
      match find (fun p => jseqb (id p) providerId) table with
      | None => false
      | Some provider =>
          if negb (jseqb (status provider) (js "ACTIVE")) then false
          else if errorCount provider >? 10 then false
          else true
      end
  end.

Definition setErrorCount (n : Z) (p : Provider) : Provider :=
  {| id := id p; name := name p; type := type p; status := status p;
     supportedCountries := supportedCountries p;
     supportedNetworks := supportedNetworks p; priority := priority p;
     successRate := successRate p; avgLatency := avgLatency p;
     errorCount := n |}.

(** [updateProviderStats] on the columns of the provider row: a success
    resets the error counter, a failure increments it; an unknown id
    changes nothing (the error of the update is caught). *)
Definition updateProviderStats (table : list Provider) (providerId : jsstring)
  (success : bool) : list Provider :=
  List.map (fun p =>
              if jseqb (id p) providerId
              then setErrorCount (if success then 0 else errorCount p + 1) p
              else p) table.

End SMSRouterRest.

(** ** sms.service: single dispatch and batch lookup *)

Module SMSServiceRest.

Import SMSRouterService SMSService.

Record SendSMSRequest := {
  to : jsstring;
  message : jsstring;
  senderId : option jsstring;
  scheduledFor : option Z
}.

Record SMSResponse := {
  response_id : jsstring;
  response_to : jsstring;
  from : jsstring;
  response_message : jsstring;
  status : MessageStatus;
  provider : jsstring;
  cost : Q;
  currency : jsstring;
  units : Z;
  response_scheduledFor : option Z
}.

(** [errors?.join(', ')] inside a template literal. *)
Definition joined (errors : option (list jsstring)) : jsstring :=
  match errors with
  | Some l => join (js ", ") l
  | None => js "undefined"
  end.

(** [sendSMS].  The clock is read at the pricing queries ([clock env 0])
    and at the schedule test ([clock env 1]); the hand-over to the queue and
    the daily statistics, whose failures are only logged, touch none of the
    tables of [World]. *)
Definition sendSMS (env : Env) (w : World) (accountId : jsstring)
  (request : SendSMSRequest) : Result (SMSResponse * World) :=
  let validation := SMSValidationService.validatePhoneNumber (to request) in
  if negb (SMSValidationService.valid validation) then
    Throw (js "Invalid phone number: "
           ++ joined (SMSValidationService.errors validation))
  else
    let messageValidation :=
      SMSValidationRest.validateMessage (message request) in
    if negb (SMSValidationRest.message_valid messageValidation) then
      Throw (js "Invalid message: "
             ++ joined (SMSValidationRest.message_errors messageValidation))
    else
      let messageUnits :=
        SMSValidationService.calculateMessageUnits (message request) in
      match resolveSenderId (senderIds w) accountId (senderId request) with
      | Throw e => Throw e
      | Ok sender =>
          let routing :=
            routeMessage (Ok (providers w)) (Ok (rates w)) (clock env 0)
              (SMSValidationService.formatted validation) SMS None in
          match SMSRouterService.provider routing with
          | None => Throw (js "No SMS provider available for this destination")
          | Some prov =>
              let pricing :=
                getPricing (Ok (rates w)) (clock env 0)
                  (routing_country routing) (routing_network routing) SMS
                  (SMSValidationService.units messageUnits) in
              let isScheduled :=
                match scheduledFor request with
                | Some t => t >? clock env 1
                | None => false
                end in
              let msg :=
                {| msg_id := newId env (List.length (messages w));
                   msg_accountId := accountId;
                   recipient := SMSValidationService.formatted validation;
                   recipientCountry := routing_country routing;
                   recipientNetwork := routing_network routing;
                   content := message request;
                   msg_messageType := SMS;
                   msg_senderId := fst sender;
                   senderName := snd sender;
                   msg_status := if isScheduled then PENDING else QUEUED;
                   msg_provider := info_name prov;
                   msg_units := SMSValidationService.units messageUnits;
                   unitCost := pricing_ratePerUnit pricing;
                   msg_totalCost := SMSRouterService.totalCost pricing;
                   msg_currency := pricing_currency pricing;
                   msg_batchId := None;
                   msg_scheduledFor := scheduledFor request |} in
              Ok ({| response_id := msg_id msg;
                     response_to := SMSValidationService.formatted validation;
                     from := snd sender;
                     response_message := message request;
                     status := msg_status msg;
                     provider := info_name prov;
                     cost := SMSRouterService.totalCost pricing;
                     currency := pricing_currency pricing;
                     units := SMSValidationService.units messageUnits;
                     response_scheduledFor := scheduledFor request |},
                  insertMessage w msg)
          end
      end.

Definition MessageStatus_eqb (a b : MessageStatus) : bool :=
  match a, b with
  | PENDING, PENDING | QUEUED, QUEUED | SENT, SENT | DELIVERED, DELIVERED
  | FAILED, FAILED | EXPIRED, EXPIRED => true
  | _, _ => false
  end.

Record BatchStats := {
  total : Z;
  pending : Z;
  queued : Z;
  sent : Z;
  delivered : Z;
  failed : Z;
  stats_totalCost : Q
}.

Record BatchMessages := {
  batch_id : jsstring;
  stats : BatchStats;
  batch_rows : list (jsstring * jsstring * MessageStatus * Q)
}.

Definition countOf (s : MessageStatus) (l : list Message) : Z :=
  Z.of_nat (List.length (filter (fun m => MessageStatus_eqb (msg_status m) s) l)).

(** [where: { batchId, accountId }] *)
Definition inBatch (batchId accountId : jsstring) (m : Message) : bool :=
  optionEqb (msg_batchId m) (Some batchId) && jseqb (msg_accountId m) accountId.

(** [getBatchMessages]; the rows of the table stand in the order of their
    creation, the order the query asks for, and the creation time of the
    projected rows is left out. *)
Definition getBatchMessages (w : World) (batchId accountId : jsstring)
  : BatchMessages :=
  let found := filter (inBatch batchId accountId) (messages w) in
  {| batch_id := batchId;
     stats :=
       {| total := Z.of_nat (List.length found);
          pending := countOf PENDING found;
          queued := countOf QUEUED found;
          sent := countOf SENT found;
          delivered := countOf DELIVERED found;
          failed := countOf FAILED found;
          stats_totalCost :=
            fold_left (fun sum m => (sum + msg_totalCost m)%Q) found 0%Q |};
     batch_rows :=
       List.map (fun m => (msg_id m, recipient m, msg_status m, msg_totalCost m))
         found |}.

End SMSServiceRest.

(** ** verify schemas: what the routes let through *)

Module VerifySchemas.

Import OTPService.

Definition isNonZeroDigit (c : N) : bool := (49 <=? c)%N && (c <=? 57)%N.

(** [/^\+?[1-9]\d{1,14}$/.test(s)] *)
Definition e164_test (s : jsstring) : bool :=
  let body :=
    match s with
    | c :: rest => if N.eqb c plus_sign then rest else s
    | [] => s
    end in
  match body with
  | c :: digits =>
      isNonZeroDigit c && (1 <=? jslength digits) && (jslength digits <=? 14)
      && forallb isDigit digits
  | [] => false
  end.

(** [phoneSchema]: [min(10)], [max(15)] and the pattern. *)
Definition phoneSchema (s : jsstring) : bool :=
  (10 <=? jslength s) && (jslength s <=? 15) && e164_test s.

(** [expirySchema] on an integer amount: the bounds of [amount], then the
    refinement on the total of minutes. *)
Definition expirySchema (amount : Z) (duration : Duration) : bool :=
  (1 <=? amount) && (amount <=? 24)
  && let totalMinutes :=
       match duration with
       | seconds => (inject_Z amount / 60)%Q
       | hours => (inject_Z amount * 60)%Q
       | minutes => inject_Z amount
       end in
     Qle_bool 1 totalMinutes && Qle_bool totalMinutes 1440.

(** [otpCodeSchema]: [min(4)], [max(10)] and [/^[A-Z0-9]+$/i]. *)
Definition otpCodeSchema (s : jsstring) : bool :=
  (4 <=? jslength s) && (jslength s <=? 10)
  && SMSValidationRest.alphanumeric_test s.

End VerifySchemas.

(** * Part II: notions the properties are stated with *)

Module Sorting.

(** Every element is below all later ones. *)
Fixpoint ascending {A : Type} (le : A -> A -> bool) (l : list A) : Prop :=
  match l with
  | [] => True
  | x :: l' => (forall y, In y l' -> le x y = true) /\ ascending le l'
  end.

End Sorting.

Module BulkNotions.

Import SMSRouterService SMSService.

(** The per-recipient failure of the bulk pipeline: no message, a variable
    substitution that throws, a number that does not validate, or no
    provider for the destination. *)
Definition refused (env : Env) (w : World) (request : BulkSMSRequest)
  (r : Recipient) : bool :=
  match messageFor request r with
  | None => true
  | Some message =>
      match finalMessageFor env message r with
      | Throw _ => true
      | Ok _ =>
          let validation := SMSValidationService.validatePhoneNumber (to r) in
          negb (SMSValidationService.valid validation)
          || match selectProvider (Ok (providers w))
                     {| country :=
                          getCountryFromPhone
                            (SMSValidationService.formatted validation);
                        network :=
                          detectNetworkFromPhone
                            (SMSValidationService.formatted validation);
                        messageType := BULK;
                        hint := None |} with
             | None => true
             | Some _ => false
             end
      end
  end.

(** What one round of the loop adds for recipient [r]: one row, rejected
    exactly when the recipient is refused, and one message row of the batch
    exactly when it is accepted. *)
Definition rowFor (env : Env) (w : World) (request : BulkSMSRequest)
  (r : Recipient) (row : Row) : Prop :=
  row_status row = (if refused env w request r then rejected else accepted)
  /\ (refused env w request r = true -> row_id row = [] /\ row_to row = to r).

End BulkNotions.

Module OTPNotions.

Import OTPService VerificationStorageService VerificationService.

(** A PENDING row of the pair (account, phone). *)
Definition pendingFor (account phone : jsstring) (o : OtpMessage) : bool :=
  forPair account phone o && isPending o.

Definition pendingCount (table : Table) (account phone : jsstring) : nat :=
  List.length (filter (pendingFor account phone) table).

(** The single-active-OTP invariant. *)
Definition singlePending (table : Table) : Prop :=
  forall account phone, (pendingCount table account phone <= 1)%nat.

(** The primary keys are the ones the store generated. *)
Definition wellKeyed (table : Table) : Prop :=
  List.map id table = List.map N.of_nat (seq 0 (List.length table)).

(** The update of the rows with key [k]. *)
Definition updated (k : N) (f : OtpMessage -> OtpMessage) (table : Table)
  : Table :=
  List.map (fun o => if N.eqb (id o) k then f o else o) table.

(** The row changes [verifyOTP] and the dispatch make. *)
Inductive change : (OtpMessage -> OtpMessage) -> Prop :=
| change_status (s : OTPStatus) : s <> PENDING -> change (setStatus s)
| change_verified (now : Z) : change (setVerified now)
| change_attempt : change addAttempt
| change_attempt_failed : change (fun o => setStatus FAILED (addAttempt o)).

(** A sequence of calls that are all [verifyOTP] calls. *)
Definition onlyVerify (cs : list Call) : Prop :=
  Forall (fun c => match c with Verify _ _ _ => True | _ => False end) cs.

(** Calls whose account id holds no underscore. *)
Definition plainAccount (c : Call) : Prop :=
  match c with
  | Request _ account _ | Resend _ account _ => ~ In underscore account
  | Verify _ _ _ => True
  end.

End OTPNotions.

(** Sample rows and surroundings for the examples. *)

Module RouterSamples.

Import SMSRouterService.

Definition fastProvider : Provider :=
  {| id := js "p1"; name := js "fast"; type := js "SMS";
     status := js "ACTIVE"; supportedCountries := [js "GH"];
     supportedNetworks := []; priority := 1; successRate := 9 # 10;
     avgLatency := 0; errorCount := 0 |}.

Definition slowProvider : Provider :=
  {| id := js "p2"; name := js "slow"; type := js "SMS";
     status := js "ACTIVE"; supportedCountries := [js "GH"];
     supportedNetworks := []; priority := 1; successRate := 9 # 10;
     avgLatency := 500; errorCount := 0 |}.

Definition ghanaDefaultRate : PricingRate :=
  {| rate_country := js "GH"; rate_network := None; rate_messageType := SMS;
     serviceType := js "SMS"; isActive := true; effectiveFrom := 0;
     effectiveTo := None; ratePerUnit := 5 # 100; currency := js "GHS" |}.

End RouterSamples.

Module OTPSamples.

Import OTPService VerificationStorageService VerificationService.

(** Two runtimes that agree on [Math.random()] and differ on the
    cryptographic source. *)
Definition sixteenths (cryptoValue : N) : RandomSources :=
  {| Math_random := fun i => Z.of_nat i # 16;
     crypto_getRandomValues := fun _ => cryptoValue |}.

(** A password runtime for the examples: the hash is the code itself. *)
Definition plainBun : BunPassword :=
  {| hash := fun code _ => code;
     verify := fun code hash => Ok (jseqb code hash) |}.

Definition sampleRow : OtpMessage :=
  {| id := 0; accountId := js "acme"; recipient := js "+233244123456";
     codeHash := js "4821"; codeLength := 4; status := PENDING;
     expiresAt := 600000; VerificationStorageService.maxAttempts := 3;
     attempts := 0; senderId := js "default"; senderName := js "default";
     createdAt := 0; VerificationStorageService.verifiedAt := None |}.

Definition sampleClock : VerifyEnv :=
  {| t_query := 1000; t_expired := 1001; t_verified := 1002;
     t_response := 1003 |}.

Definition sampleRequest (type : PinType) : OTPRequest :=
  {| phone := js "+233244123456"; from := None; pinLength := Some 6;
     pinType := Some type; expiry := None; maxAttempts := Some 5 |}.

(** The surroundings of a call at time [t] in which the dispatch succeeds. *)
Definition sampleEnv (t : Z) : RequestEnv :=
  {| t_check := t; random := sixteenths 0; salt := 7; t_expiry := t;
     senders := []; t_created := t; sendSMS := Ok tt; t_return := t |}.

End OTPSamples.

Module OTPMoreSamples.

Import OTPService VerificationService.

(** A runtime whose [Math.random()] always returns one half. *)
Definition halves : RandomSources :=
  {| Math_random := fun _ => 1 # 2;
     crypto_getRandomValues := fun _ => 0%N |}.

(** The surroundings of a call at time [t] under that runtime, in which
    the dispatch succeeds. *)
Definition halvesEnv (t : Z) : RequestEnv :=
  {| t_check := t; random := halves; salt := 7; t_expiry := t;
     senders := []; t_created := t; sendSMS := Ok tt; t_return := t |}.

(** A password runtime that tells codes apart: a code verifies against its
    own hash and against no hash of another code. *)
Definition tellsApart (bun : BunPassword) : Prop :=
  (forall code salt, verify bun code (hash bun code salt) = Ok true)
  /\ (forall code other salt,
        code <> other -> verify bun code (hash bun other salt) = Ok false).

End OTPMoreSamples.

Module GSM7Notions.

Import SMSValidationService.

(** The GSM-7 repertoire the specification speaks of: the basic character
    set of the GSM default alphabet (3GPP TS 23.038, 6.2.1), by Unicode
    code point and in the order of its table, as ranges; the escape code
    0x1B of the table is no character. *)
Definition GSM7_repertoire : list (N * N) :=
  List.map (fun c => (c, c))
    [0x40; 0xA3; 0x24; 0xA5; 0xE8; 0xE9; 0xF9; 0xEC; 0xF2; 0xC7; 0x0A; 0xD8;
     0xF8; 0x0D; 0xC5; 0xE5;
     0x394; 0x5F; 0x3A6; 0x393; 0x39B; 0x3A9; 0x3A0; 0x3A8; 0x3A3; 0x398;
     0x39E; 0xC6; 0xE6; 0xDF; 0xC9;
     0x20; 0x21; 0x22; 0x23; 0xA4]%N
  ++ [(0x25, 0x3F)]%N
  ++ [(0xA1, 0xA1); (0x41, 0x5A)]%N
  ++ List.map (fun c => (c, c)) [0xC4; 0xD6; 0xD1; 0xDC; 0xA7; 0xBF]%N
  ++ [(0x61, 0x7A)]%N
  ++ List.map (fun c => (c, c)) [0xE4; 0xF6; 0xF1; 0xFC; 0xE0]%N.

Definition U_umlaut : N := 0xDC.
Definition section_sign : N := 0xA7.

(** The three characters the class of [gsm7chars] holds beyond the
    repertoire: the diaeresis, the not sign, and U+0727. *)
Definition strays : list N := [0xA8; 0xAC; 0x727]%N.

(** The code points of a range, and of a list of ranges. *)
Definition rangeMembers (r : N * N) : list N :=
  List.map (fun i => (fst r + N.of_nat i)%N)
    (seq 0 (S (N.to_nat (snd r - fst r)))).

Definition members (cls : list (N * N)) : list N := flat_map rangeMembers cls.

End GSM7Notions.


Module OTPStepNotions.

Import OTPService VerificationStorageService VerificationService.

(** What one call may do to a stored row: [o'] is the row [o] afterwards. *)
Definition rowStep (o o' : OtpMessage) : Prop :=
  id o' = id o /\ accountId o' = accountId o /\ recipient o' = recipient o
  /\ codeHash o' = codeHash o /\ expiresAt o' = expiresAt o
  /\ VerificationStorageService.maxAttempts o'
     = VerificationStorageService.maxAttempts o
  /\ createdAt o' = createdAt o
  /\ (isPending o = false -> o' = o)
  /\ (attempts o' = attempts o
      \/ (attempts o' = attempts o + 1
          /\ attempts o < VerificationStorageService.maxAttempts o)).

(** A row a call has just stored in [table]. *)
Definition freshRow (table : Table) (n : OtpMessage) : Prop :=
  id n = N.of_nat (List.length table) /\ attempts n = 0
  /\ ~ In underscore (accountId n).

(** What holds of every row of a table the service has written. *)
Definition rowOk (o : OtpMessage) : Prop :=
  ~ In underscore (accountId o)
  /\ 0 <= attempts o
  /\ attempts o <= Z.max 0 (VerificationStorageService.maxAttempts o).

End OTPStepNotions.

(** * Part III: properties *)

(** ** Facts about the runtime pieces *)

Module JSFacts.

Lemma jseqb_eq (a b : jsstring) : jseqb a b = true <-> a = b.
Proof.
  revert b; induction a as [|x a IH]; intros [|y b]; simpl; split;
    try congruence; try discriminate; auto.
  - intros H. apply andb_true_iff in H as [Hx Hr].
    apply N.eqb_eq in Hx. apply IH in Hr. congruence.
  - intros H. injection H as -> ->.
    rewrite N.eqb_refl. simpl. now apply IH.
Qed.

Lemma jseqb_refl (a : jsstring) : jseqb a a = true.
Proof. now apply jseqb_eq. Qed.

Lemma jseqb_neq (a b : jsstring) : jseqb a b = false <-> a <> b.
Proof.
  split.
  - intros H E. apply jseqb_eq in E. congruence.
  - intros H. destruct (jseqb a b) eqn:E; auto.
    apply jseqb_eq in E. contradiction.
Qed.

Lemma upperUnit_idem (c : N) : upperUnit (upperUnit c) = upperUnit c.
Proof.
  unfold upperUnit.
  destruct ((97 <=? c)%N && (c <=? 122)%N) eqn:E.
  - apply andb_true_iff in E as [H1 H2].
    apply N.leb_le in H1. apply N.leb_le in H2.
    assert (H : ((97 <=? c - 32)%N && (c - 32 <=? 122)%N) = false).
    { apply andb_false_iff. left. apply N.leb_gt. lia. }
    now rewrite H.
  - now rewrite E.
Qed.

Lemma toUpperCase_idem (s : jsstring) :
  toUpperCase (toUpperCase s) = toUpperCase s.
Proof.
  unfold toUpperCase. rewrite map_map.
  apply map_ext. intros c. apply upperUnit_idem.
Qed.

(** The ceiling of the quotient, characterised by its two bounds. *)
Lemma Math_ceil_div_bounds (a b : Z) :
  0 < b ->
  (Math_ceil_div a b - 1) * b < a <= Math_ceil_div a b * b.
Proof.
  intros Hb. unfold Math_ceil_div.
  set (q := (inject_Z a / inject_Z b)%Q).
  assert (Hbq : (0 < inject_Z b)%Q).
  { change 0%Q with (inject_Z 0). now rewrite <- Zlt_Qlt. }
  assert (Hq : (q * inject_Z b == inject_Z a)%Q).
  { unfold q. field. intros H. rewrite H in Hbq. now apply Qlt_irrefl in Hbq. }
  pose proof (Qle_ceiling q) as Hup.
  pose proof (Qceiling_lt q) as Hlo.
  split.
  - apply (Qmult_lt_compat_r _ _ (inject_Z b) Hbq) in Hlo.
    rewrite Hq in Hlo. rewrite <- inject_Z_mult in Hlo.
    now rewrite Zlt_Qlt.
  - apply (Qmult_le_compat_r _ _ (inject_Z b)) in Hup;
      [| now apply Qlt_le_weak].
    rewrite Hq in Hup. rewrite <- inject_Z_mult in Hup.
    now rewrite Zle_Qle.
Qed.

Section Sorting.

Variable A : Type.
Variable le : A -> A -> bool.

Lemma insertBy_In (x y : A) (l : list A) :
  In y (insertBy le x l) <-> y = x \/ In y l.
Proof.
  induction l as [|h l IH]; simpl.
  - intuition.
  - destruct (le x h); simpl; [intuition|].
    rewrite IH. intuition.
Qed.

Lemma sortBy_In (y : A) (l : list A) : In y (sortBy le l) <-> In y l.
Proof.
  induction l as [|x l IH]; simpl; [tauto|].
  rewrite insertBy_In, IH. intuition.
Qed.

Lemma insertBy_length (x : A) (l : list A) :
  List.length (insertBy le x l) = S (List.length l).
Proof.
  induction l as [|h t IHt]; simpl; auto.
  destruct (le x h); simpl; auto.
Qed.

Lemma sortBy_length (l : list A) : List.length (sortBy le l) = List.length l.
Proof.
  induction l as [|x l IH]; simpl; auto.
  now rewrite insertBy_length, IH.
Qed.

Lemma sortBy_nil (l : list A) : sortBy le l = [] -> l = [].
Proof.
  intros H. apply (f_equal (@List.length A)) in H.
  rewrite sortBy_length in H. now destruct l.
Qed.

Lemma sortBy_cons_hd (x : A) (l : list A) :
  hd_error (sortBy le (x :: l)) =
  Some match hd_error (sortBy le l) with
       | Some h => if le x h then x else h
       | None => x
       end.
Proof.
  simpl. destruct (sortBy le l) as [|h t]; simpl; auto.
  destruct (le x h); auto.
Qed.

(** The first element of the sorted list is minimal, for an order that is
    total and transitive. *)
Lemma sortBy_hd_min (l : list A) (m : A) :
  (forall x y, le x y = true \/ le y x = true) ->
  (forall x y z, le x y = true -> le y z = true -> le x z = true) ->
  hd_error (sortBy le l) = Some m ->
  In m l /\ forall y, In y l -> le m y = true.
Proof.
  intros Htot Htr. revert m.
  induction l as [|x l IH]; intros m Hm; [discriminate|].
  rewrite sortBy_cons_hd in Hm. injection Hm as Hm.
  destruct (hd_error (sortBy le l)) as [h|] eqn:Eh.
  - destruct (IH h eq_refl) as [Hin Hmin].
    destruct (le x h) eqn:Exh; subst m.
    + split; [now left|]. intros y [<-|Hy].
      * destruct (Htot x x); auto.
      * eapply Htr; eauto.
    + split; [now right|]. intros y [<-|Hy]; auto.
      destruct (Htot x h); congruence.
  - subst m. destruct (sortBy le l) eqn:Es; [|discriminate].
    apply sortBy_nil in Es. subst l.
    split; [now left|]. intros y [<-|[]]. destruct (Htot x x); auto.
Qed.

Lemma sortBy_hd_some (l : list A) :
  l <> [] -> exists m, hd_error (sortBy le l) = Some m.
Proof.
  destruct l as [|x l]; [congruence|]. intros _.
  rewrite sortBy_cons_hd. eauto.
Qed.

End Sorting.

End JSFacts.

(** ** Phone validation and message units *)

Module SMSValidationFacts.

Import SMSValidationService JSFacts.

Lemma phoneErrors_nil (cleaned : jsstring) :
  phoneErrors cleaned = [] <->
  startsWith cleaned [plus_sign] = true /\ 10 <= jslength cleaned <= 16.
Proof.
  unfold phoneErrors.
  destruct (startsWith cleaned [plus_sign]); simpl;
    destruct (jslength cleaned <? 10) eqn:E1;
    destruct (jslength cleaned >? 16) eqn:E2; simpl;
    try apply Z.ltb_lt in E1; try apply Z.ltb_ge in E1;
    try (apply Z.gtb_lt in E2); try (rewrite Z.gtb_ltb in E2; apply Z.ltb_ge in E2);
    split; try discriminate; try (intros [? ?]; try discriminate; lia);
    intros _; auto; split; auto; lia.
Qed.

Lemma valid_iff (phone : jsstring) :
  valid (validatePhoneNumber phone) = true <->
  phoneErrors (digitsAndPlus phone) = [].
Proof.
  unfold validatePhoneNumber; simpl.
  destruct (phoneErrors (digitsAndPlus phone)); simpl; split;
    congruence.
Qed.

Lemma digitsAndPlus_chars (phone : jsstring) :
  Forall (fun c => isDigit c = true \/ c = plus_sign) (digitsAndPlus phone).
Proof.
  apply Forall_forall. intros c Hc. apply filter_In in Hc as [_ Hc].
  apply orb_true_iff in Hc as [Hc|Hc]; auto. right. now apply N.eqb_eq.
Qed.

Lemma isDigit_not_plus (c : N) : isDigit c = true -> c <> plus_sign.
Proof.
  unfold isDigit, plus_sign. intros H ->. discriminate.
Qed.

(** Without a [+] in the input none survives the cleaning. *)
Lemma digitsAndPlus_no_plus (s : jsstring) :
  count_occ N.eq_dec s plus_sign = 0%nat ->
  Forall (fun c => isDigit c = true) (digitsAndPlus s).
Proof.
  induction s as [|c s IH]; simpl; [constructor|].
  destruct (N.eq_dec c plus_sign) as [->|Hne]; [discriminate|].
  intros H. unfold digitsAndPlus in *. simpl.
  destruct (isDigit c) eqn:Ed; simpl.
  - constructor; auto.
  - apply N.eqb_neq in Hne. rewrite Hne. auto.
Qed.

(** With a single [+] in the input, a cleaned form that starts with it
    continues with digits only. *)
Lemma digitsAndPlus_single_plus (s rest : jsstring) :
  count_occ N.eq_dec s plus_sign = 1%nat ->
  digitsAndPlus s = plus_sign :: rest ->
  Forall (fun c => isDigit c = true) rest.
Proof.
  induction s as [|c s IH]; simpl; [discriminate|].
  unfold digitsAndPlus in *. simpl.
  destruct (N.eq_dec c plus_sign) as [->|Hne].
  - intros H. injection H as H. simpl. intros E. injection E as <-.
    now apply digitsAndPlus_no_plus.
  - intros H. destruct (isDigit c) eqn:Ed; simpl.
    + intros E. injection E as -> _. discriminate.
    + apply N.eqb_neq in Hne. rewrite Hne. auto.
Qed.

(** C7 as the source has it.  For every input string,
    [validatePhoneNumber] keeps the digits and every [+] of the input, in
    order, and drops all other characters; it returns [valid: true] exactly
    when the cleaned form starts with [+] and its length lies in [10,16];
    whenever [valid: true], the normalized form starts with [+] and holds
    only digits and [+] signs, and when the input holds a single [+] the
    normalized form is that [+] followed only by digits.  The function is
    total: it never throws. *)
Theorem validatePhoneNumber_cleaning (phone : jsstring) :
  let r := validatePhoneNumber phone in
  formatted r = filter (fun c => isDigit c || (c =? plus_sign)%N) phone
  /\ (valid r = true <->
      startsWith (formatted r) [plus_sign] = true
      /\ 10 <= jslength (formatted r) <= 16)
  /\ (valid r = true <-> errors r = None)
  /\ (valid r = true ->
      exists rest,
        formatted r = plus_sign :: rest
        /\ Forall (fun c => isDigit c = true \/ c = plus_sign) rest
        /\ (count_occ N.eq_dec phone plus_sign = 1%nat ->
            Forall (fun c => isDigit c = true) rest)).
Proof.
  cbv zeta. split; [reflexivity|]. split; [|split].
  - rewrite valid_iff. apply phoneErrors_nil.
  - unfold validatePhoneNumber; simpl.
    destruct (phoneErrors (digitsAndPlus phone)); simpl; split; congruence.
  - intros Hv. apply valid_iff in Hv. apply phoneErrors_nil in Hv as [Hs _].
    change (formatted (validatePhoneNumber phone)) with (digitsAndPlus phone).
    pose proof (digitsAndPlus_chars phone) as Hall.
    destruct (digitsAndPlus phone) as [|c rest] eqn:E; [discriminate|].
    cbn [startsWith] in Hs. apply andb_true_iff in Hs as [Hc _].
    apply N.eqb_eq in Hc. subst c.
    exists rest. split; [reflexivity|]. split.
    + now inversion Hall.
    + intros Hone. eapply digitsAndPlus_single_plus; eauto.
Qed.

(** C7 as stated fails: a [+] inside the number survives the cleaning, so a
    valid result need not be a [+] followed only by digits. *)
Lemma validatePhoneNumber_keeps_inner_plus :
  let r := validatePhoneNumber (js "+233+24412345") in
  valid r = true
  /\ formatted r = js "+233+24412345"
  /\ ~ (exists rest,
          formatted r = plus_sign :: rest
          /\ Forall (fun c => isDigit c = true) rest).
Proof.
  cbv zeta. split; [reflexivity|]. split; [reflexivity|].
  intros [rest [E H]]. vm_compute in E. injection E as <-.
  rewrite Forall_forall in H.
  specialize (H plus_sign). simpl in H.
  assert (isDigit plus_sign = true) by (apply H; vm_compute; tauto).
  discriminate.
Qed.

Lemma forallb_Forall_true {A : Type} (f : A -> bool) (l : list A) :
  forallb f l = true <-> Forall (fun x => f x = true) l.
Proof.
  rewrite forallb_forall, Forall_forall. tauto.
Qed.

(** The units of a message, relative to the class of [gsm7chars] as the
    source holds it.  [calculateMessageUnits] reports the length in
    code units; the encoding is GSM-7 when every character lies in the
    class of [gsm7chars] and UCS-2 otherwise; with thresholds 160 and 153
    for GSM-7 and 70 and 67 for UCS-2, the unit count is 0 for the empty
    text, 1 up to the single-unit threshold, and the ceiling of
    length / concatenated threshold beyond it, and [charactersPerUnit] is
    the threshold that applied. *)
Theorem calculateMessageUnits_spec (message : jsstring) :
  let r := calculateMessageUnits message in
  let n := Z.of_nat (List.length message) in
  let single := match encoding r with GSM7 => 160 | UCS2 => 70 end in
  let concat := match encoding r with GSM7 => 153 | UCS2 => 67 end in
  messageLength r = n
  /\ (Forall (fun c => inClass gsm7class c = true) message ->
      encoding r = GSM7)
  /\ (~ Forall (fun c => inClass gsm7class c = true) message ->
      encoding r = UCS2)
  /\ (n = 0 -> units r = 0)
  /\ (0 < n <= single -> units r = 1)
  /\ (n <= single -> charactersPerUnit r = single)
  /\ (single < n ->
      charactersPerUnit r = concat
      /\ (units r - 1) * concat < n <= units r * concat).
Proof.
  cbv zeta. unfold calculateMessageUnits, gsm7chars_test, jslength.
  set (n := Z.of_nat (List.length message)).
  destruct (forallb (inClass gsm7class) message) eqn:Eg; simpl negb; cbv iota.
  - assert (Hall : Forall (fun c => inClass gsm7class c = true) message)
      by now apply forallb_Forall_true.
    destruct (n =? 0) eqn:E0; [apply Z.eqb_eq in E0|apply Z.eqb_neq in E0];
      simpl.
    + repeat split; auto; try lia; try contradiction.
    + destruct (n <=? 160) eqn:E1;
        [apply Z.leb_le in E1|apply Z.leb_gt in E1]; simpl.
      * repeat split; auto; try lia; try contradiction.
      * pose proof (Math_ceil_div_bounds n 153 ltac:(lia)).
        repeat split; auto; try lia; try contradiction.
  - assert (Hall : ~ Forall (fun c => inClass gsm7class c = true) message).
    { intros H. apply forallb_Forall_true in H. congruence. }
    destruct (n =? 0) eqn:E0; [apply Z.eqb_eq in E0|apply Z.eqb_neq in E0];
      simpl.
    + repeat split; auto; try lia; try contradiction.
    + destruct (n <=? 70) eqn:E1;
        [apply Z.leb_le in E1|apply Z.leb_gt in E1]; simpl.
      * repeat split; auto; try lia; try contradiction.
      * pose proof (Math_ceil_div_bounds n 67 ltac:(lia)).
        repeat split; auto; try lia; try contradiction.
Qed.

(** The examples of the README: 160 and 161 plain characters, one emoji
    (a surrogate pair), and 1600 characters outside the class. *)
Example units_160 :
  let r := calculateMessageUnits (repeat 97%N 160) in
  units r = 1 /\ encoding r = GSM7.
Proof. vm_compute. auto. Qed.

Example units_161 : units (calculateMessageUnits (repeat 97%N 161)) = 2.
Proof. vm_compute. auto. Qed.

Example units_emoji :
  let r := calculateMessageUnits [0xD83D; 0xDE00]%N in
  units r = 1 /\ encoding r = UCS2.
Proof. vm_compute. auto. Qed.

Example units_1600_ucs2 :
  units (calculateMessageUnits (repeat 0x4E2D%N 1600)) = 24.
Proof. vm_compute. auto. Qed.

End SMSValidationFacts.

(** ** Provider selection and pricing *)

Module SMSRouterFacts.

Import SMSRouterService JSFacts Sorting RouterSamples.

Section Sorted.

Variable A : Type.
Variable le : A -> A -> bool.
Hypothesis le_total : forall x y, le x y = true \/ le y x = true.
Hypothesis le_trans :
  forall x y z, le x y = true -> le y z = true -> le x z = true.

Lemma insertBy_ascending (x : A) (l : list A) :
  ascending le l -> ascending le (insertBy le x l).
Proof.
  induction l as [|h t IH]; simpl.
  - intros _. split; [intros y []|exact I].
  - intros [Hh Ht]. destruct (le x h) eqn:E; simpl.
    + split; [|split; auto].
      intros y [<-|Hy]; auto. eapply le_trans; eauto.
    + split; [|auto].
      intros y Hy. apply insertBy_In in Hy as [->|Hy]; auto.
      destruct (le_total x h); congruence.
Qed.

Lemma sortBy_ascending (l : list A) : ascending le (sortBy le l).
Proof.
  induction l as [|x l IH]; simpl; [exact I|].
  now apply insertBy_ascending.
Qed.

Lemma filter_ascending (f : A -> bool) (l : list A) :
  ascending le l -> ascending le (filter f l).
Proof.
  induction l as [|h t IH]; simpl; auto.
  intros [Hh Ht]. destruct (f h); simpl; auto.
  split; auto. intros y Hy. apply filter_In in Hy as [Hy _]. auto.
Qed.

Lemma ascending_hd (l : list A) (m : A) :
  ascending le l -> hd_error l = Some m ->
  In m l /\ forall y, In y l -> le m y = true.
Proof.
  destruct l as [|h t]; simpl; [discriminate|].
  intros [Hh _] E. injection E as ->.
  split; [now left|]. intros y [<-|Hy]; auto.
  destruct (le_total m m); auto.
Qed.

End Sorted.

Lemma byPriority_spec (a b : Provider) :
  byPriority a b = true <->
  priority b < priority a
  \/ (priority a = priority b /\ (successRate b <= successRate a)%Q).
Proof.
  unfold byPriority. rewrite orb_true_iff, andb_true_iff.
  rewrite Z.ltb_lt, Z.eqb_eq, Qle_bool_iff. tauto.
Qed.

Lemma Qle_total (x y : Q) : (x <= y)%Q \/ (y <= x)%Q.
Proof.
  destruct (Qlt_le_dec x y) as [H|H]; auto. left. now apply Qlt_le_weak.
Qed.

Lemma byPriority_total (a b : Provider) :
  byPriority a b = true \/ byPriority b a = true.
Proof.
  rewrite !byPriority_spec.
  destruct (Z.lt_trichotomy (priority a) (priority b)) as [H|[H|H]];
    [right; left; lia| |left; left; lia].
  destruct (Qle_total (successRate a) (successRate b)); [right|left];
    right; split; auto.
Qed.

Lemma byPriority_trans (a b c : Provider) :
  byPriority a b = true -> byPriority b c = true -> byPriority a c = true.
Proof.
  rewrite !byPriority_spec.
  intros [H1|[H1 Q1]] [H2|[H2 Q2]]; try (left; lia).
  right. split; [lia|]. eapply Qle_trans; eauto.
Qed.

Lemma byLatency_spec (a b : Provider) :
  byLatency a b = true <->
  (orElse (avgLatency a) 1000 <= orElse (avgLatency b) 1000)%Q.
Proof. unfold byLatency. apply Qle_bool_iff. Qed.

Lemma orElse_zero (x : Q) : (orElse x 0 == x)%Q.
Proof.
  unfold orElse. destruct (Qeq_bool x 0) eqn:E; [|reflexivity].
  apply Qeq_bool_iff in E. now symmetry.
Qed.

Lemma bySuccessRate_spec (a b : Provider) :
  bySuccessRate a b = true <-> (successRate b <= successRate a)%Q.
Proof.
  unfold bySuccessRate. rewrite Qle_bool_iff, !orElse_zero. tauto.
Qed.

Lemma byLatency_total (a b : Provider) :
  byLatency a b = true \/ byLatency b a = true.
Proof. rewrite !byLatency_spec. apply Qle_total. Qed.

Lemma byLatency_trans (a b c : Provider) :
  byLatency a b = true -> byLatency b c = true -> byLatency a c = true.
Proof. rewrite !byLatency_spec. apply Qle_trans. Qed.

Lemma bySuccessRate_total (a b : Provider) :
  bySuccessRate a b = true \/ bySuccessRate b a = true.
Proof. rewrite !bySuccessRate_spec. apply Qle_total. Qed.

Lemma bySuccessRate_trans (a b c : Provider) :
  bySuccessRate a b = true -> bySuccessRate b c = true ->
  bySuccessRate a c = true.
Proof. rewrite !bySuccessRate_spec. intros. eapply Qle_trans; eauto. Qed.

Lemma findManyProviders_In (table : list Provider) (country : jsstring)
  (q : Provider) :
  In q (findManyProviders table country) <->
  In q table /\ eligible country q = true.
Proof.
  unfold findManyProviders. rewrite sortBy_In. apply filter_In.
Qed.

(** The list the network filter leaves: the providers that support the
    network when there is one, all of them otherwise. *)
Lemma filterByNetwork_In (providers : list Provider)
  (network : option jsstring) (q : Provider) :
  In q (filterByNetwork providers network) <->
  In q providers
  /\ match truthy network with
     | Some n =>
         (exists q', In q' providers
                     /\ includes (supportedNetworks q') n = true) ->
         includes (supportedNetworks q) n = true
     | None => True
     end.
Proof.
  unfold filterByNetwork. destruct (truthy network) as [n|]; [|tauto].
  destruct (filter (fun p => includes (supportedNetworks p) n) providers)
    as [|f fs] eqn:E.
  - split; [|tauto]. intros Hq. split; auto.
    intros [q' [Hq' Hs]].
    assert (Hin : In q' (filter (fun p => includes (supportedNetworks p) n)
                           providers)) by (apply filter_In; auto).
    rewrite E in Hin. destruct Hin.
  - rewrite <- E. rewrite filter_In. split.
    + intros [Hq Hs]. auto.
    + intros [Hq Hs]. split; auto. apply Hs.
      exists f.
      apply (filter_In (fun p => includes (supportedNetworks p) n)).
      rewrite E. now left.
Qed.

Lemma filterByNetwork_ascending (providers : list Provider)
  (network : option jsstring) :
  ascending byPriority providers ->
  ascending byPriority (filterByNetwork providers network).
Proof.
  intros H. unfold filterByNetwork. destruct (truthy network) as [n|]; auto.
  pose proof (filter_ascending _ byPriority
                (fun p => includes (supportedNetworks p) n) providers H) as Hf.
  destruct (filter (fun p => includes (supportedNetworks p) n) providers);
    auto.
Qed.

Lemma filterByNetwork_nonempty (providers : list Provider)
  (network : option jsstring) :
  providers <> [] -> filterByNetwork providers network <> [].
Proof.
  intros H. unfold filterByNetwork. destruct (truthy network) as [n|]; auto.
  destruct (filter (fun p => includes (supportedNetworks p) n) providers);
    auto. discriminate.
Qed.

Lemma includes_In (arr : list jsstring) (x : jsstring) :
  includes arr x = true <-> In x arr.
Proof.
  unfold includes. rewrite existsb_exists. split.
  - intros [y [Hy E]]. apply jseqb_eq in E. now subst.
  - intros H. exists x. split; auto. apply jseqb_refl.
Qed.

Lemma eligible_spec (country : jsstring) (p : Provider) :
  eligible country p = true <->
  type p = js "SMS" /\ status p = js "ACTIVE"
  /\ In country (supportedCountries p).
Proof.
  unfold eligible. rewrite !andb_true_iff, !jseqb_eq, includes_In. tauto.
Qed.

(** The provider the selection settles on is a first element of the
    preferred list under the order the hint asks for. *)
Lemma selectedProvider_top (table : list Provider)
  (criteria : ProviderSelectionCriteria) :
  let pool :=
    filterByNetwork (findManyProviders table (country criteria))
      (network criteria) in
  match selectedProvider (Ok table) criteria with
  | None => findManyProviders table (country criteria) = []
  | Some p =>
      In p pool
      /\ forall q, In q pool ->
           match hint criteria with
           | Some speed => byLatency p q = true
           | Some reliability => bySuccessRate p q = true
           | _ => byPriority p q = true
           end
  end.
Proof.
  cbv zeta. unfold selectedProvider.
  destruct (findManyProviders table (country criteria)) as [|f fs] eqn:E;
    [reflexivity|].
  rewrite <- E.
  assert (Hne : findManyProviders table (country criteria) <> [])
    by (rewrite E; discriminate).
  assert (Hasc : ascending byPriority
                   (filterByNetwork (findManyProviders table (country criteria))
                      (network criteria))).
  { apply filterByNetwork_ascending. unfold findManyProviders.
    apply sortBy_ascending; [apply byPriority_total|apply byPriority_trans]. }
  pose proof (filterByNetwork_nonempty _ (network criteria) Hne) as Hpool.
  set (pool := filterByNetwork _ _) in *.
  assert (Hdefault :
    match hd_error pool with
    | Some p => In p pool /\ forall q, In q pool -> byPriority p q = true
    | None => findManyProviders table (country criteria) = []
    end).
  { destruct (hd_error pool) as [p|] eqn:Ep.
    - eapply ascending_hd; eauto. apply byPriority_total.
    - destruct pool; [congruence|discriminate]. }
  unfold applyPriority.
  destruct (hint criteria) as [[| |]|]; auto.
  - destruct (sortBy_hd_some _ byLatency pool Hpool) as [m Hm]. rewrite Hm.
    destruct (sortBy_hd_min _ byLatency pool m byLatency_total byLatency_trans Hm).
    auto.
  - destruct (sortBy_hd_some _ bySuccessRate pool Hpool) as [m Hm]. rewrite Hm.
    destruct (sortBy_hd_min _ bySuccessRate pool m bySuccessRate_total
                bySuccessRate_trans Hm).
    auto.
Qed.

(** C8 as the source has it.  [selectProvider] considers only the SMS
    providers with status ACTIVE that support the country, and returns
    [null] exactly when there is none (or the store fails); given a
    network it prefers those that also support it, unless none does; the
    provider returned is a top candidate by priority descending then
    success rate descending by default, by success rate descending under
    the hint [reliability], and under the hint [speed] by average latency
    ascending where a latency of 0 counts as 1000. *)
Theorem selectProvider_top (table : list Provider)
  (criteria : ProviderSelectionCriteria) :
  let candidate q :=
    In q table /\ type q = js "SMS" /\ status q = js "ACTIVE"
    /\ In (country criteria) (supportedCountries q) in
  let preferred q :=
    candidate q
    /\ match truthy (network criteria) with
       | Some n =>
           (exists q', candidate q' /\ In n (supportedNetworks q')) ->
           In n (supportedNetworks q)
       | None => True
       end in
  (forall e, selectProvider (Throw e) criteria = None)
  /\ match selectProvider (Ok table) criteria with
     | None => forall q, ~ candidate q
     | Some i =>
         exists p,
           i = toInfo p /\ preferred p
           /\ forall q, preferred q ->
                match hint criteria with
                | Some speed =>
                    (orElse (avgLatency p) 1000
                     <= orElse (avgLatency q) 1000)%Q
                | Some reliability => (successRate q <= successRate p)%Q
                | _ =>
                    priority q < priority p
                    \/ (priority p = priority q
                        /\ (successRate q <= successRate p)%Q)
                end
     end.
Proof.
  cbv zeta. split; [reflexivity|].
  assert (Hcand : forall q,
    In q (findManyProviders table (country criteria)) <->
    In q table /\ type q = js "SMS" /\ status q = js "ACTIVE"
    /\ In (country criteria) (supportedCountries q)).
  { intros q. rewrite findManyProviders_In, eligible_spec. tauto. }
  assert (Hpref : forall q,
    In q (filterByNetwork (findManyProviders table (country criteria))
            (network criteria)) <->
    (In q table /\ type q = js "SMS" /\ status q = js "ACTIVE"
     /\ In (country criteria) (supportedCountries q))
    /\ match truthy (network criteria) with
       | Some n =>
           (exists q',
              (In q' table /\ type q' = js "SMS" /\ status q' = js "ACTIVE"
               /\ In (country criteria) (supportedCountries q'))
              /\ In n (supportedNetworks q')) ->
           In n (supportedNetworks q)
       | None => True
       end).
  { intros q. rewrite filterByNetwork_In, Hcand.
    destruct (truthy (network criteria)) as [n|]; [|tauto].
    rewrite includes_In. split; intros [Hq Hs]; split; auto; intros [q' [H1 H2]];
      apply Hs; exists q'.
    - apply Hcand in H1. rewrite includes_In. auto.
    - apply Hcand in H1. rewrite includes_In in H2. auto. }
  pose proof (selectedProvider_top table criteria) as H. cbv zeta in H.
  unfold selectProvider.
  destruct (selectedProvider (Ok table) criteria) as [p|]; simpl.
  - destruct H as [Hin Hmin]. exists p. split; [reflexivity|].
    split; [now apply Hpref|].
    intros q Hq. apply Hpref in Hq. specialize (Hmin q Hq).
    destruct (hint criteria) as [[| |]|].
    + apply byPriority_spec in Hmin. intuition.
    + now apply byLatency_spec.
    + now apply bySuccessRate_spec.
    + apply byPriority_spec in Hmin. intuition.
  - intros q Hq. apply Hcand in Hq. rewrite H in Hq. destruct Hq.
Qed.

(** C8 as stated fails under the hint [speed]: of two active providers for
    the country, the one returned has the higher average latency, because
    a latency of 0 is ranked as 1000. *)
Lemma selectProvider_speed_skips_zero_latency :
  let criteria :=
    {| country := js "GH"; network := None; messageType := SMS;
       hint := Some speed |} in
  selectProvider (Ok [fastProvider; slowProvider]) criteria
  = Some (toInfo slowProvider)
  /\ eligible (js "GH") fastProvider = true
  /\ (avgLatency fastProvider < avgLatency slowProvider)%Q
  /\ ~ (forall q, In q [fastProvider; slowProvider] ->
          (avgLatency slowProvider <= avgLatency q)%Q).
Proof.
  cbv zeta. split; [reflexivity|]. split; [reflexivity|].
  split; [reflexivity|].
  intros H. specialize (H fastProvider (or_introl eq_refl)).
  vm_compute in H. apply H. reflexivity.
Qed.

Lemma MessageType_eqb_eq (a b : MessageType) :
  MessageType_eqb a b = true <-> a = b.
Proof. destruct a, b; simpl; split; congruence. Qed.

Lemma optionEqb_eq (a b : option jsstring) : optionEqb a b = true <-> a = b.
Proof.
  destruct a as [x|], b as [y|]; simpl; try (split; congruence).
  rewrite jseqb_eq. split; congruence.
Qed.

(** The [where] clause of the pricing query, spelled out. *)
Lemma rateMatches_spec (now : Z) (country : jsstring)
  (network : option jsstring) (messageType : MessageType) (r : PricingRate) :
  rateMatches now country network messageType r = true <->
  rate_country r = country /\ rate_network r = network
  /\ rate_messageType r = messageType /\ serviceType r = js "SMS"
  /\ isActive r = true /\ effectiveFrom r <= now
  /\ match effectiveTo r with
     | None => True
     | Some t => now <= t
     end.
Proof.
  unfold rateMatches.
  rewrite !andb_true_iff, !jseqb_eq, optionEqb_eq, MessageType_eqb_eq,
    Z.leb_le.
  destruct (effectiveTo r) as [t|]; [rewrite Z.leb_le|]; intuition.
Qed.

Lemma byEffectiveFrom_total (a b : PricingRate) :
  byEffectiveFrom a b = true \/ byEffectiveFrom b a = true.
Proof. unfold byEffectiveFrom. rewrite !Z.leb_le. lia. Qed.

Lemma byEffectiveFrom_trans (a b c : PricingRate) :
  byEffectiveFrom a b = true -> byEffectiveFrom b c = true ->
  byEffectiveFrom a c = true.
Proof. unfold byEffectiveFrom. rewrite !Z.leb_le. lia. Qed.

(** The row the pricing query returns: a matching row with the latest
    start of validity, or none when no row matches. *)
Lemma findFirstRate_spec (table : list PricingRate) (now : Z)
  (country : jsstring) (network : option jsstring)
  (messageType : MessageType) :
  match findFirstRate table now country network messageType with
  | Some r =>
      In r table /\ rateMatches now country network messageType r = true
      /\ forall r', In r' table ->
           rateMatches now country network messageType r' = true ->
           effectiveFrom r' <= effectiveFrom r
  | None =>
      forall r, In r table ->
        rateMatches now country network messageType r = false
  end.
Proof.
  unfold findFirstRate.
  set (matching := filter (rateMatches now country network messageType) table).
  destruct (hd_error (sortBy byEffectiveFrom matching)) as [r|] eqn:E.
  - destruct (sortBy_hd_min _ byEffectiveFrom matching r
                byEffectiveFrom_total byEffectiveFrom_trans E) as [Hin Hmin].
    apply filter_In in Hin as [Hin Hm]. repeat split; auto.
    intros r' Hr' Hm'. apply Z.leb_le. apply (Hmin r').
    apply filter_In. auto.
  - intros r Hr.
    destruct (rateMatches now country network messageType r) eqn:Em; auto.
    assert (Hin : In r matching) by (apply filter_In; auto).
    destruct (sortBy byEffectiveFrom matching) eqn:Es; [|discriminate].
    apply sortBy_nil in Es. rewrite Es in Hin. destruct Hin.
Qed.

(** C2 as the source has it.  [getPricing] makes one lookup, keyed on the
    country and on the network when one is given (on the null network
    otherwise), among the active SMS rates of the message type that are
    currently effective, and takes the latest of them; when there is none,
    or the store fails, it returns the fall-back rate of 0.035 per unit in
    GHS.  It never throws, and the total cost is the rate returned times
    the units. *)
Theorem getPricing_single_lookup (db : Result (list PricingRate)) (now : Z)
  (country : jsstring) (network : option jsstring)
  (messageType : MessageType) (units : Z) :
  let p := getPricing db now country network messageType units in
  let current r :=
    rate_country r = country /\ rate_network r = truthy network
    /\ rate_messageType r = messageType /\ serviceType r = js "SMS"
    /\ isActive r = true /\ effectiveFrom r <= now
    /\ match effectiveTo r with
       | None => True
       | Some t => now <= t
       end in
  totalCost p = (pricing_ratePerUnit p * inject_Z units)%Q
  /\ pricing_units p = units
  /\ pricing_country p = country
  /\ match db with
     | Ok table =>
         (exists r,
            In r table /\ current r
            /\ (forall r', In r' table -> current r' ->
                  effectiveFrom r' <= effectiveFrom r)
            /\ pricing_ratePerUnit p = ratePerUnit r
            /\ pricing_currency p = currency r)
         \/ ((forall r, In r table -> ~ current r)
             /\ pricing_ratePerUnit p = 35 # 1000
             /\ pricing_currency p = js "GHS")
     | Throw _ =>
         pricing_ratePerUnit p = 35 # 1000 /\ pricing_currency p = js "GHS"
     end.
Proof.
  cbv zeta. unfold getPricing.
  destruct db as [table|e]; [|simpl; auto].
  pose proof (findFirstRate_spec table now country (truthy network)
                messageType) as H.
  destruct (findFirstRate table now country (truthy network) messageType)
    as [r|]; simpl; repeat split; auto.
  - left. destruct H as [Hin [Hm Hmax]]. exists r.
    split; auto. split; [now apply rateMatches_spec|].
    split; auto. intros r' Hr' Hc. apply Hmax; auto.
    now apply rateMatches_spec.
  - right. split; auto. intros r Hr Hc.
    apply rateMatches_spec in Hc. rewrite (H r Hr) in Hc. discriminate.
Qed.

(** C2 as stated fails: with a network given and only the country-wide
    default configured, the default is currently effective for the
    country, yet the rate returned is the system fall-back. *)
Lemma getPricing_skips_country_default :
  let p := getPricing (Ok [ghanaDefaultRate]) 1000 (js "GH")
             (Some (js "mtn")) SMS 1 in
  rateMatches 1000 (js "GH") None SMS ghanaDefaultRate = true
  /\ pricing_ratePerUnit p = 35 # 1000
  /\ ~ (pricing_ratePerUnit p == ratePerUnit ghanaDefaultRate)%Q.
Proof.
  cbv zeta. split; [reflexivity|]. split; [reflexivity|].
  intros H. vm_compute in H. discriminate.
Qed.

End SMSRouterFacts.

(** ** Bulk dispatch *)

Module SMSServiceFacts.

Import SMSRouterService SMSService JSFacts BulkNotions.

Lemma processRecipient_step (env : Env) (w : World) (accountId : jsstring)
  (request : BulkSMSRequest) (sender : jsstring * jsstring) (i : nat)
  (r : Recipient) (st : Loop) :
  providers (world st) = providers w ->
  let st' := processRecipient env accountId request sender i r st in
  exists row new,
    results st' = results st ++ [row]
    /\ rowFor env w request r row
    /\ messages (world st') = messages (world st) ++ new
    /\ List.length new = (if refused env w request r then 0 else 1)%nat
    /\ Forall (fun m => msg_batchId m = Some (nanoid env)
                        /\ msg_accountId m = accountId
                        /\ msg_status m = QUEUED) new
    /\ providers (world st') = providers (world st)
    /\ rates (world st') = rates (world st)
    /\ senderIds (world st') = senderIds (world st).
Proof.
  intros Hp. cbv zeta. unfold processRecipient, rowFor, refused.
  destruct (messageFor request r) as [message|].
  2:{ eexists; exists []. simpl. rewrite app_nil_r. repeat split; auto. }
  destruct (finalMessageFor env message r) as [finalMessage|e].
  2:{ eexists; exists []. simpl. rewrite app_nil_r. repeat split; auto. }
  cbv zeta.
  destruct (SMSValidationService.valid
              (SMSValidationService.validatePhoneNumber (to r))).
  2:{ eexists; exists []. simpl. rewrite app_nil_r. repeat split; auto. }
  simpl negb. cbv iota. rewrite orb_false_l.
  unfold routeMessage. cbn [provider routing_country routing_network].
  rewrite Hp.
  destruct (selectProvider _ _) as [prov|].
  2:{ eexists; exists []. simpl. rewrite app_nil_r. repeat split; auto. }
  eexists; eexists [_]. simpl. repeat split; auto; discriminate.
Qed.

Lemma processRecipients_spec (env : Env) (w : World) (accountId : jsstring)
  (request : BulkSMSRequest) (sender : jsstring * jsstring)
  (rs : list Recipient) :
  forall (i : nat) (st : Loop),
  providers (world st) = providers w ->
  let st' := processRecipients env accountId request sender i rs st in
  exists rows new,
    results st' = results st ++ rows
    /\ Forall2 (rowFor env w request) rs rows
    /\ messages (world st') = messages (world st) ++ new
    /\ List.length new
       = List.length (filter (fun r => negb (refused env w request r)) rs)
    /\ Forall (fun m => msg_batchId m = Some (nanoid env)
                        /\ msg_accountId m = accountId
                        /\ msg_status m = QUEUED) new
    /\ providers (world st') = providers (world st)
    /\ rates (world st') = rates (world st)
    /\ senderIds (world st') = senderIds (world st).
Proof.
  induction rs as [|r rs IH]; intros i st Hp; cbv zeta; simpl.
  - exists [], []. rewrite !app_nil_r. repeat split; auto.
  - destruct (processRecipient_step env w accountId request sender i r st Hp)
      as [row [new1 [Hr [Hrow [Hm [Hl [Hb [Hp1 [Hr1 Hs1]]]]]]]]].
    set (st1 := processRecipient env accountId request sender i r st) in *.
    destruct (IH (S i) st1 ltac:(congruence))
      as [rows [new2 [Hr' [Hrows [Hm' [Hl' [Hb' [Hp2 [Hr2 Hs2]]]]]]]]].
    exists (row :: rows), (new1 ++ new2).
    rewrite Hr', Hr, Hm', Hm, <- !app_assoc. simpl.
    repeat split; auto; try congruence.
    + rewrite length_app, Hl, Hl'.
      destruct (refused env w request r); reflexivity.
    + apply Forall_app. auto.
Qed.

Lemma rows_count (env : Env) (w : World) (request : BulkSMSRequest)
  (rs : list Recipient) (rows : list Row) :
  Forall2 (rowFor env w request) rs rows ->
  List.length rows = List.length rs
  /\ countStatus rejected rows
     = Z.of_nat (List.length (filter (refused env w request) rs))
  /\ countStatus accepted rows
     = Z.of_nat (List.length
                   (filter (fun r => negb (refused env w request r)) rs)).
Proof.
  unfold countStatus.
  induction 1 as [|r row rs rows [Hs _] _ IH]; simpl; auto.
  destruct IH as [IH1 [IH2 IH3]]. rewrite Hs.
  destruct (refused env w request r); simpl; repeat split; lia.
Qed.

Lemma filter_split_length {A : Type} (f : A -> bool) (l : list A) :
  (List.length (filter f l)
   + List.length (filter (fun x => negb (f x)) l) = List.length l)%nat.
Proof.
  induction l as [|x l IH]; simpl; auto.
  destruct (f x); simpl; lia.
Qed.

(** C9.  A bulk send throws only when no sender identity resolves for the
    whole request; otherwise, with N recipients of which M are refused
    (no message, a substitution that throws, an invalid number, or no
    provider), it returns N rows in the order of the recipients, the row
    of a refused recipient being a rejected line with an empty id, with
    accepted = N - M, rejected = M and accepted + rejected =
    totalRecipients = N, all under the one batch id drawn for the request,
    which every message row created by the call carries; there is one such
    message row per accepted recipient. *)
Theorem sendBulkSMS_partial_success (env : Env) (w : World)
  (accountId : jsstring) (request : BulkSMSRequest) :
  let n := Z.of_nat (List.length (recipients request)) in
  let m :=
    Z.of_nat (List.length (filter (refused env w request)
                             (recipients request))) in
  match sendBulkSMS env w accountId request with
  | Throw e =>
      resolveSenderId (senderIds w) accountId (senderId request) = Throw e
  | Ok (response, w') =>
      batchId response = nanoid env
      /\ totalRecipients response = n
      /\ Z.of_nat (List.length (rows response)) = n
      /\ rejectedCount response = m
      /\ acceptedCount response = n - m
      /\ acceptedCount response + rejectedCount response
         = totalRecipients response
      /\ Forall2 (fun r row =>
                    row_status row
                    = (if refused env w request r then rejected else accepted)
                    /\ (refused env w request r = true ->
                        row_id row = [] /\ row_to row = to r))
           (recipients request) (rows response)
      /\ exists new,
           messages w' = messages w ++ new
           /\ Z.of_nat (List.length new) = acceptedCount response
           /\ Forall (fun msg => msg_batchId msg = Some (batchId response)) new
  end.
Proof.
  cbv zeta. unfold sendBulkSMS.
  destruct (resolveSenderId (senderIds w) accountId (senderId request))
    as [sender|e]; [|reflexivity].
  destruct (processRecipients_spec env w accountId request sender
              (recipients request) 0
              {| results := []; totalCost := 0%Q; world := w |} eq_refl)
    as [rows [new [Hr [Hrows [Hm [Hl [Hb _]]]]]]].
  cbv zeta in Hr, Hm. simpl in Hr, Hm.
  set (st := processRecipients env accountId request sender 0
               (recipients request) _) in *.
  cbn [batchId totalRecipients SMSService.rows rejectedCount acceptedCount].
  rewrite Hr.
  destruct (rows_count env w request _ _ Hrows) as [H1 [H2 H3]].
  pose proof (filter_split_length (refused env w request)
                (recipients request)) as Hsplit.
  repeat split; auto; try lia.
  exists new. rewrite H3. repeat split; auto; try lia.
  eapply Forall_impl; [|exact Hb]. simpl. tauto.
Qed.

End SMSServiceFacts.

(** ** Code generation *)

Module OTPFacts.

Import OTPService JSFacts OTPSamples.

Lemma charAt_In (s : jsstring) (i : Z) (c : N) : In c (charAt s i) -> In c s.
Proof.
  unfold charAt. destruct (i <? 0); [intros []|].
  destruct (nth_error s (Z.to_nat i)) as [d|] eqn:E; [|intros []].
  intros [<-|[]]. eapply nth_error_In; eauto.
Qed.

Lemma charAt_length (s : jsstring) (i : Z) :
  0 <= i < jslength s -> List.length (charAt s i) = 1%nat.
Proof.
  unfold charAt, jslength. intros H.
  destruct (i <? 0) eqn:E; [apply Z.ltb_lt in E; lia|].
  destruct (nth_error s (Z.to_nat i)) eqn:En; [reflexivity|].
  apply nth_error_None in En. lia.
Qed.

(** [Math.floor(r * n)] is an index below [n] when [0 <= r < 1]. *)
Lemma random_index (r : Q) (n : Z) :
  (0 <= r)%Q -> (r < 1)%Q -> 0 < n ->
  0 <= Qfloor (r * inject_Z n) < n.
Proof.
  intros H0 H1 Hn.
  assert (Hnq : (0 < inject_Z n)%Q).
  { change 0%Q with (inject_Z 0). now rewrite <- Zlt_Qlt. }
  split.
  - rewrite <- (Qfloor_Z 0).
    apply Qfloor_resp_le. change (inject_Z 0) with 0%Q.
    apply Qmult_le_0_compat; auto. now apply Qlt_le_weak.
  - rewrite Zlt_Qlt. eapply Qle_lt_trans; [apply Qfloor_le|].
    setoid_replace (inject_Z n) with (1 * inject_Z n)%Q at 2 by ring.
    now apply Qmult_lt_compat_r.
Qed.

Lemma characters_nonempty (type : PinType) : 0 < jslength (characters type).
Proof. destruct type; reflexivity. Qed.

Lemma generateFrom_In (rnd : RandomSources) (chars : jsstring) (n i : nat)
  (c : N) :
  In c (generateFrom rnd chars i n) -> In c chars.
Proof.
  revert i. induction n as [|n IH]; intros i; simpl; [intros []|].
  intros H. apply in_app_or in H as [H|H]; eauto using charAt_In.
Qed.

Lemma generateFrom_length (rnd : RandomSources) (chars : jsstring)
  (n i : nat) :
  (forall k, (0 <= Math_random rnd k)%Q /\ (Math_random rnd k < 1)%Q) ->
  0 < jslength chars ->
  List.length (generateFrom rnd chars i n) = n.
Proof.
  intros Hr Hc. revert i. induction n as [|n IH]; intros i; simpl; auto.
  rewrite length_app, IH, charAt_length; auto.
  destruct (Hr i). now apply random_index.
Qed.

Lemma generateFrom_source (rnd rnd' : RandomSources) (chars : jsstring)
  (n i : nat) :
  (forall k, Math_random rnd k = Math_random rnd' k) ->
  generateFrom rnd chars i n = generateFrom rnd' chars i n.
Proof.
  intros H. revert i. induction n as [|n IH]; intros i; simpl; auto.
  now rewrite H, IH.
Qed.

(** Length and alphabet: the code has the requested length and is drawn
    from the alphabet of the pin type. *)
Lemma generateCode_shape (rnd : RandomSources) (length : Z) (type : PinType) :
  (forall k, (0 <= Math_random rnd k)%Q /\ (Math_random rnd k < 1)%Q) ->
  0 <= length ->
  jslength (generateCode rnd length type) = length
  /\ Forall (fun c => In c (characters type)) (generateCode rnd length type).
Proof.
  intros Hr Hl. unfold generateCode, jslength. split.
  - rewrite generateFrom_length; auto using characters_nonempty. lia.
  - apply Forall_forall. intros c. apply generateFrom_In.
Qed.

(** C6, the random source.  The code is a function of the values
    [Math.random()] returns alone: nothing is drawn from the
    cryptographic source of the runtime. *)
Theorem generateCode_draws_from_Math_random (rnd rnd' : RandomSources)
  (length : Z) (type : PinType) :
  (forall k, Math_random rnd k = Math_random rnd' k) ->
  generateCode rnd length type = generateCode rnd' length type.
Proof.
  intros H. unfold generateCode. now apply generateFrom_source.
Qed.

Lemma generateCode_draws_from_Math_random_witness :
  generateCode (sixteenths 0) 6 NUMERIC = generateCode (sixteenths 255) 6 NUMERIC
  /\ generateCode (sixteenths 0) 6 NUMERIC = js "001123".
Proof.
  split.
  - apply (generateCode_draws_from_Math_random (sixteenths 0) (sixteenths 255)
             6 NUMERIC).
    intros k. reflexivity.
  - reflexivity.
Defined.

Lemma upperUnit_fixed_on_alphabet (type : PinType) :
  Forall (fun c => upperUnit c = c) (characters type).
Proof.
  destruct type; repeat constructor.
Qed.

(** Generated codes hold no lower-case letter. *)
Lemma generateCode_upper (rnd : RandomSources) (length : Z) (type : PinType) :
  toUpperCase (generateCode rnd length type) = generateCode rnd length type.
Proof.
  unfold toUpperCase, generateCode.
  rewrite <- (map_id (generateFrom _ _ _ _)) at 2.
  apply map_ext_in. intros c Hc. apply generateFrom_In in Hc.
  pose proof (upperUnit_fixed_on_alphabet type) as H.
  rewrite Forall_forall in H. auto.
Qed.

End OTPFacts.

(** ** The OTP table and the verification state machine *)

Module VerificationFacts.

Import OTPService VerificationStorageService VerificationService JSFacts
  OTPNotions OTPSamples.

Lemma change_keeps (f : OtpMessage -> OtpMessage) (o : OtpMessage) :
  change f ->
  id (f o) = id o /\ accountId (f o) = accountId o
  /\ recipient (f o) = recipient o
  /\ (isPending (f o) = true -> isPending o = true).
Proof.
  intros [s Hs|now| |]; simpl; repeat split; auto;
    unfold isPending; simpl; try discriminate.
  destruct s; simpl; congruence.
Qed.

Lemma NoDup_map_eq {A B : Type} (f : A -> B) (l : list A) (x y : A) :
  NoDup (List.map f l) -> In x l -> In y l -> f x = f y -> x = y.
Proof.
  induction l as [|h t IH]; simpl; [intros _ []|].
  intros Hnd Hx Hy E. inversion Hnd as [|? ? Hnot Hnd']; subst.
  destruct Hx as [->|Hx], Hy as [->|Hy]; auto.
  - exfalso. apply Hnot. rewrite E. now apply in_map.
  - exfalso. apply Hnot. rewrite <- E. now apply in_map.
Qed.

Lemma wellKeyed_NoDup (table : Table) :
  wellKeyed table -> NoDup (List.map id table).
Proof.
  unfold wellKeyed. intros ->.
  apply Finite.Injective_map_NoDup; [|apply seq_NoDup].
  intros x y. apply Nnat.Nat2N.inj.
Qed.

Lemma wellKeyed_unique (table : Table) (o o' : OtpMessage) :
  wellKeyed table -> In o table -> In o' table -> id o = id o' -> o = o'.
Proof.
  intros H. apply NoDup_map_eq. now apply wellKeyed_NoDup.
Qed.

Lemma findById_unique (table : Table) (o : OtpMessage) :
  wellKeyed table -> In o table -> findById table (id o) = Some o.
Proof.
  intros Hk Ho. unfold findById.
  destruct (find (fun x => N.eqb (id x) (id o)) table) as [x|] eqn:E.
  - apply find_some in E as [Hx Hid]. apply N.eqb_eq in Hid.
    f_equal. eapply wellKeyed_unique; eauto.
  - apply (find_none _ _ E) in Ho. rewrite N.eqb_refl in Ho. discriminate.
Qed.

Lemma findById_updated (k : N) (f : OtpMessage -> OtpMessage) (table : Table) :
  (forall o, id (f o) = id o) ->
  findById (updated k f table) k = option_map f (findById table k).
Proof.
  intros Hf. unfold findById, updated.
  induction table as [|h t IH]; simpl; auto.
  destruct (N.eqb (id h) k) eqn:E.
  - rewrite Hf, E. reflexivity.
  - rewrite E. exact IH.
Qed.

Lemma update_found (table : Table) (o : OtpMessage)
  (f : OtpMessage -> OtpMessage) :
  wellKeyed table -> In o table ->
  update table (id o) f = Ok (updated (id o) f table).
Proof.
  intros Hk Ho. unfold update. now rewrite findById_unique.
Qed.

Lemma updated_updated (k : N) (f g : OtpMessage -> OtpMessage) (table : Table) :
  (forall o, id (f o) = id o) ->
  updated k g (updated k f table) = updated k (fun o => g (f o)) table.
Proof.
  intros Hf. unfold updated. rewrite map_map. apply map_ext. intros o.
  destruct (N.eqb (id o) k) eqn:E.
  - now rewrite Hf, E.
  - now rewrite E.
Qed.

Lemma updated_wellKeyed (k : N) (f : OtpMessage -> OtpMessage) (table : Table) :
  (forall o, id (f o) = id o) -> wellKeyed table ->
  wellKeyed (updated k f table).
Proof.
  unfold wellKeyed, updated. intros Hf H.
  rewrite length_map, map_map, <- H. apply map_ext. intros o.
  destruct (N.eqb (id o) k); auto.
Qed.

Lemma filter_map_le {A : Type} (P : A -> bool) (g : A -> A) (l : list A) :
  (forall x, In x l -> P (g x) = true -> P x = true) ->
  (List.length (filter P (List.map g l)) <= List.length (filter P l))%nat.
Proof.
  induction l as [|h t IH]; simpl; auto.
  intros H. specialize (IH (fun x Hx => H x (or_intror Hx))).
  pose proof (H h (or_introl eq_refl)) as Hh.
  destruct (P (g h)); simpl.
  - rewrite Hh by reflexivity. simpl. lia.
  - destruct (P h); simpl; lia.
Qed.

Lemma pendingFor_change (account phone : jsstring)
  (f : OtpMessage -> OtpMessage) (o : OtpMessage) :
  change f -> pendingFor account phone (f o) = true ->
  pendingFor account phone o = true.
Proof.
  intros Hf. destruct (change_keeps f o Hf) as [_ [Ha [Hr Hp]]].
  unfold pendingFor, forPair. rewrite Ha, Hr.
  rewrite !andb_true_iff. intuition.
Qed.

Lemma updated_pendingCount (k : N) (f : OtpMessage -> OtpMessage)
  (table : Table) (account phone : jsstring) :
  change f ->
  (pendingCount (updated k f table) account phone
   <= pendingCount table account phone)%nat.
Proof.
  intros Hf. unfold pendingCount, updated. apply filter_map_le.
  intros o _. destruct (N.eqb (id o) k); auto.
  now apply pendingFor_change.
Qed.

Lemma short_list_eq {A : Type} (l : list A) (x y : A) :
  (List.length l <= 1)%nat -> In x l -> In y l -> x = y.
Proof.
  destruct l as [|a [|b t]]; simpl; intros H Hx Hy; try lia;
    intuition congruence.
Qed.

Lemma single_pending_eq (table : Table) (account phone : jsstring)
  (o o' : OtpMessage) :
  (pendingCount table account phone <= 1)%nat ->
  In o table -> pendingFor account phone o = true ->
  In o' table -> pendingFor account phone o' = true -> o = o'.
Proof.
  intros H Ho Hp Ho' Hp'.
  apply (short_list_eq (filter (pendingFor account phone) table)); auto;
    apply filter_In; auto.
Qed.

Lemma byCreatedAt_total (a b : OtpMessage) :
  byCreatedAt a b = true \/ byCreatedAt b a = true.
Proof. unfold byCreatedAt. rewrite !Z.leb_le. lia. Qed.

Lemma byCreatedAt_trans (a b c : OtpMessage) :
  byCreatedAt a b = true -> byCreatedAt b c = true -> byCreatedAt a c = true.
Proof. unfold byCreatedAt. rewrite !Z.leb_le. lia. Qed.

(** The row [getActiveOTP] selects is a PENDING row of the pair that has
    not expired at the time of the query. *)
Lemma findActive_some (table : Table) (now : Z) (account phone : jsstring)
  (o : OtpMessage) :
  findActive table now account phone = Some o ->
  In o table /\ pendingFor account phone o = true /\ now < expiresAt o.
Proof.
  unfold findActive. intros H.
  apply (sortBy_hd_min _ byCreatedAt _ o byCreatedAt_total byCreatedAt_trans)
    in H as [H _].
  apply filter_In in H as [Hin H]. apply andb_true_iff in H as [H He].
  split; auto. split; auto. apply Z.gtb_lt in He. lia.
Qed.

Lemma findActive_none (table : Table) (now : Z) (account phone : jsstring) :
  pendingCount table account phone = 0%nat ->
  findActive table now account phone = None.
Proof.
  unfold pendingCount. intros H.
  destruct (findActive table now account phone) as [o|] eqn:E; auto.
  apply findActive_some in E as [Hin [Hp _]].
  assert (Hf : In o (filter (pendingFor account phone) table))
    by (apply filter_In; auto).
  destruct (filter (pendingFor account phone) table); [destruct Hf|discriminate].
Qed.

Lemma findActive_only (table : Table) (now : Z) (account phone : jsstring)
  (o : OtpMessage) :
  (pendingCount table account phone <= 1)%nat ->
  In o table -> pendingFor account phone o = true -> now < expiresAt o ->
  findActive table now account phone = Some o.
Proof.
  intros H1 Ho Hp He.
  destruct (findActive table now account phone) as [o'|] eqn:E.
  - apply findActive_some in E as [Ho' [Hp' _]].
    f_equal. eapply single_pending_eq; eauto.
  - exfalso. unfold findActive in E.
    set (l := filter _ table) in E.
    assert (Hin : In o l).
    { apply filter_In. split; auto. unfold pendingFor in Hp.
      rewrite Hp. simpl. apply Z.gtb_lt. lia. }
    destruct (sortBy byCreatedAt l) eqn:Es; [|discriminate].
    apply sortBy_nil in Es. rewrite Es in Hin. destruct Hin.
Qed.

(** [verifyOTP] branch by branch, on a table whose keys are unique. *)
Lemma verifyOTP_cases (bun : BunPassword) (env : VerifyEnv) (table : Table)
  (account : jsstring) (request : OTPVerifyRequest) :
  wellKeyed table ->
  let phone := normalizePhoneNumber (verify_phone request) in
  verifyOTP bun env table account request =
  match findActive table (t_query env) account phone with
  | None => (Ok (failure phone msg_noActive None), table)
  | Some otp =>
      if isExpired (t_expired env) (expiresAt otp) then
        (Ok (failure phone msg_expired None),
         updated (id otp) (setStatus EXPIRED) table)
      else if attempts otp >=? VerificationStorageService.maxAttempts otp then
        (Ok (failure phone msg_maxReached None),
         updated (id otp) (setStatus FAILED) table)
      else if negb (verifyCode bun (toUpperCase (code request)) (codeHash otp))
      then
        if VerificationStorageService.maxAttempts otp - (attempts otp + 1) <=? 0 then
          (Ok (failure phone msg_invalidMax None),
           updated (id otp) (fun o => setStatus FAILED (addAttempt o)) table)
        else
          (Ok (failure phone
                 (msg_invalid (VerificationStorageService.maxAttempts otp - (attempts otp + 1)))
                 (Some (VerificationStorageService.maxAttempts otp - (attempts otp + 1)))),
           updated (id otp) addAttempt table)
      else
        (Ok {| success := true; verified_phone := phone; verified := true;
               attemptsLeft := None; message := msg_verified;
               verifiedAt := Some (t_response env) |},
         updated (id otp) (setVerified (t_verified env)) table)
  end.
Proof.
  intros Hk. cbv zeta. unfold verifyOTP, getActiveOTP.
  destruct (findActive table (t_query env) account
              (normalizePhoneNumber (verify_phone request))) as [otp|] eqn:E;
    [|reflexivity].
  apply findActive_some in E as [Hin _].
  cbn [data_id data_expiresAt data_attempts data_maxAttempts data_codeHash].
  destruct (isExpired (t_expired env) (expiresAt otp)).
  { unfold markAsExpired. now rewrite update_found. }
  destruct (attempts otp >=? VerificationStorageService.maxAttempts otp).
  { unfold markAsFailed. now rewrite update_found. }
  destruct (negb (verifyCode bun (toUpperCase (code request)) (codeHash otp))).
  - unfold incrementAttempts. rewrite update_found by auto.
    rewrite findById_updated by reflexivity.
    rewrite findById_unique by auto. cbn [option_map attempts addAttempt].
    destruct (VerificationStorageService.maxAttempts otp - (attempts otp + 1) <=? 0); [|reflexivity].
    unfold markAsFailed, update.
    rewrite findById_updated by reflexivity.
    rewrite findById_unique by auto. cbn [option_map andReturn].
    change (List.map (fun o => if N.eqb (id o) (id otp)
                               then setStatus FAILED o else o)
              (updated (id otp) addAttempt table))
      with (updated (id otp) (setStatus FAILED)
              (updated (id otp) addAttempt table)).
    now rewrite updated_updated by reflexivity.
  - unfold markAsVerified. now rewrite update_found.
Qed.

(** Every [verifyOTP] call leaves the table as it is or makes one of the
    row changes on the keys of a PENDING row. *)
Lemma verifyOTP_table (bun : BunPassword) (env : VerifyEnv) (table : Table)
  (account : jsstring) (request : OTPVerifyRequest) :
  wellKeyed table ->
  snd (verifyOTP bun env table account request) = table
  \/ exists otp f,
       In otp table /\ isPending otp = true /\ change f
       /\ snd (verifyOTP bun env table account request)
          = updated (id otp) f table.
Proof.
  intros Hk. rewrite verifyOTP_cases by auto. cbv zeta.
  destruct (findActive table (t_query env) account
              (normalizePhoneNumber (verify_phone request))) as [otp|] eqn:E;
    [|now left].
  apply findActive_some in E as [Hin [Hp _]].
  apply andb_true_iff in Hp as [_ Hp].
  right. exists otp.
  destruct (isExpired (t_expired env) (expiresAt otp)).
  { eexists. repeat split; eauto. constructor. discriminate. }
  destruct (attempts otp >=? VerificationStorageService.maxAttempts otp).
  { eexists. repeat split; eauto. constructor. discriminate. }
  destruct (negb (verifyCode bun (toUpperCase (code request)) (codeHash otp))).
  - destruct (VerificationStorageService.maxAttempts otp - (attempts otp + 1) <=? 0);
      eexists; repeat split; eauto; constructor.
  - eexists. repeat split; eauto. constructor.
Qed.

Lemma verifyOTP_keeps (bun : BunPassword) (env : VerifyEnv) (table : Table)
  (account : jsstring) (request : OTPVerifyRequest) :
  wellKeyed table ->
  let table' := snd (verifyOTP bun env table account request) in
  wellKeyed table'
  /\ (forall a p, (pendingCount table' a p <= pendingCount table a p)%nat)
  /\ (forall o, In o table -> isPending o = false -> In o table').
Proof.
  intros Hk. cbv zeta.
  destruct (verifyOTP_table bun env table account request Hk)
    as [->|[otp [f [Hin [Hp [Hf ->]]]]]].
  - repeat split; auto.
  - split; [|split].
    + apply updated_wellKeyed; auto. intros o. now apply change_keeps.
    + intros a p. now apply updated_pendingCount.
    + intros o Ho Hnp. unfold updated.
      apply in_map_iff. exists o. split; auto.
      destruct (N.eqb (id o) (id otp)) eqn:E; auto.
      apply N.eqb_eq in E.
      assert (o = otp) by (eapply wellKeyed_unique; eauto).
      subst. congruence.
Qed.

(** Once a pair has no PENDING row, later [verifyOTP] calls, whatever
    their arguments, neither bring one back nor touch a row that has left
    PENDING. *)
Lemma later_verify_calls (bun : BunPassword) (account phone : jsstring)
  (o : OtpMessage) (cs : list Call) :
  onlyVerify cs ->
  forall table,
  wellKeyed table -> pendingCount table account phone = 0%nat ->
  In o table -> isPending o = false ->
  let table' := afterCalls bun table cs in
  wellKeyed table' /\ pendingCount table' account phone = 0%nat
  /\ In o table'.
Proof.
  induction 1 as [|c cs Hc _ IH]; intros table Hk H0 Ho Hnp; simpl; auto.
  destruct c as [ | env a request | ]; try contradiction.
  destruct (verifyOTP_keeps bun env table a request Hk) as [Hk' [Hle Hin]].
  apply IH; auto. specialize (Hle account phone). simpl. lia.
Qed.

Lemma pendingCount_zero (table : Table) (account phone : jsstring) :
  (forall o, In o table -> pendingFor account phone o = false) ->
  pendingCount table account phone = 0%nat.
Proof.
  intros H. unfold pendingCount.
  destruct (filter (pendingFor account phone) table) as [|x l] eqn:E; auto.
  assert (Hx : In x (filter (pendingFor account phone) table))
    by (rewrite E; now left).
  apply filter_In in Hx as [Hx Hp]. rewrite (H x Hx) in Hp. discriminate.
Qed.

(** Taking the only PENDING row of a pair out of PENDING leaves the pair
    without one. *)
Lemma updated_clears (table : Table) (account phone : jsstring)
  (otp : OtpMessage) (f : OtpMessage -> OtpMessage) :
  wellKeyed table ->
  (pendingCount table account phone <= 1)%nat ->
  In otp table -> pendingFor account phone otp = true ->
  change f -> isPending (f otp) = false ->
  pendingCount (updated (id otp) f table) account phone = 0%nat.
Proof.
  intros Hk H1 Hin Hp Hf Hnp. apply pendingCount_zero.
  intros o' Ho'. unfold updated in Ho'.
  apply in_map_iff in Ho' as [o [<- Ho]].
  destruct (N.eqb (id o) (id otp)) eqn:E.
  - apply N.eqb_eq in E.
    assert (o = otp) by (eapply wellKeyed_unique; eauto). subst.
    unfold pendingFor. rewrite Hnp. apply andb_false_r.
  - destruct (pendingFor account phone o) eqn:Ep; auto.
    assert (o = otp) by (eapply single_pending_eq; eauto). subst.
    rewrite N.eqb_refl in E. discriminate.
Qed.

Lemma updated_In (table : Table) (otp : OtpMessage)
  (f : OtpMessage -> OtpMessage) :
  In otp table -> In (f otp) (updated (id otp) f table).
Proof.
  intros H. unfold updated. apply in_map_iff. exists otp.
  now rewrite N.eqb_refl.
Qed.

(** A row that has left PENDING, in a pair without PENDING row: later
    [verifyOTP] calls leave the row as it is, and those for the pair answer
    that there is no active OTP. *)
Lemma closed_after (bun : BunPassword) (table : Table)
  (account phone : jsstring) (row : OtpMessage) (cs : list Call) :
  wellKeyed table -> pendingCount table account phone = 0%nat ->
  In row table -> isPending row = false -> onlyVerify cs ->
  let later := afterCalls bun table cs in
  findById later (id row) = Some row
  /\ forall env request,
       normalizePhoneNumber (verify_phone request) = phone ->
       verifyOTP bun env later account request
       = (Ok (failure phone msg_noActive None), later).
Proof.
  intros Hk H0 Hin Hnp Hcs. cbv zeta.
  destruct (later_verify_calls bun account phone row cs Hcs table Hk H0 Hin Hnp)
    as [Hk' [H0' Hin']].
  split; [now apply findById_unique|].
  intros env request Hp. rewrite verifyOTP_cases by auto. cbv zeta.
  rewrite Hp. now rewrite findActive_none.
Qed.

(** The lifecycle where the pair has a single PENDING row.  Take a table
    with unique keys in which the pair (account, phone)
    has at most one PENDING row, and a row of the pair that is PENDING, not
    expired at either clock reading of the call, with attempts below
    maxAttempts.  With a code that matches the stored hash, [verifyOTP]
    returns success and marks the row VERIFIED, and every later [verifyOTP]
    call for the pair answers "No active OTP found" while the row stays
    VERIFIED.  With a code that does not match, the attempt counter goes up
    by one; below maxAttempts the row stays PENDING and the answer carries
    the attempts left; on reaching maxAttempts the row is marked FAILED,
    stays FAILED, and every later call for the pair, whatever its code,
    answers "No active OTP found". *)
Theorem verifyOTP_lifecycle (bun : BunPassword) (env : VerifyEnv)
  (table : Table) (account : jsstring) (request : OTPVerifyRequest)
  (otp : OtpMessage) :
  let phone := normalizePhoneNumber (verify_phone request) in
  wellKeyed table ->
  (pendingCount table account phone <= 1)%nat ->
  In otp table -> accountId otp = account -> recipient otp = phone ->
  status otp = PENDING ->
  t_query env < expiresAt otp -> t_expired env <= expiresAt otp ->
  attempts otp < VerificationStorageService.maxAttempts otp ->
  let out := verifyOTP bun env table account request in
  let left := VerificationStorageService.maxAttempts otp - (attempts otp + 1) in
  let closed (final : OTPStatus) :=
    forall cs, onlyVerify cs ->
      let later := afterCalls bun (snd out) cs in
      (exists row, findById later (id otp) = Some row /\ status row = final)
      /\ forall env' request',
           normalizePhoneNumber (verify_phone request') = phone ->
           verifyOTP bun env' later account request'
           = (Ok (failure phone msg_noActive None), later) in
  (verifyCode bun (toUpperCase (code request)) (codeHash otp) = true ->
   fst out = Ok {| success := true; verified_phone := phone; verified := true;
                   attemptsLeft := None; message := msg_verified;
                   verifiedAt := Some (t_response env) |}
   /\ findById (snd out) (id otp) = Some (setVerified (t_verified env) otp)
   /\ closed VERIFIED)
  /\ (verifyCode bun (toUpperCase (code request)) (codeHash otp) = false ->
      exists row,
        findById (snd out) (id otp) = Some row
        /\ attempts row = attempts otp + 1
        /\ (0 < left ->
            status row = PENDING
            /\ fst out = Ok (failure phone (msg_invalid left) (Some left)))
        /\ (left <= 0 ->
            status row = FAILED
            /\ fst out = Ok (failure phone msg_invalidMax None)
            /\ closed FAILED)).
Proof.
  cbv zeta. intros Hk H1 Hin Ha Hr Hs Hq He Hatt.
  set (phone := normalizePhoneNumber (verify_phone request)) in *.
  assert (Hp : pendingFor account phone otp = true).
  { unfold pendingFor, forPair, isPending. rewrite Ha, Hr, Hs.
    now rewrite !jseqb_refl. }
  pose proof (findActive_only table (t_query env) account phone otp H1 Hin Hp Hq)
    as Hact.
  rewrite verifyOTP_cases by auto. cbv zeta. fold phone. rewrite Hact.
  assert (Hx : isExpired (t_expired env) (expiresAt otp) = false).
  { unfold isExpired. rewrite Z.gtb_ltb. apply Z.ltb_ge. lia. }
  assert (Hm : (attempts otp >=? VerificationStorageService.maxAttempts otp)
               = false).
  { rewrite Z.geb_leb. apply Z.leb_gt. lia. }
  rewrite Hx, Hm.
  assert (Hclosed : forall f final,
    change f -> status (f otp) = final -> final <> PENDING ->
    id (f otp) = id otp ->
    forall cs, onlyVerify cs ->
      (exists row,
         findById (afterCalls bun (updated (id otp) f table) cs) (id otp)
         = Some row /\ status row = final)
      /\ forall env' request',
           normalizePhoneNumber (verify_phone request') = phone ->
           verifyOTP bun env' (afterCalls bun (updated (id otp) f table) cs)
             account request'
           = (Ok (failure phone msg_noActive None),
              afterCalls bun (updated (id otp) f table) cs)).
  { intros f final Hf Hfin Hnp Hid cs Hcs.
    assert (Hnp' : isPending (f otp) = false).
    { unfold isPending. rewrite Hfin. destruct final; simpl; congruence. }
    assert (Hk' : wellKeyed (updated (id otp) f table)).
    { apply updated_wellKeyed; auto. intros o. now apply change_keeps. }
    assert (H0 : pendingCount (updated (id otp) f table) account phone = 0%nat)
      by now apply updated_clears.
    pose proof (updated_In table otp f Hin) as Hin'.
    destruct (closed_after bun (updated (id otp) f table) account phone
                (f otp) cs Hk' H0 Hin' Hnp' Hcs) as [Hfind Hlater].
    split; [|exact Hlater].
    exists (f otp). rewrite Hid in Hfind. split; [exact Hfind|exact Hfin]. }
  split; intros Hv; rewrite Hv; simpl negb; cbv iota.
  - cbn [fst snd]. split; [reflexivity|]. split.
    + rewrite findById_updated by reflexivity.
      now rewrite findById_unique.
    + apply Hclosed; auto; try discriminate. constructor.
  - destruct (VerificationStorageService.maxAttempts otp - (attempts otp + 1)
              <=? 0) eqn:El; [apply Z.leb_le in El|apply Z.leb_gt in El];
      cbn [fst snd].
    + exists (setStatus FAILED (addAttempt otp)).
      rewrite findById_updated by reflexivity.
      rewrite findById_unique by auto.
      split; [reflexivity|]. split; [reflexivity|].
      split; [intros; lia|]. intros _.
      split; [reflexivity|]. split; [reflexivity|].
      apply Hclosed with (f := fun o => setStatus FAILED (addAttempt o));
        auto; try discriminate. constructor.
    + exists (addAttempt otp).
      rewrite findById_updated by reflexivity.
      rewrite findById_unique by auto.
      repeat split; auto; try lia.
Qed.

Lemma verifyOTP_lifecycle_witness :
  let request := {| verify_phone := js "+233 244 123 456"; code := js "4821" |} in
  let out := verifyOTP plainBun sampleClock [sampleRow] (js "acme") request in
  fst out
  = Ok {| success := true; verified_phone := js "+233244123456";
          verified := true; attemptsLeft := None; message := msg_verified;
          verifiedAt := Some 1003 |}
  /\ findById (snd out) 0%N = Some (setVerified 1002 sampleRow).
Proof.
  cbv zeta.
  assert (Hk : wellKeyed [sampleRow]) by reflexivity.
  assert (H1 : (pendingCount [sampleRow] (js "acme")
                  (normalizePhoneNumber (js "+233 244 123 456")) <= 1)%nat)
    by (vm_compute; apply le_n).
  assert (Hin : In sampleRow [sampleRow]) by (now left).
  assert (He : t_expired sampleClock <= expiresAt sampleRow)
    by (vm_compute; discriminate).
  destruct (verifyOTP_lifecycle plainBun sampleClock [sampleRow] (js "acme")
              {| verify_phone := js "+233 244 123 456"; code := js "4821" |}
              sampleRow Hk H1 Hin eq_refl eq_refl eq_refl eq_refl He eq_refl)
    as [H _].
  destruct (H eq_refl) as [H2 [H3 _]]. split; [exact H2|exact H3].
Defined.

(** C10.  [verifyOTP] upper-cases the submitted code before it is checked
    against the hash, so a code and its upper-case form always give the
    same response and the same table; and the generated codes hold no
    lower-case letter. *)
Theorem verifyOTP_case_insensitive (bun : BunPassword) (env : VerifyEnv)
  (table : Table) (account phone c : jsstring) :
  verifyOTP bun env table account {| verify_phone := phone; code := c |}
  = verifyOTP bun env table account
      {| verify_phone := phone; code := toUpperCase c |}
  /\ forall rnd length type,
       toUpperCase (generateCode rnd length type)
       = generateCode rnd length type.
Proof.
  split.
  - unfold verifyOTP. cbn [verify_phone code].
    now rewrite toUpperCase_idem.
  - apply OTPFacts.generateCode_upper.
Qed.

Example verifyOTP_lower_case_code :
  fst (verifyOTP plainBun sampleClock
         [{| id := 0; accountId := js "acme"; recipient := js "+233244123456";
             codeHash := js "AB12"; codeLength := 4; status := PENDING;
             expiresAt := 600000;
             VerificationStorageService.maxAttempts := 3;
             attempts := 0; senderId := js "default";
             senderName := js "default"; createdAt := 0;
             VerificationStorageService.verifiedAt := None |}]
         (js "acme") {| verify_phone := js "+233244123456"; code := js "ab12" |})
  = Ok {| success := true; verified_phone := js "+233244123456";
          verified := true; attemptsLeft := None; message := msg_verified;
          verifiedAt := Some 1003 |}.
Proof. reflexivity. Qed.

(** *** The single-active-OTP invariant *)

Lemma beforeUnderscore_composite (account phone : jsstring) :
  ~ In underscore account ->
  beforeUnderscore (account ++ js "_" ++ phone) = account.
Proof.
  induction account as [|c account IH]; simpl; intros H.
  - reflexivity.
  - destruct (N.eqb c underscore) eqn:E.
    + apply N.eqb_eq in E. exfalso. apply H. now left.
    + f_equal. apply IH. intros Hin. apply H. now right.
Qed.

Lemma pendingCount_app (table : Table) (new : OtpMessage)
  (account phone : jsstring) :
  pendingCount (table ++ [new]) account phone
  = (pendingCount table account phone
     + if pendingFor account phone new then 1 else 0)%nat.
Proof.
  unfold pendingCount. rewrite filter_app, length_app. simpl.
  destruct (pendingFor account phone new); reflexivity.
Qed.

Lemma invalidate_wellKeyed (table : Table) (account phone : jsstring) :
  wellKeyed table ->
  wellKeyed (snd (invalidatePendingOTPs table account phone)).
Proof.
  unfold wellKeyed, invalidatePendingOTPs. simpl. intros H.
  rewrite length_map, map_map, <- H. apply map_ext. intros o.
  destruct (forPair account phone o && isPending o); reflexivity.
Qed.

Lemma invalidate_pendingCount (table : Table) (account phone a p : jsstring) :
  (pendingCount (snd (invalidatePendingOTPs table account phone)) a p
   <= pendingCount table a p)%nat.
Proof.
  unfold pendingCount, invalidatePendingOTPs. simpl.
  apply filter_map_le. intros o _.
  destruct (forPair account phone o && isPending o); auto.
  unfold pendingFor, isPending. simpl. rewrite andb_false_r. discriminate.
Qed.

Lemma invalidate_clears (table : Table) (account phone : jsstring) :
  pendingCount (snd (invalidatePendingOTPs table account phone)) account phone
  = 0%nat.
Proof.
  apply pendingCount_zero. unfold invalidatePendingOTPs. simpl.
  intros o' Ho'. apply in_map_iff in Ho' as [o [<- Ho]].
  fold (pendingFor account phone o).
  destruct (pendingFor account phone o) eqn:E; auto.
  unfold pendingFor, isPending. simpl. apply andb_false_r.
Qed.

Lemma storeOTP_wellKeyed (table : Table) (now : Z) (data : OTPStoreInput) :
  wellKeyed table -> wellKeyed (snd (storeOTP table now data)).
Proof.
  unfold wellKeyed, storeOTP. simpl. intros H.
  rewrite map_app, length_app, H. simpl.
  rewrite Nat.add_1_r, seq_S, map_app. reflexivity.
Qed.

(** The table after the dispatch: as stored, or with the new row FAILED. *)
Lemma dispatch_table {A : Type} (env : RequestEnv) (table : Table) (otpId : N)
  (failure : jsstring) (response : A) :
  snd (dispatch env table otpId failure response) = table
  \/ snd (dispatch env table otpId failure response)
     = updated otpId (setStatus FAILED) table.
Proof.
  unfold dispatch, markAsFailed, update.
  destruct (sendSMS env); auto.
  destruct (findById table otpId); auto.
Qed.

(** The steps [requestOTP] and [resendOTP] share, from the invalidation to
    the dispatch, keep the invariant when the account id holds no
    underscore. *)
Lemma store_and_dispatch_keeps {A : Type} (env : RequestEnv) (table : Table)
  (account phone : jsstring) (now : Z) (data : OTPStoreInput)
  (failure : jsstring) (response : A) :
  wellKeyed table -> singlePending table ->
  ~ In underscore account ->
  in_id data = account ++ js "_" ++ phone -> in_phone data = phone ->
  let stored :=
    storeOTP (snd (invalidatePendingOTPs table account phone)) now data in
  let table' :=
    snd (dispatch env (snd stored) (fst stored) failure response) in
  wellKeyed table' /\ singlePending table'.
Proof.
  intros Hk Hs Hu Hid Hph. cbv zeta.
  set (t1 := snd (invalidatePendingOTPs table account phone)).
  assert (Hk2 : wellKeyed (snd (storeOTP t1 now data))).
  { apply storeOTP_wellKeyed. now apply invalidate_wellKeyed. }
  assert (Hs2 : singlePending (snd (storeOTP t1 now data))).
  { intros a p. unfold storeOTP. cbn [snd]. rewrite pendingCount_app.
    match goal with |- context [pendingFor a p ?new] => set (new_ := new) end.
    destruct (pendingFor a p new_) eqn:E.
    - unfold pendingFor, forPair in E. subst new_. cbn [accountId recipient] in E.
      rewrite Hid, Hph, beforeUnderscore_composite in E by auto.
      apply andb_true_iff in E as [E _]. apply andb_true_iff in E as [Ea Ep].
      apply jseqb_eq in Ea. apply jseqb_eq in Ep. subst a p.
      unfold t1. rewrite invalidate_clears. lia.
    - pose proof (invalidate_pendingCount table account phone a p).
      specialize (Hs a p). fold t1 in H. lia. }
  destruct (dispatch_table env (snd (storeOTP t1 now data))
              (fst (storeOTP t1 now data)) failure response) as [->| ->]; auto.
  split.
  - apply updated_wellKeyed; auto.
  - intros a p.
    pose proof (updated_pendingCount (fst (storeOTP t1 now data))
                  (setStatus FAILED) (snd (storeOTP t1 now data)) a p
                  ltac:(constructor; discriminate)).
    specialize (Hs2 a p). lia.
Qed.

(** A call that stops at the hash has expired the pending rows of the pair
    and stored nothing. *)
Lemma invalidate_keeps (table : Table) (account phone : jsstring) :
  wellKeyed table -> singlePending table ->
  wellKeyed (snd (invalidatePendingOTPs table account phone))
  /\ singlePending (snd (invalidatePendingOTPs table account phone)).
Proof.
  intros Hk Hs. split; [now apply invalidate_wellKeyed|].
  intros a p. specialize (Hs a p).
  pose proof (invalidate_pendingCount table account phone a p). cbn [snd].
  lia.
Qed.

Lemma afterCall_keeps (bun : BunPassword) (table : Table) (c : Call) :
  wellKeyed table -> singlePending table -> plainAccount c ->
  wellKeyed (afterCall bun table c) /\ singlePending (afterCall bun table c).
Proof.
  intros Hk Hs Hc. destruct c as [env a request|env a request|env a request];
    simpl in *.
  - unfold requestOTP.
    destruct (negb (canSend _)); [simpl; auto|].
    destruct (hashCode _ _ _); [now apply store_and_dispatch_keeps|].
    now apply invalidate_keeps.
  - destruct (verifyOTP_keeps bun env table a request Hk) as [Hk' [Hle _]].
    split; auto. intros a' p'. specialize (Hle a' p'). specialize (Hs a' p').
    lia.
  - unfold resendOTP.
    destruct (negb (canSend _)); [simpl; auto|].
    destruct (findLast table a _); [|simpl; auto].
    destruct (hashCode _ _ _); [now apply store_and_dispatch_keeps|].
    now apply invalidate_keeps.
Qed.

Lemma afterCalls_keeps (bun : BunPassword) (cs : list Call) :
  Forall plainAccount cs ->
  forall table, wellKeyed table -> singlePending table ->
  wellKeyed (afterCalls bun table cs)
  /\ singlePending (afterCalls bun table cs).
Proof.
  induction 1 as [|c cs Hc _ IH]; intros table Hk Hs; simpl; auto.
  destruct (afterCall_keeps bun table c Hk Hs Hc). apply IH; auto.
Qed.

(** The single-active-OTP invariant for accounts whose id holds no
    underscore: from the empty table, after any sequence of calls, no pair
    has more than one PENDING row. *)
Lemma plain_accounts_single_pending (bun : BunPassword) (cs : list Call) :
  Forall plainAccount cs -> singlePending (afterCalls bun [] cs).
Proof.
  intros H. apply afterCalls_keeps; auto; [reflexivity|].
  intros a p. apply Nat.le_0_l.
Qed.

(** On such a table the keys are unique as well: the two assumptions of
    the lifecycle theorem hold on every table these calls reach. *)
Lemma plain_accounts_wellKeyed (bun : BunPassword) (cs : list Call) :
  Forall plainAccount cs -> wellKeyed (afterCalls bun [] cs).
Proof.
  intros H. apply afterCalls_keeps; auto; [reflexivity|].
  intros a p. apply Nat.le_0_l.
Qed.

(** C4 fails for an account id with an underscore: [storeOTP] reads the
    account back as the part of [accountId_phone] before the first
    underscore, so the row requested by [acme_1] is stored under [acme],
    next to the PENDING row [acme] already has for the phone. *)
Theorem requestOTP_underscore_account_two_pending (bun : BunPassword) :
  let table :=
    afterCalls bun []
      [Request (sampleEnv 0) (js "acme") (sampleRequest NUMERIC);
       Request (sampleEnv 1000) (js "acme_1") (sampleRequest NUMERIC)] in
  List.map (fun o => (accountId o, status o)) table
  = [(js "acme", PENDING); (js "acme", PENDING)]
  /\ pendingCount table (js "acme") (js "+233244123456") = 2%nat
  /\ ~ singlePending table.
Proof.
  cbv zeta. split; [reflexivity|]. split; [reflexivity|].
  intros H. specialize (H (js "acme") (js "+233244123456")).
  vm_compute in H. lia.
Qed.

(** *** Resend *)

(** What [resendOTP] does take over from the last row: when the cooldown
    has passed and the dispatch succeeds, the new row is PENDING with the
    code length and the maximum of attempts of the last row, and its hash
    is that of a code of that length over the digits. *)
Lemma resendOTP_new_row (bun : BunPassword) (env : RequestEnv) (table : Table)
  (account : jsstring) (request : OTPResendRequest) (last : OtpMessage) :
  let phone := normalizePhoneNumber (resend_phone request) in
  canSend (checkRateLimit table (t_check env) account phone 30) = true ->
  findLast table account phone = Some last ->
  sendSMS env = Ok tt ->
  resendCode env last <> [] ->
  exists new,
    snd (resendOTP bun env table account request)
    = snd (invalidatePendingOTPs table account phone) ++ [new]
    /\ status new = PENDING
    /\ recipient new = phone
    /\ codeLength new = codeLength last
    /\ VerificationStorageService.maxAttempts new
       = VerificationStorageService.maxAttempts last
    /\ codeHash new
       = hash bun (generateCode (random env) (codeLength last) NUMERIC)
           (salt env).
Proof.
  cbv zeta. intros Hc Hl Hs Hne. unfold resendOTP, dispatch.
  rewrite Hc, Hl, Hs. cbn [negb]. unfold hashCode.
  destruct (resendCode env last) as [|c code] eqn:E; [congruence|].
  cbn [snd storeOTP].
  eexists. split; [reflexivity|]. repeat split.
  cbn [codeHash in_codeHash]. now rewrite <- E.
Qed.

Lemma resendCode_digits (env : RequestEnv) (last : OtpMessage) :
  Forall (fun c => isDigit c = true) (resendCode env last).
Proof.
  apply Forall_forall. intros c Hc. unfold resendCode, generateCode in Hc.
  apply OTPFacts.generateFrom_In in Hc.
  simpl in Hc. repeat (destruct Hc as [<-|Hc]; [reflexivity|]). destruct Hc.
Qed.

(** C5 fails on the alphabet: after a request for six letters, the resend
    one minute later keeps the length 6 and the 5 attempts of the last row,
    expires it, and stores the hash of a code of six digits. *)
Theorem resendOTP_numeric_after_alphabetic (bun : BunPassword) :
  let account := js "acme" in
  let table :=
    snd (requestOTP bun (sampleEnv 0) [] account (sampleRequest ALPHABETIC)) in
  let out :=
    resendOTP bun (sampleEnv 60000) table account
      {| resend_phone := js "+233244123456" |} in
  requestCode (sampleEnv 0) (sampleRequest ALPHABETIC) = js "ABDEGI"
  /\ List.map (fun o => (codeHash o, codeLength o,
                         VerificationStorageService.maxAttempts o, status o))
       table
     = [(hash bun (js "ABDEGI") 7, 6, 5, PENDING)]
  /\ List.map (fun o => (codeHash o, codeLength o,
                         VerificationStorageService.maxAttempts o, status o))
       (snd out)
     = [(hash bun (js "ABDEGI") 7, 6, 5, EXPIRED);
        (hash bun (js "001123") 7, 6, 5, PENDING)]
  /\ ~ Forall (fun c => In c (characters ALPHABETIC)) (js "001123").
Proof.
  cbv zeta. split; [reflexivity|]. split; [reflexivity|].
  split; [reflexivity|].
  intros H. inversion H as [|c l Hc _]; subst.
  simpl in Hc. repeat (destruct Hc as [Hc|Hc]; [discriminate|]). destruct Hc.
Qed.

End VerificationFacts.

(** ** Phone numbers: normalisation, validation, country detection *)

Module PhoneFacts.

Import JSFacts.

Lemma digitsAndPlus_fixed (s : jsstring) :
  Forall (fun c => isDigit c = true \/ c = plus_sign) s ->
  digitsAndPlus s = s.
Proof.
  unfold digitsAndPlus. induction 1 as [|c s Hc _ IH]; simpl; auto.
  assert (E : isDigit c || N.eqb c plus_sign = true).
  { destruct Hc as [->| ->]; reflexivity. }
  rewrite E. now f_equal.
Qed.

Lemma digitsAndPlus_idem (s : jsstring) :
  digitsAndPlus (digitsAndPlus s) = digitsAndPlus s.
Proof.
  apply digitsAndPlus_fixed, SMSValidationFacts.digitsAndPlus_chars.
Qed.

Lemma africanCountries_digits (c : jsstring * Z) :
  In c OTPService.africanCountries ->
  Forall (fun d => isDigit d = true) (fst c).
Proof.
  intros H. simpl in H.
  repeat (destruct H as [<-|H]; [repeat constructor|]). destruct H.
Qed.

Lemma startsWith_plus (s : jsstring) :
  startsWith ([plus_sign] ++ s) [plus_sign] = true.
Proof.
  cbn [app startsWith]. rewrite N.eqb_refl. destruct s; reflexivity.
Qed.

(** The normal form is the cleaned input itself, or starts with [+]. *)
Lemma normalize_shape (phone : jsstring) :
  startsWith (OTPService.normalizePhoneNumber phone) [plus_sign] = true
  \/ OTPService.normalizePhoneNumber phone = digitsAndPlus phone.
Proof.
  unfold OTPService.normalizePhoneNumber.
  destruct (startsWith (digitsAndPlus phone) [plus_sign]) eqn:E; auto.
  set (local := if startsWith (digitsAndPlus phone) (js "0") then _ else None).
  destruct local; [left; apply startsWith_plus|].
  destruct (find _ OTPService.africanCountries);
    [left; apply startsWith_plus|].
  rewrite andb_true_r.
  destruct (jslength (digitsAndPlus phone) >=? 9); auto.
  left. apply startsWith_plus.
Qed.

Lemma skipn_In {A : Type} (n : nat) (l : list A) (x : A) :
  In x (skipn n l) -> In x l.
Proof.
  intros H. rewrite <- (firstn_skipn n l). apply in_or_app. now right.
Qed.

Lemma normalize_chars (phone : jsstring) :
  Forall (fun c => isDigit c = true \/ c = plus_sign)
    (OTPService.normalizePhoneNumber phone).
Proof.
  pose proof (SMSValidationFacts.digitsAndPlus_chars phone) as Hc.
  unfold OTPService.normalizePhoneNumber.
  destruct (startsWith (digitsAndPlus phone) [plus_sign]); auto.
  set (local := if startsWith (digitsAndPlus phone) (js "0") then _ else None).
  destruct local as [country|] eqn:El.
  - unfold local in El.
    destruct (startsWith (digitsAndPlus phone) (js "0")); [|discriminate].
    apply find_some in El as [Hin _].
    constructor; [now right|]. apply Forall_app. split.
    + eapply Forall_impl; [|apply africanCountries_digits; eauto].
      simpl. auto.
    + apply Forall_forall. intros c Hin'. rewrite Forall_forall in Hc.
      apply Hc. eapply skipn_In; eauto.
  - clear local El. destruct (find _ OTPService.africanCountries).
    + constructor; auto.
    + destruct (_ && _); auto. constructor; auto.
Qed.

Lemma normalize_cleaned (phone : jsstring) :
  OTPService.normalizePhoneNumber (digitsAndPlus phone)
  = OTPService.normalizePhoneNumber phone.
Proof.
  unfold OTPService.normalizePhoneNumber. now rewrite digitsAndPlus_idem.
Qed.

(** X1.  Normalising twice is normalising once. *)
Theorem normalizePhoneNumber_idempotent (phone : jsstring) :
  OTPService.normalizePhoneNumber (OTPService.normalizePhoneNumber phone)
  = OTPService.normalizePhoneNumber phone.
Proof.
  destruct (normalize_shape phone) as [H|H].
  - set (y := OTPService.normalizePhoneNumber phone) in *.
    unfold OTPService.normalizePhoneNumber.
    rewrite (digitsAndPlus_fixed y) by apply normalize_chars.
    now rewrite H.
  - rewrite H at 1. apply normalize_cleaned.
Qed.

(** X2.  An input that keeps nine characters or more always comes out in
    international form, and the normal form holds digits and [+] only. *)
Theorem normalizePhoneNumber_international (phone : jsstring) :
  Forall (fun c => isDigit c = true \/ c = plus_sign)
    (OTPService.normalizePhoneNumber phone)
  /\ (9 <= jslength (digitsAndPlus phone) ->
      startsWith (OTPService.normalizePhoneNumber phone) [plus_sign] = true).
Proof.
  split; [apply normalize_chars|]. intros H9.
  unfold OTPService.normalizePhoneNumber.
  destruct (startsWith (digitsAndPlus phone) [plus_sign]) eqn:E; auto.
  set (local := if startsWith (digitsAndPlus phone) (js "0") then _ else None).
  destruct local; [apply startsWith_plus|].
  destruct (find _ OTPService.africanCountries); [apply startsWith_plus|].
  assert (G : (jslength (digitsAndPlus phone) >=? 9) = true).
  { rewrite Z.geb_leb. now apply Z.leb_le. }
  rewrite G. apply startsWith_plus.
Qed.

(** X3.  A local number (leading 0) is attributed by its length alone, to
    the first country of the table with that length: ten characters are
    always read as Ghana, eleven as Nigeria, nine as Senegal; the leading 0
    is replaced by the calling code. *)
Theorem normalizePhoneNumber_local (phone : jsstring) :
  let cleaned := digitsAndPlus phone in
  startsWith cleaned (js "0") = true ->
  (jslength cleaned = 10 ->
   OTPService.normalizePhoneNumber phone = js "+233" ++ skipn 1 cleaned)
  /\ (jslength cleaned = 11 ->
      OTPService.normalizePhoneNumber phone = js "+234" ++ skipn 1 cleaned)
  /\ (jslength cleaned = 9 ->
      OTPService.normalizePhoneNumber phone = js "+221" ++ skipn 1 cleaned).
Proof.
  cbv zeta. intros H0. unfold OTPService.normalizePhoneNumber.
  assert (Hp : startsWith (digitsAndPlus phone) [plus_sign] = false).
  { destruct (digitsAndPlus phone) as [|c rest]; [discriminate|].
    cbn [startsWith js List.map list_ascii_of_string] in H0.
    apply andb_true_iff in H0 as [H0 _]. apply N.eqb_eq in H0. subst c.
    reflexivity. }
  rewrite Hp, H0.
  repeat split; intros Hl; rewrite Hl; reflexivity.
Qed.

Lemma normalizePhoneNumber_local_witness :
  OTPService.normalizePhoneNumber (js "024 412 3456") = js "+233244123456".
Proof.
  destruct (normalizePhoneNumber_local (js "024 412 3456") eq_refl) as [H _].
  exact (H eq_refl).
Defined.

(** X4.  Validation leaves a normalised number as it is, and a number that
    kept nine characters or more passes it exactly when its normal form has
    between 10 and 16 characters. *)
Theorem validatePhoneNumber_on_normalized (phone : jsstring) :
  let normalized := OTPService.normalizePhoneNumber phone in
  let r := SMSValidationService.validatePhoneNumber normalized in
  SMSValidationService.formatted r = normalized
  /\ (9 <= jslength (digitsAndPlus phone) ->
      (SMSValidationService.valid r = true <-> 10 <= jslength normalized <= 16)).
Proof.
  cbv zeta.
  assert (Hf : digitsAndPlus (OTPService.normalizePhoneNumber phone)
               = OTPService.normalizePhoneNumber phone)
    by apply digitsAndPlus_fixed, normalize_chars.
  split; [exact Hf|]. intros H9.
  rewrite SMSValidationFacts.valid_iff, SMSValidationFacts.phoneErrors_nil, Hf.
  assert (Hs : startsWith (OTPService.normalizePhoneNumber phone) [plus_sign]
               = true).
  { unfold OTPService.normalizePhoneNumber.
    destruct (startsWith (digitsAndPlus phone) [plus_sign]) eqn:E; auto.
    set (local := if startsWith (digitsAndPlus phone) (js "0")
                  then _ else None).
    destruct local; [apply startsWith_plus|].
    destruct (find _ OTPService.africanCountries); [apply startsWith_plus|].
    assert (G : (jslength (digitsAndPlus phone) >=? 9) = true).
    { rewrite Z.geb_leb. now apply Z.leb_le. }
    rewrite G. apply startsWith_plus. }
  tauto.
Qed.

(** X5.  Validating the formatted form of a result gives the same result:
    same verdict, same errors, same formatted form and same classification. *)
Theorem validatePhoneNumber_idempotent (phone : jsstring) :
  let r := SMSValidationService.validatePhoneNumber phone in
  SMSValidationService.validatePhoneNumber (SMSValidationService.formatted r)
  = {| SMSValidationService.valid := SMSValidationService.valid r;
       SMSValidationService.phone := SMSValidationService.formatted r;
       SMSValidationService.formatted := SMSValidationService.formatted r;
       SMSValidationService.country := SMSValidationService.country r;
       SMSValidationService.countryCode := SMSValidationService.countryCode r;
       SMSValidationService.network := SMSValidationService.network r;
       SMSValidationService.operator := SMSValidationService.operator r;
       SMSValidationService.type := SMSValidationService.type r;
       SMSValidationService.errors := SMSValidationService.errors r |}.
Proof.
  cbv zeta. unfold SMSValidationService.validatePhoneNumber. simpl.
  now rewrite digitsAndPlus_idem.
Qed.

Lemma startsWith_both (s a b : jsstring) :
  startsWith s a = true -> startsWith s b = true ->
  startsWith a b = true \/ startsWith b a = true.
Proof.
  revert a b. induction s as [|c s IH]; intros [|x a] [|y b]; simpl; auto;
    try discriminate.
  intros Ha Hb. apply andb_true_iff in Ha as [Hx Ha].
  apply andb_true_iff in Hb as [Hy Hb].
  apply N.eqb_eq in Hx. apply N.eqb_eq in Hy. subst x y.
  rewrite N.eqb_refl. simpl. auto.
Qed.

Lemma getCountryFromPhone_match (phone : jsstring)
  (kv : jsstring * jsstring) :
  In kv SMSRouterService.countryCodeMap ->
  startsWith (digitsOnly phone) (fst kv) = true ->
  SMSRouterService.getCountryFromPhone phone = snd kv.
Proof.
  assert (Hfree : forallb (fun x =>
            forallb (fun y =>
              implb (startsWith (fst x) (fst y) || startsWith (fst y) (fst x))
                (jseqb (snd x) (snd y)))
              SMSRouterService.countryCodeMap)
            SMSRouterService.countryCodeMap = true) by reflexivity.
  unfold SMSRouterService.getCountryFromPhone. intros Hin Hm.
  destruct (find _ SMSRouterService.countryCodeMap) as [kv0|] eqn:E.
  - apply find_some in E as [Hin0 Hm0].
    rewrite forallb_forall in Hfree. specialize (Hfree kv0 Hin0).
    rewrite forallb_forall in Hfree. specialize (Hfree kv Hin).
    destruct (startsWith_both _ _ _ Hm0 Hm) as [H|H]; rewrite H in Hfree;
      simpl in Hfree; try rewrite orb_true_r in Hfree; simpl in Hfree;
      now apply jseqb_eq.
  - apply (find_none _ _ E) in Hin. congruence.
Qed.

(** X6.  No calling code of [countryCodeMap] is the beginning of another,
    so a number matches one entry at most and [getCountryFromPhone] returns
    the country of whichever entry matches, in any order of visit; without
    a match it returns GH. *)
Theorem getCountryFromPhone_only_match (phone : jsstring) :
  (forall kv, In kv SMSRouterService.countryCodeMap ->
     startsWith (digitsOnly phone) (fst kv) = true ->
     SMSRouterService.getCountryFromPhone phone = snd kv)
  /\ ((forall kv, In kv SMSRouterService.countryCodeMap ->
         startsWith (digitsOnly phone) (fst kv) = false) ->
      SMSRouterService.getCountryFromPhone phone = js "GH").
Proof.
  split; [intros kv; apply getCountryFromPhone_match|].
  intros Hnone. unfold SMSRouterService.getCountryFromPhone.
  destruct (find _ SMSRouterService.countryCodeMap) as [kv0|] eqn:E; auto.
  apply find_some in E as [Hin0 Hm0]. rewrite (Hnone kv0 Hin0) in Hm0.
  discriminate.
Qed.

Lemma getCountryFromPhone_only_match_witness :
  SMSRouterService.getCountryFromPhone (js "+27 82 123 4567") = js "ZA".
Proof.
  destruct (getCountryFromPhone_only_match (js "+27 82 123 4567")) as [H _].
  apply (H (js "27", js "ZA")); [right; left|]; reflexivity.
Defined.

Lemma ghana_country (prefix : jsstring) (i : GeoMiddleware.NetworkInfo) :
  GeoMiddleware.ghana prefix = Some i ->
  GeoMiddleware.country i = Some (js "GH").
Proof.
  unfold GeoMiddleware.ghana.
  repeat (destruct (includes _ prefix); [intros H; injection H as <-;
                                         reflexivity|]).
  discriminate.
Qed.

Lemma nigeria_country (prefix : jsstring) (i : GeoMiddleware.NetworkInfo) :
  GeoMiddleware.nigeria prefix = Some i ->
  GeoMiddleware.country i = Some (js "NG").
Proof.
  unfold GeoMiddleware.nigeria.
  repeat (destruct (includes _ prefix); [intros H; injection H as <-;
                                         reflexivity|]).
  discriminate.
Qed.

Lemma kenya_country (prefix : jsstring) (i : GeoMiddleware.NetworkInfo) :
  GeoMiddleware.kenya prefix = Some i ->
  GeoMiddleware.country i = Some (js "KE").
Proof.
  unfold GeoMiddleware.kenya.
  repeat (destruct (includes _ prefix); [intros H; injection H as <-;
                                         reflexivity|]).
  discriminate.
Qed.

Lemma southAfrica_country (prefix : jsstring) (i : GeoMiddleware.NetworkInfo) :
  GeoMiddleware.southAfrica prefix = Some i ->
  GeoMiddleware.country i = Some (js "ZA").
Proof.
  unfold GeoMiddleware.southAfrica.
  repeat (destruct (includes _ prefix); [intros H; injection H as <-;
                                         reflexivity|]).
  discriminate.
Qed.

(** A country [detectNetwork] reports comes with its calling code at the
    start of the digits. *)
Lemma detectNetwork_code (phone c : jsstring) :
  GeoMiddleware.country (GeoMiddleware.detectNetwork phone) = Some c ->
  exists code,
    In (code, c) SMSRouterService.countryCodeMap
    /\ startsWith (digitsOnly phone) code = true.
Proof.
  unfold GeoMiddleware.detectNetwork, GeoMiddleware.orNext, GeoMiddleware.block.
  destruct (startsWith (digitsOnly phone) (js "233")) eqn:E1;
    [destruct (GeoMiddleware.ghana _) as [i|] eqn:G1|].
  1:{ apply ghana_country in G1. rewrite G1. intros H. injection H as <-.
      exists (js "233"). split; [|exact E1]. vm_compute. tauto. }
  all: destruct (startsWith (digitsOnly phone) (js "234")) eqn:E2;
    [destruct (GeoMiddleware.nigeria _) as [i2|] eqn:G2|].
  all: try (apply nigeria_country in G2; rewrite G2; intros H;
            injection H as <-; exists (js "234"); split; [|exact E2];
            vm_compute; tauto).
  all: destruct (startsWith (digitsOnly phone) (js "254")) eqn:E3;
    [destruct (GeoMiddleware.kenya _) as [i3|] eqn:G3|].
  all: try (apply kenya_country in G3; rewrite G3; intros H;
            injection H as <-; exists (js "254"); split; [|exact E3];
            vm_compute; tauto).
  all: destruct (startsWith (digitsOnly phone) (js "27")) eqn:E4;
    [destruct (GeoMiddleware.southAfrica _) as [i4|] eqn:G4|].
  all: try (apply southAfrica_country in G4; rewrite G4; intros H;
            injection H as <-; exists (js "27"); split; [|exact E4];
            vm_compute; tauto).
  all: discriminate.
Qed.

Lemma digitsOnly_digitsAndPlus (s : jsstring) :
  digitsOnly (digitsAndPlus s) = digitsOnly s.
Proof.
  unfold digitsOnly, digitsAndPlus.
  induction s as [|c s IH]; simpl; auto.
  destruct (isDigit c) eqn:E; simpl.
  - rewrite E. now f_equal.
  - destruct (N.eqb c plus_sign) eqn:Ep; simpl; auto.
    apply N.eqb_eq in Ep. subst c. simpl. exact IH.
Qed.

(** X7.  Whenever validation reports a country for a number, routing the
    formatted number picks the same country. *)
Theorem validation_and_routing_agree_on_country (phone c : jsstring) :
  let r := SMSValidationService.validatePhoneNumber phone in
  SMSValidationService.country r = Some c ->
  SMSRouterService.getCountryFromPhone (SMSValidationService.formatted r) = c.
Proof.
  cbv zeta. unfold SMSValidationService.validatePhoneNumber. simpl.
  intros H.
  assert (Hc : GeoMiddleware.country
                 (GeoMiddleware.detectNetwork (digitsAndPlus phone)) = Some c).
  { destruct (GeoMiddleware.country _) as [[|x l]|]; simpl in H;
      congruence. }
  apply detectNetwork_code in Hc as [code [Hin Hm]].
  apply (getCountryFromPhone_match _ (code, c)); auto.
Qed.

Lemma validation_and_routing_agree_on_country_witness :
  SMSRouterService.getCountryFromPhone
    (SMSValidationService.formatted
       (SMSValidationService.validatePhoneNumber (js "+234 803 123 4567")))
  = js "NG".
Proof.
  apply (validation_and_routing_agree_on_country (js "+234 803 123 4567")
           (js "NG")).
  reflexivity.
Defined.

End PhoneFacts.

(** ** Message and sender-id validation *)

Module ValidationRestFacts.

Import SMSValidationService SMSValidationRest JSFacts.

Lemma trimStart_nil (s : jsstring) :
  trimStart s = [] <-> forallb isWhiteSpace s = true.
Proof.
  induction s as [|c s IH]; simpl; [tauto|].
  destruct (isWhiteSpace c); simpl; [exact IH|].
  split; discriminate.
Qed.

(** [trim] leaves nothing exactly when the string is white space only. *)
Lemma trim_nil (s : jsstring) :
  trim s = [] <-> forallb isWhiteSpace s = true.
Proof.
  unfold trim. split.
  - intros H. apply trimStart_nil.
    destruct (trimStart s) as [|c rest] eqn:E; auto.
    exfalso.
    assert (Hc : isWhiteSpace c = false).
    { clear H. induction s as [|d s IH]; simpl in E; [discriminate|].
      destruct (isWhiteSpace d) eqn:Ed; auto. injection E as -> _. auto. }
    apply (f_equal (@rev N)) in H. rewrite rev_involutive in H. simpl in H.
    apply trimStart_nil in H. rewrite forallb_forall in H.
    rewrite (H c) in Hc; [discriminate|].
    apply in_or_app. right. now left.
  - intros H. apply trimStart_nil in H. now rewrite H.
Qed.

Lemma forallb_false_exists {A : Type} (f : A -> bool) (l : list A) :
  forallb f l = false <-> exists x, In x l /\ f x = false.
Proof.
  induction l as [|a l IH]; simpl.
  - split; [discriminate|intros [x [[] _]]].
  - rewrite andb_false_iff, IH. split.
    + intros [H|[x [Hx Hf]]]; eauto.
    + intros [x [[<-|Hx] Hf]]; eauto.
Qed.

(** X8.  A message is valid exactly when it holds a character that is not
    white space and has at most 1600 code units; a valid message always
    costs between 1 and 24 units, and at most 11 in GSM-7. *)
Theorem validateMessage_spec (message : jsstring) :
  (message_valid (validateMessage message) = true <->
   (exists c, In c message /\ isWhiteSpace c = false)
   /\ jslength message <= 1600)
  /\ (message_valid (validateMessage message) = true ->
      let u := calculateMessageUnits message in
      1 <= units u <= 24 /\ (encoding u = GSM7 -> units u <= 11)).
Proof.
  assert (Hv : message_valid (validateMessage message) = true <->
               (exists c, In c message /\ isWhiteSpace c = false)
               /\ jslength message <= 1600).
  { unfold validateMessage. cbn [message_valid].
    assert (Ht : (jslength (trim message) =? 0) = forallb isWhiteSpace message).
    { destruct (forallb isWhiteSpace message) eqn:E.
      - apply trim_nil in E. now rewrite E.
      - apply Z.eqb_neq. intros H. unfold jslength in H.
        destruct (trim message) eqn:Et; [|discriminate].
        apply trim_nil in Et. congruence. }
    rewrite Ht.
    destruct (forallb isWhiteSpace message) eqn:E.
    - rewrite orb_true_r. simpl. split; [discriminate|].
      intros [[c [Hc Hw]] _]. rewrite forallb_forall in E.
      rewrite (E c Hc) in Hw. discriminate.
    - rewrite orb_false_r.
      assert (Hne : (jslength message =? 0) = false).
      { apply Z.eqb_neq. intros H. unfold jslength in H.
        destruct message; [discriminate|discriminate]. }
      rewrite Hne. simpl.
      apply forallb_false_exists in E.
      destruct (jslength message >? 1600) eqn:El; simpl.
      + split; [discriminate|]. intros [_ H]. apply Z.gtb_lt in El. lia.
      + split; auto. intros _. split; auto.
        rewrite Z.gtb_ltb in El. apply Z.ltb_ge in El. lia. }
  split; [exact Hv|]. intros H. apply Hv in H as [[c [Hc _]] Hl]. cbv zeta.
  assert (Hpos : 0 < jslength message).
  { unfold jslength. destruct message; [destruct Hc|simpl; lia]. }
  unfold calculateMessageUnits.
  assert (E0 : (jslength message =? 0) = false) by (apply Z.eqb_neq; lia).
  rewrite E0.
  destruct (negb (gsm7chars_test message)); cbv iota.
  - destruct (jslength message <=? 70); simpl; [split; [lia|discriminate]|].
    pose proof (Math_ceil_div_bounds (jslength message) 67 ltac:(lia)).
    split; [lia|discriminate].
  - destruct (jslength message <=? 160); simpl; [split; [lia|intros; lia]|].
    pose proof (Math_ceil_div_bounds (jslength message) 153 ltac:(lia)).
    split; [lia|intros; lia].
Qed.

Lemma forallb_Forall_bool {A : Type} (f : A -> bool) (l : list A) :
  forallb f l = true <-> Forall (fun x => f x = true) l.
Proof. rewrite forallb_forall, Forall_forall. tauto. Qed.

(** X9.  A sender id is valid exactly when it has 3 to 11 characters, all
    of them Basic Latin letters or digits, at least one a letter. *)
Theorem validateSenderId_spec (senderId : jsstring) :
  sender_valid (validateSenderId senderId) = true <->
  3 <= jslength senderId <= 11
  /\ Forall (fun c => isLetter c = true \/ isDigit c = true) senderId
  /\ exists c, In c senderId /\ isLetter c = true.
Proof.
  unfold validateSenderId. cbn [sender_valid].
  unfold alphanumeric_test, digits_test.
  destruct (jslength senderId <? 3) eqn:E3;
    [apply Z.ltb_lt in E3|apply Z.ltb_ge in E3]; simpl.
  { split; [discriminate|]. intros [H _]. lia. }
  destruct (jslength senderId >? 11) eqn:E11; simpl.
  { apply Z.gtb_lt in E11. split; [discriminate|]. intros [H _]. lia. }
  rewrite Z.gtb_ltb in E11. apply Z.ltb_ge in E11.
  assert (E0 : (jslength senderId =? 0) = false) by (apply Z.eqb_neq; lia).
  rewrite E0. simpl.
  destruct (forallb (fun c => isLetter c || isDigit c) senderId) eqn:Ea; simpl.
  - assert (Hall : Forall (fun c => isLetter c = true \/ isDigit c = true)
                     senderId).
    { apply forallb_Forall_bool in Ea. eapply Forall_impl; [|exact Ea].
      simpl. intros c H. now apply orb_true_iff in H. }
    destruct (forallb isDigit senderId) eqn:Ed; simpl.
    + split; [discriminate|]. intros [_ [_ [c [Hc Hl]]]].
      rewrite forallb_forall in Ed. specialize (Ed c Hc).
      unfold isLetter, isDigit in *.
      apply andb_true_iff in Ed as [H1 H2].
      apply N.leb_le in H1. apply N.leb_le in H2.
      apply orb_true_iff in Hl as [Hl|Hl]; apply andb_true_iff in Hl as [H3 H4];
        apply N.leb_le in H3; apply N.leb_le in H4; lia.
    + split; auto. intros _. split; [lia|]. split; auto.
      apply forallb_false_exists in Ed as [c [Hc Hd]]. exists c. split; auto.
      rewrite Forall_forall in Hall. destruct (Hall c Hc); congruence.
  - split; [destruct (forallb isDigit senderId); discriminate|].
    intros [_ [Hall _]].
    assert (forallb (fun c => isLetter c || isDigit c) senderId = true).
    { apply forallb_forall. intros c Hc. rewrite Forall_forall in Hall.
      apply orb_true_iff. auto. }
    congruence.
Qed.

(** X10.  [validatePhoneNumbers] sorts every input into exactly one of its
    two lists, in the order given: the valid list holds the results of the
    inputs that validate, the invalid list those of the others. *)
Theorem validatePhoneNumbers_partition (phones : list jsstring) :
  let r := validatePhoneNumbers phones in
  validNumbers r
  = List.map validatePhoneNumber
      (filter (fun p => valid (validatePhoneNumber p)) phones)
  /\ invalidNumbers r
     = List.map validatePhoneNumber
         (filter (fun p => negb (valid (validatePhoneNumber p))) phones)
  /\ (List.length (validNumbers r) + List.length (invalidNumbers r)
      = List.length phones)%nat.
Proof.
  cbv zeta. unfold validatePhoneNumbers. cbn [validNumbers invalidNumbers].
  assert (Hcomm : forall f : SMSValidationResult -> bool,
            filter f (List.map validatePhoneNumber phones)
            = List.map validatePhoneNumber
                (filter (fun p => f (validatePhoneNumber p)) phones)).
  { intros f. induction phones as [|p phones IH]; simpl; auto.
    destruct (f (validatePhoneNumber p)); simpl; now rewrite IH. }
  rewrite !Hcomm. split; [reflexivity|]. split; [reflexivity|].
  rewrite !length_map.
  apply (SMSServiceFacts.filter_split_length
           (fun p => valid (validatePhoneNumber p))).
Qed.

End ValidationRestFacts.

(** ** Pin types, cooldown arithmetic, metadata *)

Module OTPRestFacts.

Import OTPService OTPServiceRest VerificationStorageService JSFacts.

Lemma characters_class (type : PinType) :
  Forall (fun c =>
            match type with
            | NUMERIC => isDigit c
            | ALPHANUMERIC =>
                SMSValidationRest.isLetter c || isDigit c
            | ALPHABETIC => SMSValidationRest.isLetter c
            end = true) (characters type).
Proof. destruct type; repeat constructor. Qed.

(** X11.  A generated code of one character or more passes
    [validatePinType] for the pin type it was generated for, and a numeric
    code passes for ALPHANUMERIC as well. *)
Theorem generateCode_validates (rnd : RandomSources) (length : Z)
  (type : PinType) :
  (forall k, (0 <= Math_random rnd k)%Q /\ (Math_random rnd k < 1)%Q) ->
  1 <= length ->
  validatePinType (generateCode rnd length type) type = true
  /\ validatePinType (generateCode rnd length NUMERIC) ALPHANUMERIC = true.
Proof.
  intros Hr Hl.
  assert (G : forall t,
    jslength (generateCode rnd length t) = length
    /\ Forall (fun c => In c (characters t)) (generateCode rnd length t)).
  { intros t. apply OTPFacts.generateCode_shape; auto. lia. }
  assert (Hne : forall t, negb (jslength (generateCode rnd length t) =? 0)
                          = true).
  { intros t. destruct (G t) as [-> _]. apply negb_true_iff.
    apply Z.eqb_neq. lia. }
  split.
  - destruct (G type) as [_ Hin]. pose proof (characters_class type) as Hc.
    rewrite Forall_forall in Hin, Hc.
    destruct type; unfold validatePinType, SMSValidationRest.digits_test,
      SMSValidationRest.alphanumeric_test; rewrite Hne; simpl;
      apply forallb_forall; intros c Hc'; apply Hc, Hin, Hc'.
  - destruct (G NUMERIC) as [_ Hin]. pose proof (characters_class NUMERIC) as Hc.
    rewrite Forall_forall in Hin, Hc.
    unfold validatePinType, SMSValidationRest.alphanumeric_test.
    rewrite Hne. simpl. apply forallb_forall. intros c Hc'.
    rewrite (Hc c (Hin c Hc')). apply orb_true_r.
Qed.

Lemma generateCode_validates_witness :
  validatePinType (generateCode OTPMoreSamples.halves 6 ALPHABETIC) ALPHABETIC
  = true.
Proof.
  apply (generateCode_validates OTPMoreSamples.halves 6 ALPHABETIC).
  - intros k. split; discriminate || reflexivity.
  - discriminate.
Defined.

Lemma ceil_seconds_positive (ms : Z) :
  0 < Math_ceil_div ms 1000 <-> 0 < ms.
Proof.
  pose proof (Math_ceil_div_bounds ms 1000 ltac:(lia)). lia.
Qed.

(** X12.  The two cooldown helpers and the rate-limit check of the store
    tell the same story: a number is in cooldown exactly when the remaining
    time is positive; the remaining time never exceeds the cooldown once
    the clock has reached the last send; and [checkRateLimit] refuses
    exactly when the last row of the pair is in cooldown, reporting that
    remaining time and the end of the cooldown. *)
Theorem cooldown_consistent (table : Table) (now : Z)
  (account phone : jsstring) (cooldownSeconds : Z) :
  (forall lastSentAt,
     (isInCooldown now lastSentAt cooldownSeconds = true <->
      0 < getRemainingCooldown now lastSentAt cooldownSeconds)
     /\ (lastSentAt <= now ->
         getRemainingCooldown now lastSentAt cooldownSeconds
         <= Z.max 0 cooldownSeconds))
  /\ match findLast table account phone with
     | None =>
         canSend (checkRateLimit table now account phone cooldownSeconds)
         = true
     | Some lastOTP =>
         let info := checkRateLimit table now account phone cooldownSeconds in
         canSend info = negb (isInCooldown now (createdAt lastOTP) cooldownSeconds)
         /\ (canSend info = false ->
             remainingSeconds info
             = Some (getRemainingCooldown now (createdAt lastOTP)
                       cooldownSeconds)
             /\ cooldownEndsAt info
                = Some (generateCooldownTimestamp (createdAt lastOTP)
                          cooldownSeconds))
     end.
Proof.
  split.
  - intros lastSentAt. unfold isInCooldown, getRemainingCooldown. cbv zeta.
    pose proof (Math_ceil_div_bounds
                  (cooldownSeconds * 1000 - (now - lastSentAt)) 1000
                  ltac:(lia)) as Hb.
    rewrite Z.ltb_lt. split; [lia|]. intros Hl. lia.
  - unfold checkRateLimit.
    destruct (findLast table account phone) as [lastOTP|]; [|reflexivity].
    cbv zeta. unfold isInCooldown, getRemainingCooldown,
      generateCooldownTimestamp. cbv zeta.
    destruct (now - createdAt lastOTP <? cooldownSeconds * 1000) eqn:E;
      cbn [canSend remainingSeconds cooldownEndsAt negb].
    + split; [reflexivity|]. intros _. split; [|reflexivity].
      apply Z.ltb_lt in E.
      pose proof (Math_ceil_div_bounds
                    (cooldownSeconds * 1000 - (now - createdAt lastOTP)) 1000
                    ltac:(lia)) as Hb.
      f_equal. lia.
    + split; [reflexivity|discriminate].
Qed.

Lemma startsWith_In (s sub : jsstring) (c : N) :
  startsWith s sub = true -> In c sub -> In c s.
Proof.
  revert sub. induction s as [|x s IH]; intros [|y sub]; simpl;
    try discriminate; try tauto.
  intros Hs [<-|Hc]; apply andb_true_iff in Hs as [Hy Hr].
  - apply N.eqb_eq in Hy. now left.
  - right. eauto.
Qed.

Lemma stringIncludes_In (s sub : jsstring) (c : N) :
  stringIncludes s sub = true -> In c sub -> In c s.
Proof.
  induction s as [|d s IH]; intros H Hc.
  - cbn [stringIncludes] in H. rewrite orb_false_r in H.
    eapply startsWith_In; eauto.
  - cbn [stringIncludes] in H. apply orb_true_iff in H as [H|H].
    + eapply startsWith_In; eauto.
    + right. auto.
Qed.

Lemma toLowerCase_no_capital (key : jsstring) (c : N) :
  In c (toLowerCase key) -> ~ ((65 <= c)%N /\ (c <= 90)%N).
Proof.
  unfold toLowerCase. intros H. apply in_map_iff in H as [d [<- _]].
  unfold lowerUnit.
  destruct ((65 <=? d)%N && (d <=? 90)%N) eqn:E.
  - apply andb_true_iff in E as [H1 H2].
    apply N.leb_le in H1. apply N.leb_le in H2. lia.
  - apply andb_false_iff in E as [E|E]; apply N.leb_gt in E; lia.
Qed.

(** The fields written with a capital letter never match a lower-cased key. *)
Lemma isSensitive_three (key : jsstring) :
  isSensitive key
  = existsb (fun field => stringIncludes (toLowerCase key) field)
      (List.map js ["password"; "secret"; "token"]%string).
Proof.
  unfold isSensitive, sensitiveFields.
  cbn [List.map existsb].
  assert (H1 : stringIncludes (toLowerCase key) (js "apiKey") = false).
  { destruct (stringIncludes (toLowerCase key) (js "apiKey")) eqn:E; auto.
    exfalso. apply (toLowerCase_no_capital key 75%N).
    - eapply stringIncludes_In; eauto. vm_compute. tauto.
    - lia. }
  assert (H2 : stringIncludes (toLowerCase key) (js "privateKey") = false).
  { destruct (stringIncludes (toLowerCase key) (js "privateKey")) eqn:E; auto.
    exfalso. apply (toLowerCase_no_capital key 75%N).
    - eapply stringIncludes_In; eauto. vm_compute. tauto.
    - lia. }
  rewrite H1, H2. now rewrite !orb_false_r.
Qed.

(** X13.  On keys written in Basic Latin, [sanitizeMetadata] drops exactly
    the entries whose lower-cased key holds "password", "secret" or
    "token" and the entry named [__proto__], for which the assignment adds
    no own property; it keeps all others in their order, and returns
    [undefined] when none is left; the fields "apiKey" and "privateKey" of
    its list never match, so that an entry named [apiKey] is kept. *)
Theorem sanitizeMetadata_spec (V : Type) (entries : list (jsstring * V)) :
  Forall (fun kv => Forall (fun c => (c < 128)%N) (fst kv)) entries ->
  let flagged (kv : jsstring * V) :=
    existsb (fun field => stringIncludes (toLowerCase (fst kv)) field)
      (List.map js ["password"; "secret"; "token"]%string) in
  let kept (kv : jsstring * V) :=
    negb (flagged kv) && negb (jseqb (fst kv) (js "__proto__")) in
  sanitizeMetadata (Some entries)
  = match filter kept entries with
    | [] => None
    | sanitized => Some sanitized
    end
  /\ forall v : V,
       isSensitive (js "apiKey") = false
       /\ sanitizeMetadata (Some [(js "apiKey", v)]) = Some [(js "apiKey", v)]
       /\ sanitizeMetadata (Some [(js "__proto__", v)]) = None.
Proof.
  intros _. cbv zeta. split.
  - unfold sanitizeMetadata, assigns.
    rewrite (filter_ext
               (fun kv => negb (isSensitive (fst kv))
                          && negb (jseqb (fst kv) (js "__proto__")))
               (fun kv : jsstring * V =>
                  negb (existsb
                          (fun field =>
                             stringIncludes (toLowerCase (fst kv)) field)
                          (List.map js ["password"; "secret"; "token"]%string))
                  && negb (jseqb (fst kv) (js "__proto__")))).
    + destruct (filter _ entries); reflexivity.
    + intros kv. now rewrite isSensitive_three.
  - intros v. repeat split; reflexivity.
Qed.

Lemma sanitizeMetadata_spec_witness :
  sanitizeMetadata (Some [(js "userId", 1); (js "authToken", 2);
                          (js "__proto__", 4); (js "privateKey", 3)])
  = Some [(js "userId", 1); (js "privateKey", 3)].
Proof.
  destruct (sanitizeMetadata_spec Z
              [(js "userId", 1); (js "authToken", 2); (js "__proto__", 4);
               (js "privateKey", 3)])
    as [H _].
  - repeat constructor.
  - exact H.
Defined.

End OTPRestFacts.

(** ** The OTP calls: refusals, failed dispatch, round trip *)

Module VerificationMoreFacts.

Import OTPService VerificationStorageService VerificationService JSFacts
  OTPNotions OTPSamples VerificationFacts.

(** X14.  Calls that are refused change nothing.  While the last row of
    the pair is younger than 30 seconds, [requestOTP] and [resendOTP] throw
    "Please wait N seconds before requesting another OTP" with N at least
    1 (and at most 30 once the clock has reached the creation of that row)
    and leave the table as it is; [resendOTP] for a pair without any row
    throws "No previous OTP found" and leaves the table as it is. *)
Theorem refused_calls_change_nothing (bun : BunPassword) (env : RequestEnv)
  (table : Table) (account raw : jsstring) :
  let phone := normalizePhoneNumber raw in
  match findLast table account phone with
  | Some last =>
      t_check env - createdAt last < 30 * 1000 ->
      let n := Math_ceil_div (30 * 1000 - (t_check env - createdAt last)) 1000 in
      let wait :=
        js "Please wait " ++ decimal n
        ++ js " seconds before requesting another OTP" in
      1 <= n /\ (createdAt last <= t_check env -> n <= 30)
      /\ (forall request, VerificationService.phone request = raw ->
            requestOTP bun env table account request = (Throw wait, table))
      /\ resendOTP bun env table account {| resend_phone := raw |}
         = (Throw wait, table)
  | None =>
      resendOTP bun env table account {| resend_phone := raw |}
      = (Throw (js "No previous OTP found. Please request a new one."), table)
  end.
Proof.
  cbv zeta.
  destruct (findLast table account (normalizePhoneNumber raw)) as [last|] eqn:E.
  - intros Hl.
    pose proof (Math_ceil_div_bounds
                  (30 * 1000 - (t_check env - createdAt last)) 1000
                  ltac:(lia)) as Hb.
    split; [lia|]. split; [intros; lia|].
    assert (Hlim : checkRateLimit table (t_check env) account
                     (normalizePhoneNumber raw) 30
                   = {| canSend := false;
                        cooldownEndsAt := Some (createdAt last + 30 * 1000);
                        remainingSeconds :=
                          Some (Math_ceil_div
                                  (30 * 1000 - (t_check env - createdAt last))
                                  1000);
                        reason :=
                          Some (js "Please wait "
                                ++ decimal
                                     (Math_ceil_div
                                        (30 * 1000
                                         - (t_check env - createdAt last)) 1000)
                                ++ js " seconds before requesting another OTP")
                     |}).
    { unfold checkRateLimit. rewrite E. cbv zeta.
      apply Z.ltb_lt in Hl. now rewrite Hl. }
    split.
    + intros request Hr. unfold requestOTP. rewrite Hr, Hlim. reflexivity.
    + unfold resendOTP. cbn [resend_phone]. rewrite Hlim. reflexivity.
  - unfold resendOTP, checkRateLimit. cbn [resend_phone]. rewrite E.
    reflexivity.
Qed.

Lemma refused_calls_change_nothing_witness :
  snd (requestOTP plainBun (sampleEnv 1000) [sampleRow] (js "acme")
         (sampleRequest NUMERIC))
  = [sampleRow].
Proof.
  pose proof (refused_calls_change_nothing plainBun (sampleEnv 1000)
                [sampleRow] (js "acme") (js "+233244123456")) as H.
  cbv zeta in H.
  assert (E : findLast [sampleRow] (js "acme")
                (normalizePhoneNumber (js "+233244123456"))
              = Some sampleRow) by reflexivity.
  rewrite E in H. destruct H as [_ [_ [Hreq _]]]; [reflexivity|].
  rewrite (Hreq (sampleRequest NUMERIC) eq_refl). reflexivity.
Defined.

(** The table after the three steps invalidate, store, dispatch, on a
    table with generated keys. *)
Lemma updated_fresh (table : Table) (new : OtpMessage)
  (f : OtpMessage -> OtpMessage) :
  wellKeyed table -> id new = N.of_nat (List.length table) ->
  updated (id new) f (table ++ [new]) = table ++ [f new].
Proof.
  intros Hk Hid. unfold updated. rewrite map_app. simpl.
  rewrite N.eqb_refl. f_equal.
  rewrite <- (map_id table) at 2. apply map_ext_in. intros o Ho.
  destruct (N.eqb (id o) (id new)) eqn:E; auto.
  apply N.eqb_eq in E. exfalso.
  assert (Hin : In (id o) (List.map id table)) by now apply in_map.
  rewrite Hk, E, Hid in Hin. apply in_map_iff in Hin as [i [Hi Hs]].
  apply Nnat.Nat2N.inj in Hi. apply in_seq in Hs. lia.
Qed.

(** X15.  When the SMS dispatch fails, [requestOTP] throws "Failed to send
    OTP. Please try again.", the row it stored is FAILED, and the pair is
    left without any PENDING row.  A request whose generated code is empty
    (a pin length below 1) never reaches the dispatch: the hash throws
    "password must not be empty" after the PENDING rows of the pair were
    expired, and no row is stored. *)
Theorem requestOTP_failed_dispatch (bun : BunPassword) (env : RequestEnv)
  (table : Table) (account : jsstring) (request : OTPRequest) (e : jsstring) :
  let phone := normalizePhoneNumber (VerificationService.phone request) in
  wellKeyed table ->
  canSend (checkRateLimit table (t_check env) account phone 30) = true ->
  sendSMS env = Throw e ->
  let out := requestOTP bun env table account request in
  let expired := snd (invalidatePendingOTPs table account phone) in
  pendingCount (snd out) account phone = 0%nat
  /\ (requestCode env request <> [] ->
      fst out = Throw (js "Failed to send OTP. Please try again.")
      /\ exists new,
           snd out = expired ++ [new]
           /\ status new = FAILED /\ recipient new = phone
           /\ codeHash new = hash bun (requestCode env request) (salt env))
  /\ (requestCode env request = [] ->
      out = (Throw (js "password must not be empty"), expired)).
Proof.
  cbv zeta. intros Hk Hc Hs. unfold requestOTP. rewrite Hc. cbn [negb].
  set (t1 := snd (invalidatePendingOTPs table account _)).
  assert (Hk1 : wellKeyed t1) by now apply invalidate_wellKeyed.
  unfold hashCode.
  destruct (requestCode env request) as [|c code] eqn:Ecode.
  { split; [apply invalidate_clears|]. split; [congruence|reflexivity]. }
  set (data := {| in_id := _ |}).
  unfold dispatch. rewrite Hs. unfold markAsFailed, update, storeOTP.
  cbn [fst snd].
  set (new := {| id := N.of_nat (List.length t1) |}).
  assert (Hf : findById (t1 ++ [new]) (id new) = Some new).
  { apply findById_unique.
    - apply (storeOTP_wellKeyed t1 (t_created env) data Hk1).
    - apply in_or_app. right. now left. }
  rewrite Hf. cbn [fst snd].
  change (List.map (fun o => if N.eqb (id o) (id new)
                             then setStatus FAILED o else o) (t1 ++ [new]))
    with (updated (id new) (setStatus FAILED) (t1 ++ [new])).
  rewrite updated_fresh by auto.
  split.
  - rewrite pendingCount_app. unfold t1. rewrite invalidate_clears.
    unfold pendingFor, isPending. simpl. now rewrite andb_false_r.
  - split; [|discriminate]. intros _. split; [reflexivity|].
    exists (setStatus FAILED new). repeat split.
Qed.

Lemma requestOTP_failed_dispatch_witness :
  fst (requestOTP plainBun
         {| t_check := 0; random := sixteenths 0; salt := 7; t_expiry := 0;
            senders := []; t_created := 0; sendSMS := Throw (js "no provider");
            t_return := 0 |}
         [] (js "acme") (sampleRequest NUMERIC))
  = Throw (js "Failed to send OTP. Please try again.").
Proof.
  destruct (requestOTP_failed_dispatch plainBun
              {| t_check := 0; random := sixteenths 0; salt := 7;
                 t_expiry := 0; senders := []; t_created := 0;
                 sendSMS := Throw (js "no provider"); t_return := 0 |}
              [] (js "acme") (sampleRequest NUMERIC) (js "no provider")
              eq_refl eq_refl eq_refl) as [_ [H _]].
  apply H. discriminate.
Defined.

(** *** What any call does to the rows *)

Import OTPStepNotions.

Lemma rowStep_refl (o : OtpMessage) : rowStep o o.
Proof. unfold rowStep. tauto. Qed.

Lemma rowStep_status (s : OTPStatus) (o : OtpMessage) :
  isPending o = true -> rowStep o (setStatus s o).
Proof.
  intros H. unfold rowStep. cbn. rewrite H.
  repeat split; auto; discriminate.
Qed.

Lemma rowStep_verified (now : Z) (o : OtpMessage) :
  isPending o = true -> rowStep o (setVerified now o).
Proof.
  intros H. unfold rowStep. cbn. rewrite H.
  repeat split; auto; discriminate.
Qed.

Lemma rowStep_attempt (o : OtpMessage) :
  isPending o = true ->
  attempts o < VerificationStorageService.maxAttempts o ->
  rowStep o (addAttempt o) /\ rowStep o (setStatus FAILED (addAttempt o)).
Proof.
  intros H Ha. unfold rowStep. cbn. rewrite H.
  repeat split; auto; discriminate.
Qed.

Lemma beforeUnderscore_plain (s : jsstring) :
  ~ In underscore (beforeUnderscore s).
Proof.
  induction s as [|c s IH]; simpl; auto.
  destruct (N.eqb c underscore) eqn:E; simpl; auto.
  intros [H|H]; auto. subst c. now rewrite N.eqb_refl in E.
Qed.

Lemma updated_rows (table : Table) (otp : OtpMessage)
  (f : OtpMessage -> OtpMessage) :
  wellKeyed table -> In otp table -> rowStep otp (f otp) ->
  exists g,
    updated (id otp) f table = List.map g table ++ []
    /\ forall o, In o table -> rowStep o (g o).
Proof.
  intros Hk Hin Hf.
  exists (fun o => if N.eqb (id o) (id otp) then f o else o).
  split; [now rewrite app_nil_r|].
  intros o Ho. destruct (N.eqb (id o) (id otp)) eqn:E.
  - apply N.eqb_eq in E.
    rewrite (wellKeyed_unique table o otp Hk Ho Hin E). exact Hf.
  - apply rowStep_refl.
Qed.

Lemma invalidate_rows (account phone : jsstring) (o : OtpMessage) :
  rowStep o (if forPair account phone o && isPending o
             then setStatus EXPIRED o else o).
Proof.
  destruct (forPair account phone o && isPending o) eqn:E.
  - apply andb_true_iff in E as [_ E]. now apply rowStep_status.
  - apply rowStep_refl.
Qed.

Lemma store_dispatch_rows {A : Type} (env : RequestEnv) (table : Table)
  (account phone : jsstring) (now : Z) (data : OTPStoreInput)
  (failure : jsstring) (response : A) :
  wellKeyed table ->
  let t1 := snd (invalidatePendingOTPs table account phone) in
  let stored := storeOTP t1 now data in
  exists g new,
    snd (dispatch env (snd stored) (fst stored) failure response)
    = List.map g table ++ [new]
    /\ (forall o, In o table -> rowStep o (g o))
    /\ freshRow table new.
Proof.
  intros Hk. cbv zeta.
  set (t1 := snd (invalidatePendingOTPs table account phone)).
  assert (Hk1 : wellKeyed t1) by now apply invalidate_wellKeyed.
  assert (Hl : List.length t1 = List.length table).
  { unfold t1, invalidatePendingOTPs. cbn [snd]. apply length_map. }
  exists (fun o => if forPair account phone o && isPending o
                   then setStatus EXPIRED o else o).
  destruct (dispatch_table env (snd (storeOTP t1 now data))
              (fst (storeOTP t1 now data)) failure response) as [-> | ->].
  - eexists. split; [reflexivity|]. split.
    + intros o _. apply invalidate_rows.
    + unfold freshRow. cbn [id attempts accountId setStatus].
      rewrite Hl. repeat split. apply beforeUnderscore_plain.
  - unfold storeOTP. cbn [fst snd].
    match goal with |- context [t1 ++ [?n]] => set (new := n) end.
    rewrite updated_fresh by auto.
    eexists. split; [reflexivity|]. split.
    + intros o _. apply invalidate_rows.
    + unfold freshRow, new. cbn [id attempts accountId setStatus].
      rewrite Hl. repeat split. apply beforeUnderscore_plain.
Qed.

(** Every call maps the rows it finds by [rowStep] and appends at most one
    fresh row. *)
Lemma afterCall_rows (bun : BunPassword) (table : Table) (c : Call) :
  wellKeyed table ->
  exists g news,
    afterCall bun table c = List.map g table ++ news
    /\ (forall o, In o table -> rowStep o (g o))
    /\ Forall (freshRow table) news
    /\ (List.length news <= 1)%nat.
Proof.
  intros Hk.
  assert (Hsame : exists g news,
             table = List.map g table ++ news
             /\ (forall o, In o table -> rowStep o (g o))
             /\ Forall (freshRow table) news
             /\ (List.length news <= 1)%nat).
  { exists (fun o => o), []. rewrite map_id, app_nil_r.
    repeat split; auto using rowStep_refl. }
  assert (Hupd : forall otp f,
             In otp table -> rowStep otp (f otp) ->
             exists g news,
               updated (id otp) f table = List.map g table ++ news
               /\ (forall o, In o table -> rowStep o (g o))
               /\ Forall (freshRow table) news
               /\ (List.length news <= 1)%nat).
  { intros otp f Hin Hf.
    destruct (updated_rows table otp f Hk Hin Hf) as [g [Hg Hr]].
    exists g, []. split; [exact Hg|]. split; [exact Hr|].
    split; [constructor|simpl; lia]. }
  assert (Hinv : forall account phone,
             exists g news,
               snd (invalidatePendingOTPs table account phone)
               = List.map g table ++ news
               /\ (forall o, In o table -> rowStep o (g o))
               /\ Forall (freshRow table) news
               /\ (List.length news <= 1)%nat).
  { intros account phone.
    exists (fun o => if forPair account phone o && isPending o
                     then setStatus EXPIRED o else o), [].
    unfold invalidatePendingOTPs. cbn [snd]. rewrite app_nil_r.
    split; [reflexivity|]. split; [intros o _; apply invalidate_rows|].
    split; [constructor|simpl; lia]. }
  destruct c as [env a request|env a request|env a request]; cbn [afterCall].
  - unfold requestOTP.
    destruct (negb (canSend _)); [exact Hsame|].
    destruct (hashCode _ _ _); [|apply Hinv].
    edestruct (store_dispatch_rows (A := OTPResponse)) as [g [new [Hg [Hr Hn]]]];
      [exact Hk|].
    exists g, [new]. split; [exact Hg|]. split; [exact Hr|].
    split; [now constructor|simpl; lia].
  - rewrite verifyOTP_cases by auto. cbv zeta.
    destruct (findActive table (t_query env) a _) as [otp|] eqn:E;
      [|exact Hsame].
    apply findActive_some in E as [Hin [Hp _]].
    apply andb_true_iff in Hp as [_ Hp].
    destruct (isExpired _ _); [apply Hupd; auto using rowStep_status|].
    destruct (attempts otp >=? _) eqn:Ea;
      [apply Hupd; auto using rowStep_status|].
    assert (Hlt : attempts otp < VerificationStorageService.maxAttempts otp).
    { unfold Z.geb in Ea.
      destruct (attempts otp ?= VerificationStorageService.maxAttempts otp)
        eqn:Ec; try discriminate.
      now apply Z.compare_lt_iff. }
    destruct (negb _); [|apply Hupd; auto using rowStep_verified].
    destruct (_ <=? 0); cbn [snd]; apply Hupd; auto;
      now apply rowStep_attempt.
  - unfold resendOTP.
    destruct (negb (canSend _)); [exact Hsame|].
    destruct (findLast table a _); [|exact Hsame].
    destruct (hashCode _ _ _); [|apply Hinv].
    edestruct (store_dispatch_rows (A := OTPResendResponse))
      as [g [new [Hg [Hr Hn]]]]; [exact Hk|].
    exists g, [new]. split; [exact Hg|]. split; [exact Hr|].
    split; [now constructor|simpl; lia].
Qed.

Lemma afterCall_wellKeyed (bun : BunPassword) (table : Table) (c : Call) :
  wellKeyed table ->
  wellKeyed (afterCall bun table c)
  /\ (List.length table <= List.length (afterCall bun table c)
      <= List.length table + 1)%nat.
Proof.
  intros Hk.
  destruct (afterCall_rows bun table c Hk) as [g [news [-> [Hr [Hn Hl]]]]].
  assert (Hids : List.map id (List.map g table) = List.map id table).
  { rewrite map_map. apply map_ext_in. intros o Ho. apply (Hr o Ho). }
  split.
  - unfold wellKeyed in *. rewrite map_app, Hids, length_app, length_map.
    destruct news as [|n [|n' news]]; simpl in Hl; try lia.
    + simpl. now rewrite app_nil_r, Nat.add_0_r.
    + apply Forall_inv in Hn. destruct Hn as [Hid _].
      simpl. rewrite Nat.add_1_r, seq_S, map_app, Hk, Hid. reflexivity.
  - rewrite length_app, length_map. lia.
Qed.

Lemma rowStep_rowOk (o o' : OtpMessage) : rowStep o o' -> rowOk o -> rowOk o'.
Proof.
  unfold rowStep, rowOk.
  intros [_ [Ha [_ [_ [_ [Hm [_ [_ Hs]]]]]]]] [Hu [H0 Hle]].
  rewrite Ha, Hm. split; auto. lia.
Qed.

Lemma freshRow_rowOk (table : Table) (n : OtpMessage) :
  freshRow table n -> rowOk n.
Proof.
  unfold freshRow, rowOk. intros [_ [Ha Hu]]. rewrite Ha. split; auto. lia.
Qed.

Lemma afterCall_rowOk (bun : BunPassword) (table : Table) (c : Call) :
  wellKeyed table -> Forall rowOk table -> Forall rowOk (afterCall bun table c).
Proof.
  intros Hk Hok.
  destruct (afterCall_rows bun table c Hk) as [g [news [-> [Hr [Hn _]]]]].
  apply Forall_app. split.
  - apply Forall_forall. intros o' Ho'.
    apply in_map_iff in Ho' as [o [<- Ho]].
    apply (rowStep_rowOk o); auto. rewrite Forall_forall in Hok. auto.
  - eapply Forall_impl; [|exact Hn]. apply freshRow_rowOk.
Qed.

Lemma afterCalls_rowOk (bun : BunPassword) (cs : list Call) (table : Table) :
  wellKeyed table -> Forall rowOk table ->
  wellKeyed (afterCalls bun table cs) /\ Forall rowOk (afterCalls bun table cs).
Proof.
  revert table. induction cs as [|c cs IH]; intros table Hk Hok; simpl; auto.
  apply IH.
  - now apply afterCall_wellKeyed.
  - now apply afterCall_rowOk.
Qed.

(** X16.  Rows are never deleted and keys never reused: from a table with
    generated keys, any sequence of [requestOTP], [verifyOTP] and
    [resendOTP] calls leaves a table with generated keys that has at least
    as many rows and at most one more row per call. *)
Theorem calls_keep_the_keys (bun : BunPassword) (cs : list Call)
  (table : Table) :
  wellKeyed table ->
  wellKeyed (afterCalls bun table cs)
  /\ (List.length table <= List.length (afterCalls bun table cs)
      <= List.length table + List.length cs)%nat.
Proof.
  revert table. induction cs as [|c cs IH]; intros table Hk; simpl.
  - split; auto. lia.
  - destruct (afterCall_wellKeyed bun table c Hk) as [Hk' Hl].
    destruct (IH _ Hk') as [Hk'' Hl'']. split; auto.
    unfold afterCalls in *. lia.
Qed.

Lemma calls_keep_the_keys_witness :
  wellKeyed
    (afterCalls plainBun []
       [Request (sampleEnv 0) (js "acme_1") (sampleRequest NUMERIC)]).
Proof.
  apply (calls_keep_the_keys plainBun
           [Request (sampleEnv 0) (js "acme_1") (sampleRequest NUMERIC)] []).
  reflexivity.
Defined.

(** X17.  A row that is no longer PENDING is never written again: on a
    table with generated keys, a VERIFIED, EXPIRED or FAILED row is found
    unchanged after any sequence of calls. *)
Theorem closed_rows_are_frozen (bun : BunPassword) (cs : list Call)
  (table : Table) (o : OtpMessage) :
  wellKeyed table -> In o table -> isPending o = false ->
  In o (afterCalls bun table cs).
Proof.
  revert table. induction cs as [|c cs IH]; intros table Hk Ho Hp; simpl; auto.
  apply IH; auto.
  - now apply afterCall_wellKeyed.
  - destruct (afterCall_rows bun table c Hk) as [g [news [-> [Hr _]]]].
    apply in_or_app. left.
    destruct (Hr o Ho) as [_ [_ [_ [_ [_ [_ [_ [Hsame _]]]]]]]].
    rewrite <- (Hsame Hp). now apply in_map.
Qed.

Lemma closed_rows_are_frozen_witness :
  In (setStatus VERIFIED sampleRow)
    (afterCalls plainBun [setStatus VERIFIED sampleRow]
       [Request (sampleEnv 60000) (js "acme") (sampleRequest NUMERIC)]).
Proof.
  apply (closed_rows_are_frozen plainBun
           [Request (sampleEnv 60000) (js "acme") (sampleRequest NUMERIC)]
           [setStatus VERIFIED sampleRow] (setStatus VERIFIED sampleRow)).
  - reflexivity.
  - now left.
  - reflexivity.
Defined.

(** X18.  The attempt counter stays within its bound: in every table the
    calls reach from the empty one, each row has between 0 and
    [maxAttempts] attempts (0 when [maxAttempts] is negative), and no row
    is stored under an account id that holds an underscore. *)
Theorem attempts_stay_bounded (bun : BunPassword) (cs : list Call) :
  Forall (fun o =>
            0 <= attempts o
            /\ attempts o <= Z.max 0 (VerificationStorageService.maxAttempts o)
            /\ ~ In underscore (accountId o))
    (afterCalls bun [] cs).
Proof.
  destruct (afterCalls_rowOk bun cs []) as [_ H];
    [reflexivity|constructor|].
  eapply Forall_impl; [|exact H]. unfold rowOk. tauto.
Qed.

(** X19.  An account whose id holds an underscore can never verify or
    resend: its rows are stored under the part of the id before the
    underscore, so on every table the calls reach from the empty one
    [verifyOTP] answers "No active OTP found" and [resendOTP] throws "No
    previous OTP found", both leaving the table as it is. *)
Theorem underscore_account_never_verifies (bun : BunPassword)
  (cs : list Call) (account : jsstring) :
  In underscore account ->
  let table := afterCalls bun [] cs in
  (forall env request,
     verifyOTP bun env table account request
     = (Ok (failure (normalizePhoneNumber (verify_phone request))
              msg_noActive None), table))
  /\ (forall env request,
        resendOTP bun env table account request
        = (Throw (js "No previous OTP found. Please request a new one."),
           table)).
Proof.
  intros Hu. cbv zeta.
  destruct (afterCalls_rowOk bun cs []) as [_ Hok];
    [reflexivity|constructor|].
  set (table := afterCalls bun [] cs) in *.
  assert (Hnone : forall phone,
             filter (forPair account phone) table = []).
  { intros phone. destruct (filter _ table) as [|o l] eqn:E; auto.
    assert (Hin : In o (filter (forPair account phone) table))
      by (rewrite E; now left).
    apply filter_In in Hin as [Hin Hp].
    unfold forPair in Hp. apply andb_true_iff in Hp as [Hp _].
    apply jseqb_eq in Hp. rewrite Forall_forall in Hok.
    destruct (Hok o Hin) as [Hno _]. rewrite Hp in Hno. contradiction. }
  split.
  - intros env request. unfold verifyOTP, getActiveOTP.
    destruct (findActive table (t_query env) account
                (normalizePhoneNumber (verify_phone request))) as [o|] eqn:E;
      [|reflexivity].
    apply findActive_some in E as [Hin [Hp _]].
    apply andb_true_iff in Hp as [Hp _].
    assert (Hf : In o (filter (forPair account
                                 (normalizePhoneNumber (verify_phone request)))
                         table)) by (apply filter_In; auto).
    rewrite Hnone in Hf. destruct Hf.
  - intros env request. unfold resendOTP, checkRateLimit, findLast.
    rewrite Hnone. reflexivity.
Qed.

Lemma underscore_account_never_verifies_witness :
  fst (verifyOTP plainBun sampleClock
         (afterCalls plainBun []
            [Request (sampleEnv 0) (js "acme_1") (sampleRequest NUMERIC)])
         (js "acme_1")
         {| verify_phone := js "+233244123456"; code := js "000000" |})
  = Ok (failure (js "+233244123456") msg_noActive None).
Proof.
  destruct (underscore_account_never_verifies plainBun
              [Request (sampleEnv 0) (js "acme_1") (sampleRequest NUMERIC)]
              (js "acme_1")) as [H _].
  - right. right. right. right. now left.
  - rewrite H. reflexivity.
Defined.

(** *** Request, then verify *)

(** X20.  The round trip.  An account whose id holds no underscore
    requests an OTP outside the cooldown, the generated code is not empty
    and the dispatch succeeds; the verifier accepts the generated code
    against its hash, the maximum of attempts is positive and the OTP has
    not expired.  Then [verifyOTP] for the same number, written in any way
    that normalises to it, with the generated code in any letter case,
    succeeds; it marks the row that [requestOTP] stored VERIFIED at the
    clock reading of the update, and reports the later reading taken for
    the response. *)
Theorem request_then_verify (bun : BunPassword) (env : RequestEnv)
  (clock : VerifyEnv) (table : Table) (account : jsstring)
  (request : OTPRequest) (answer : OTPVerifyRequest) :
  let phone := normalizePhoneNumber (VerificationService.phone request) in
  let code := requestCode env request in
  let expiresAt :=
    calculateExpiry (t_expiry env)
      (amount match expiry request with
              | Some e => e
              | None => {| amount := 10; duration := minutes |}
              end)
      (duration match expiry request with
                | Some e => e
                | None => {| amount := 10; duration := minutes |}
                end) in
  wellKeyed table ->
  ~ In underscore account ->
  canSend (checkRateLimit table (t_check env) account phone 30) = true ->
  sendSMS env = Ok tt ->
  code <> [] ->
  verify bun code (hash bun code (salt env)) = Ok true ->
  0 < orElseZ (VerificationService.maxAttempts request) 3 ->
  normalizePhoneNumber (verify_phone answer) = phone ->
  toUpperCase (VerificationService.code answer) = code ->
  t_query clock < expiresAt -> t_expired clock <= expiresAt ->
  let stored := snd (requestOTP bun env table account request) in
  let out := verifyOTP bun clock stored account answer in
  fst out
  = Ok {| success := true; verified_phone := phone; verified := true;
          attemptsLeft := None; message := msg_verified;
          VerificationService.verifiedAt := Some (t_response clock) |}
  /\ exists new,
       stored = snd (invalidatePendingOTPs table account phone) ++ [new]
       /\ snd out
          = snd (invalidatePendingOTPs table account phone)
            ++ [setVerified (t_verified clock) new].
Proof.
  cbv zeta. intros Hk Hu Hc Hs Hne Hv Hm Hp Hcode Hq He.
  assert (Hh : hashCode bun (requestCode env request) (salt env)
               = Ok (hash bun (requestCode env request) (salt env))).
  { unfold hashCode. destruct (requestCode env request); congruence. }
  unfold requestOTP, dispatch. rewrite Hc, Hh, Hs. cbn [negb snd storeOTP].
  set (t1 := snd (invalidatePendingOTPs table account _)).
  match goal with |- context [t1 ++ [?n]] => set (new := n) end.
  assert (Hk1 : wellKeyed t1) by now apply invalidate_wellKeyed.
  assert (Hk2 : wellKeyed (t1 ++ [new])).
  { apply (storeOTP_wellKeyed t1 (t_created env)
             {| in_id := account ++ js "_"
                         ++ normalizePhoneNumber
                              (VerificationService.phone request);
                in_phone := normalizePhoneNumber
                              (VerificationService.phone request);
                in_codeHash := hash bun (requestCode env request) (salt env);
                in_expiresAt := expiresAt new;
                in_maxAttempts := orElseZ (VerificationService.maxAttempts request) 3;
                in_status := PENDING;
                in_pinLength := orElseZ (pinLength request) 6;
                in_pinType := orNumeric (pinType request);
                in_senderId :=
                  fst (resolveSenderId (senders env) account (from request))
             |} Hk1). }
  assert (Hpend : pendingFor account
                    (normalizePhoneNumber (VerificationService.phone request))
                    new = true).
  { unfold pendingFor, forPair, isPending, new.
    cbn [accountId recipient status in_id in_phone in_status].
    rewrite beforeUnderscore_composite by auto.
    now rewrite !jseqb_refl. }
  assert (Hact : findActive (t1 ++ [new]) (t_query clock) account
                   (normalizePhoneNumber (VerificationService.phone request))
                 = Some new).
  { apply findActive_only; auto.
    - rewrite pendingCount_app. unfold t1. rewrite invalidate_clears, Hpend.
      reflexivity.
    - apply in_or_app. right. now left. }
  rewrite verifyOTP_cases by auto. cbv zeta. rewrite Hp, Hact.
  assert (Hexp : isExpired (t_expired clock) (expiresAt new) = false).
  { unfold isExpired, new. cbn [expiresAt in_expiresAt].
    rewrite Z.gtb_ltb. apply Z.ltb_ge. exact He. }
  rewrite Hexp.
  assert (Hatt : (attempts new >=? VerificationStorageService.maxAttempts new)
                 = false).
  { unfold new. cbn [attempts VerificationStorageService.maxAttempts
                       in_maxAttempts].
    rewrite Z.geb_leb. apply Z.leb_gt. exact Hm. }
  rewrite Hatt.
  assert (Hok : verifyCode bun (toUpperCase (VerificationService.code answer))
                  (codeHash new) = true).
  { rewrite Hcode. unfold verifyCode, new.
    cbn [codeHash in_codeHash]. now rewrite Hv. }
  rewrite Hok. cbn [negb fst snd]. split; [reflexivity|].
  exists new. split; [reflexivity|].
  apply updated_fresh; auto.
Qed.

Lemma request_then_verify_witness :
  fst (verifyOTP plainBun sampleClock
         (snd (requestOTP plainBun (sampleEnv 0) [] (js "acme")
                 (sampleRequest NUMERIC)))
         (js "acme")
         {| verify_phone := js "0244123456"; code := js "001123" |})
  = Ok {| success := true; verified_phone := js "+233244123456";
          verified := true; attemptsLeft := None; message := msg_verified;
          VerificationService.verifiedAt := Some 1003 |}.
Proof.
  assert (Hu : ~ In underscore (js "acme")).
  { intros H. vm_compute in H. intuition discriminate. }
  assert (He : t_expired sampleClock <= 600000) by (vm_compute; discriminate).
  assert (Hne : requestCode (sampleEnv 0) (sampleRequest NUMERIC) <> [])
    by discriminate.
  destruct (request_then_verify plainBun (sampleEnv 0) sampleClock []
              (js "acme") (sampleRequest NUMERIC)
              {| verify_phone := js "0244123456"; code := js "001123" |}
              eq_refl Hu eq_refl eq_refl Hne eq_refl eq_refl eq_refl eq_refl
              eq_refl He) as [H _].
  exact H.
Defined.

End VerificationMoreFacts.

(** ** The sweep of expired OTPs, and the lifetime a resend gives *)

Module StorageRestFacts.

Import OTPService VerificationStorageService VerificationService
  VerificationStorageRest JSFacts OTPNotions OTPSamples VerificationFacts.

Lemma insertBy_map {A : Type} (le : A -> A -> bool) (g : A -> A) (x : A)
  (l : list A) :
  (forall a b, le (g a) (g b) = le a b) ->
  insertBy le (g x) (List.map g l) = List.map g (insertBy le x l).
Proof.
  intros H. induction l as [|h t IH]; simpl; auto.
  rewrite H. destruct (le x h); simpl; auto. now rewrite IH.
Qed.

Lemma sortBy_map {A : Type} (le : A -> A -> bool) (g : A -> A) (l : list A) :
  (forall a b, le (g a) (g b) = le a b) ->
  sortBy le (List.map g l) = List.map g (sortBy le l).
Proof.
  intros H. induction l as [|h t IH]; simpl; auto.
  rewrite IH. now apply insertBy_map.
Qed.

Lemma filter_map_commute {A : Type} (P : A -> bool) (g : A -> A) (l : list A) :
  (forall a, P (g a) = P a) ->
  filter P (List.map g l) = List.map g (filter P l).
Proof.
  intros H. induction l as [|h t IH]; simpl; auto.
  rewrite H. destruct (P h); simpl; now rewrite IH.
Qed.


Lemma hd_error_map {A B : Type} (g : A -> B) (l : list A) :
  hd_error (List.map g l) = option_map g (hd_error l).
Proof. now destruct l. Qed.




(** X21.  [cleanupExpiredOTPs]: the count it returns is the number of
    PENDING rows whose expiry lies before the clock reading; afterwards no
    row is such a row, the other rows are as they were, no pair has more
    PENDING rows than before, and a second sweep at the same time reports
    0 and changes nothing. *)
Theorem cleanupExpiredOTPs_spec (table : Table) (now : Z) :
  let swept := snd (cleanupExpiredOTPs table now) in
  fst (cleanupExpiredOTPs table now)
  = Z.of_nat (List.length (filter (overdue now) table))
  /\ Forall (fun o => overdue now o = false) swept
  /\ swept
     = List.map (fun o => if overdue now o then setStatus EXPIRED o else o)
         table
  /\ (forall o, In o table -> overdue now o = false -> In o swept)
  /\ (forall account phone,
        (pendingCount swept account phone
         <= pendingCount table account phone)%nat)
  /\ cleanupExpiredOTPs swept now = (0, swept).
Proof.
  cbv zeta. unfold cleanupExpiredOTPs. cbn [fst snd].
  assert (Hclean : forall o,
            overdue now (if overdue now o then setStatus EXPIRED o else o)
            = false).
  { intros o. destruct (overdue now o) eqn:E; auto. }
  split; [reflexivity|]. split.
  { apply Forall_forall. intros o' Ho'.
    apply in_map_iff in Ho' as [o [<- _]]. apply Hclean. }
  split; [reflexivity|]. split.
  { intros o Ho Hn. apply in_map_iff. exists o. now rewrite Hn. }
  split.
  { intros account phone. unfold pendingCount. apply filter_map_le.
    intros o _. destruct (overdue now o); auto.
    unfold pendingFor, isPending. simpl. rewrite andb_false_r. discriminate. }
  assert (Hnone : filter (overdue now)
                    (List.map (fun o => if overdue now o
                                        then setStatus EXPIRED o else o) table)
                  = []).
  { induction table as [|h t IH]; simpl; auto. now rewrite Hclean. }
  rewrite Hnone. f_equal. rewrite map_map. apply map_ext. intros o.
  now rewrite Hclean.
Qed.



End StorageRestFacts.

(** ** The schemas of the verify routes against the service *)

Module SchemaFacts.

Import OTPService VerifySchemas JSFacts.

Lemma isNonZeroDigit_isDigit (c : N) :
  isNonZeroDigit c = true ->
  isDigit c = true /\ N.eqb 48 c = false /\ N.eqb plus_sign c = false.
Proof.
  unfold isNonZeroDigit, isDigit, plus_sign. intros H.
  apply andb_true_iff in H as [H1 H2].
  apply N.leb_le in H1. apply N.leb_le in H2.
  split; [|split].
  - apply andb_true_iff. split; apply N.leb_le; lia.
  - apply N.eqb_neq. lia.
  - apply N.eqb_neq. lia.
Qed.

Lemma forallb_digits (l : jsstring) :
  forallb isDigit l = true ->
  Forall (fun c => isDigit c = true \/ c = plus_sign) l.
Proof.
  intros H. apply Forall_forall. intros c Hc. left.
  rewrite forallb_forall in H. auto.
Qed.

(** X23.  A phone number the schema of the routes lets through is
    normalised without any guess about the country: [normalizePhoneNumber]
    returns it as it is when it starts with +, and with a + in front
    otherwise; the result passes [validatePhoneNumber] unchanged. *)
Theorem phoneSchema_normalizes (s : jsstring) :
  phoneSchema s = true ->
  let normalized := normalizePhoneNumber s in
  normalized = (if startsWith s [plus_sign] then s else plus_sign :: s)
  /\ SMSValidationService.valid
       (SMSValidationService.validatePhoneNumber normalized) = true
  /\ SMSValidationService.formatted
       (SMSValidationService.validatePhoneNumber normalized) = normalized.
Proof.
  unfold phoneSchema, e164_test. intros H.
  apply andb_true_iff in H as [H Hre].
  apply andb_true_iff in H as [Hmin Hmax].
  apply Z.leb_le in Hmin. apply Z.leb_le in Hmax.
  assert (Hshape :
    Forall (fun c => isDigit c = true \/ c = plus_sign) s
    /\ normalizePhoneNumber s
       = (if startsWith s [plus_sign] then s else plus_sign :: s)).
  { destruct s as [|c rest]; [discriminate|].
    destruct (N.eqb c plus_sign) eqn:Ec.
    - apply N.eqb_eq in Ec. subst c.
      destruct rest as [|d digits]; [discriminate|].
      apply andb_true_iff in Hre as [Hre Hd].
      apply andb_true_iff in Hre as [Hre _].
      apply andb_true_iff in Hre as [Hc _].
      apply isNonZeroDigit_isDigit in Hc as [Hc _].
      assert (Hall : Forall (fun c => isDigit c = true \/ c = plus_sign)
                       (plus_sign :: d :: digits)).
      { constructor; [now right|]. constructor; [now left|].
        now apply forallb_digits. }
      split; auto.
      unfold normalizePhoneNumber.
      rewrite (PhoneFacts.digitsAndPlus_fixed _ Hall). reflexivity.
    - apply andb_true_iff in Hre as [Hre Hd].
      apply andb_true_iff in Hre as [Hre _].
      apply andb_true_iff in Hre as [Hc _].
      apply isNonZeroDigit_isDigit in Hc as [Hc [H0 Hp]].
      assert (Hall : Forall (fun c => isDigit c = true \/ c = plus_sign)
                       (c :: rest)).
      { constructor; [now left|]. now apply forallb_digits. }
      split; auto.
      unfold normalizePhoneNumber.
      rewrite (PhoneFacts.digitsAndPlus_fixed _ Hall).
      assert (Es : startsWith (c :: rest) [plus_sign] = false).
      { cbn [startsWith]. now rewrite Hp. }
      assert (E0 : startsWith (c :: rest) (js "0") = false).
      { change (js "0") with [48%N]. cbn [startsWith]. now rewrite H0. }
      rewrite Es, E0. cbn [negb].
      destruct (find _ africanCountries); [reflexivity|].
      rewrite andb_true_r.
      assert (E9 : (jslength (c :: rest) >=? 9) = true).
      { rewrite Z.geb_leb. apply Z.leb_le. lia. }
      now rewrite E9. }
  destruct Hshape as [Hall Hn]. cbv zeta.
  split; [exact Hn|].
  assert (Hfix : digitsAndPlus (normalizePhoneNumber s) = normalizePhoneNumber s).
  { rewrite Hn. destruct (startsWith s [plus_sign]).
    - now apply PhoneFacts.digitsAndPlus_fixed.
    - apply PhoneFacts.digitsAndPlus_fixed. constructor; auto. }
  split.
  - apply SMSValidationFacts.valid_iff. rewrite Hfix.
    apply SMSValidationFacts.phoneErrors_nil. rewrite Hn.
    destruct (startsWith s [plus_sign]) eqn:Es.
    + split; auto. lia.
    + split.
      * apply (PhoneFacts.startsWith_plus s).
      * unfold jslength in *. cbn [List.length]. lia.
  - unfold SMSValidationService.validatePhoneNumber.
    cbn [SMSValidationService.formatted]. exact Hfix.
Qed.

Lemma phoneSchema_normalizes_witness :
  normalizePhoneNumber (js "233244123456") = js "+233244123456".
Proof.
  destruct (phoneSchema_normalizes (js "233244123456") eq_refl) as [H _].
  exact H.
Defined.

(** X24.  The expiry schema lets through whole minutes only: it accepts an
    expiry exactly when the amount is between 1 and 24 and the unit is
    minutes or hours (an expiry in seconds is always refused), and then the
    lifetime [calculateExpiry] gives is a whole number of minutes between
    1 and 1440. *)
Theorem expirySchema_spec (amount : Z) (duration : Duration) :
  (expirySchema amount duration = true
   <-> duration <> seconds /\ 1 <= amount <= 24)
  /\ (expirySchema amount duration = true ->
      exists m,
        1 <= m <= 1440
        /\ forall now,
             calculateExpiry now amount duration
             = calculateExpiry now m minutes).
Proof.
  assert (Hiff : expirySchema amount duration = true
                 <-> duration <> seconds /\ 1 <= amount <= 24).
  { unfold expirySchema. rewrite !andb_true_iff, !Z.leb_le, !Qle_bool_iff.
    destruct duration.
    - split; [|intros [H _]; congruence].
      intros [[H1 H24] [Hq _]]. exfalso.
      unfold Qle, Qdiv, Qmult, Qinv, inject_Z in Hq. simpl in Hq. lia.
    - split.
      + intros [[H1 H24] _]. split; [discriminate|lia].
      + intros [_ [H1 H24]]. split; [lia|].
        unfold Qle, inject_Z. simpl. lia.
    - split.
      + intros [[H1 H24] _]. split; [discriminate|lia].
      + intros [_ [H1 H24]]. split; [lia|].
        unfold Qle, Qmult, inject_Z. simpl. lia. }
  split; [exact Hiff|].
  intros H. apply Hiff in H as [Hd Ha].
  destruct duration; [congruence| |].
  - exists amount. split; [lia|reflexivity].
  - exists (amount * 60). split; [lia|].
    intros now. unfold calculateExpiry. lia.
Qed.

End SchemaFacts.

(** ** The lifetime a resend gives *)

Module ResendFacts.

Import OTPService VerificationStorageService VerificationService JSFacts
  OTPNotions OTPSamples.

Lemma Math_round_div_floor (a b : Z) :
  0 < b -> Math_round_div a b = (2 * a + b) / (2 * b).
Proof.
  intros Hb. unfold Math_round_div.
  destruct b as [|p|p]; try lia.
  assert (E : (inject_Z a / inject_Z (Z.pos p) + (1 # 2)
               == (2 * a + Z.pos p) # (2 * p))%Q).
  { unfold Qeq, Qplus, Qdiv, Qmult, Qinv, inject_Z.
    unfold Qnum, Qden. rewrite ?Pos2Z.inj_mul. ring. }
  rewrite E. unfold Qfloor. reflexivity.
Qed.

Lemma Math_round_div_near (m lag b : Z) :
  0 < b -> - b < 2 * lag <= b -> Math_round_div (m * b - lag) b = m.
Proof.
  intros Hb Hl. rewrite Math_round_div_floor by auto.
  symmetry. apply (Z.div_unique _ _ m (b - 2 * lag)); lia.
Qed.

(** X25.  [resendOTP] rounds the lifetime of the last row to whole
    minutes: when the last row lives [m] minutes less a delay between the
    computation of its expiry and its creation of at most 30 seconds, the
    new row expires [m] minutes after the clock reading of the resend; a
    last row that lives less than 30 seconds gives a new row that has
    expired when it is stored.  (A last row whose code length is below 1
    gives an empty code: the hash throws "password must not be empty" and
    no row is stored.) *)
Theorem resendOTP_lifetime (bun : BunPassword) (env : RequestEnv)
  (table : Table) (account : jsstring) (request : OTPResendRequest)
  (last : OtpMessage) :
  let phone := normalizePhoneNumber (resend_phone request) in
  canSend (checkRateLimit table (t_check env) account phone 30) = true ->
  findLast table account phone = Some last ->
  sendSMS env = Ok tt ->
  (resendCode env last <> [] ->
   exists new,
     snd (resendOTP bun env table account request)
     = snd (invalidatePendingOTPs table account phone) ++ [new]
     /\ (forall m lag,
           expiresAt last - createdAt last = m * 60000 - lag ->
           -30000 < lag <= 30000 ->
           expiresAt new = calculateExpiry (t_expiry env) m minutes)
     /\ (0 <= expiresAt last - createdAt last < 30000 ->
         expiresAt new = t_expiry env))
  /\ (resendCode env last = [] ->
      resendOTP bun env table account request
      = (Throw (js "password must not be empty"),
         snd (invalidatePendingOTPs table account phone))).
Proof.
  cbv zeta. intros Hc Hl Hs. unfold resendOTP, dispatch, hashCode.
  rewrite Hc, Hl, Hs. cbn [negb].
  destruct (resendCode env last) as [|c code]; (split; [|congruence]);
    [congruence|]. intros _.
  cbn [snd storeOTP].
  eexists. split; [reflexivity|]. cbn [expiresAt in_expiresAt].
  change (1000 * 60) with 60000. split.
  - intros m lag Hlife Hlag. rewrite Hlife.
    rewrite Math_round_div_near by lia. reflexivity.
  - intros Hshort.
    replace (expiresAt last - createdAt last)
      with (0 * 60000 - (createdAt last - expiresAt last)) by lia.
    rewrite Math_round_div_near by lia.
    unfold calculateExpiry. lia.
Qed.

Lemma resendOTP_lifetime_witness :
  exists new,
    snd (resendOTP plainBun (sampleEnv 60000) [sampleRow] (js "acme")
           {| resend_phone := js "+233244123456" |})
    = snd (invalidatePendingOTPs [sampleRow] (js "acme") (js "+233244123456"))
      ++ [new]
    /\ expiresAt new = calculateExpiry 60000 10 minutes.
Proof.
  destruct (resendOTP_lifetime plainBun (sampleEnv 60000) [sampleRow]
              (js "acme") {| resend_phone := js "+233244123456" |} sampleRow
              eq_refl eq_refl eq_refl) as [H _].
  destruct H as [new [Ht [Hm _]]]; [discriminate|].
  exists new. split; [exact Ht|].
  apply (Hm 10 0); [reflexivity|lia].
Defined.

End ResendFacts.

(** ** Provider statistics and health *)

Module ProviderStatsFacts.

Import SMSRouterService SMSRouterRest JSFacts.

Lemma filterByNetwork_map (g : Provider -> Provider) (l : list Provider)
  (network : option jsstring) :
  (forall p, supportedNetworks (g p) = supportedNetworks p) ->
  filterByNetwork (List.map g l) network
  = List.map g (filterByNetwork l network).
Proof.
  intros Hg. unfold filterByNetwork.
  destruct (truthy network) as [n|]; auto.
  rewrite StorageRestFacts.filter_map_commute
    by (intros p; now rewrite Hg).
  destruct (filter _ l); reflexivity.
Qed.

Lemma selectedProvider_map (g : Provider -> Provider) (table : list Provider)
  (criteria : ProviderSelectionCriteria) :
  (forall p, type (g p) = type p /\ status (g p) = status p
             /\ supportedCountries (g p) = supportedCountries p
             /\ supportedNetworks (g p) = supportedNetworks p
             /\ priority (g p) = priority p
             /\ successRate (g p) = successRate p
             /\ avgLatency (g p) = avgLatency p) ->
  selectedProvider (Ok (List.map g table)) criteria
  = option_map g (selectedProvider (Ok table) criteria).
Proof.
  intros Hg. unfold selectedProvider, findManyProviders.
  rewrite StorageRestFacts.filter_map_commute.
  2:{ intros p. unfold eligible.
      destruct (Hg p) as [-> [-> [-> _]]]. reflexivity. }
  rewrite StorageRestFacts.sortBy_map.
  2:{ intros a b. unfold byPriority.
      destruct (Hg a) as [_ [_ [_ [_ [-> [-> _]]]]]].
      destruct (Hg b) as [_ [_ [_ [_ [-> [-> _]]]]]]. reflexivity. }
  destruct (sortBy byPriority (filter (eligible (country criteria)) table))
    as [|p l] eqn:E; [reflexivity|].
  cbn [List.map]. change (g p :: List.map g l) with (List.map g (p :: l)).
  rewrite filterByNetwork_map by (intros q; apply Hg).
  unfold applyPriority.
  destruct (hint criteria) as [[| |]|];
    rewrite ?StorageRestFacts.sortBy_map, StorageRestFacts.hd_error_map;
    try reflexivity.
  - intros a b. unfold byLatency.
    destruct (Hg a) as [_ [_ [_ [_ [_ [_ ->]]]]]].
    destruct (Hg b) as [_ [_ [_ [_ [_ [_ ->]]]]]]. reflexivity.
  - intros a b. unfold bySuccessRate.
    destruct (Hg a) as [_ [_ [_ [_ [_ [-> _]]]]]].
    destruct (Hg b) as [_ [_ [_ [_ [_ [-> _]]]]]]. reflexivity.
Qed.

(** X26.  The reports of [updateProviderStats] never reach the routing:
    after any report, for a success or a failure, [selectProvider] and
    [routeMessage] choose the provider they chose before. *)
Theorem updateProviderStats_keeps_routing (table : list Provider)
  (providerId : jsstring) (success : bool) :
  let table' := updateProviderStats table providerId success in
  (forall criteria,
     selectProvider (Ok table') criteria = selectProvider (Ok table) criteria)
  /\ (forall rates now to messageType hint,
        routeMessage (Ok table') rates now to messageType hint
        = routeMessage (Ok table) rates now to messageType hint).
Proof.
  cbv zeta.
  assert (H : forall criteria,
            selectProvider (Ok (updateProviderStats table providerId success))
              criteria
            = selectProvider (Ok table) criteria).
  { intros criteria. unfold selectProvider, updateProviderStats.
    rewrite selectedProvider_map.
    - destruct (selectedProvider (Ok table) criteria) as [p|]; [|reflexivity].
      cbn [option_map]. f_equal.
      destruct (jseqb (id p) providerId); reflexivity.
    - intros p. destruct (jseqb (id p) providerId); repeat split. }
  split; [exact H|].
  intros rates now to messageType hint. unfold routeMessage. now rewrite H.
Qed.

Lemma find_updateProviderStats (table : list Provider)
  (providerId : jsstring) (success : bool) :
  find (fun p => jseqb (id p) providerId)
    (updateProviderStats table providerId success)
  = option_map
      (fun p => setErrorCount (if success then 0 else errorCount p + 1) p)
      (find (fun p => jseqb (id p) providerId) table).
Proof.
  unfold updateProviderStats.
  induction table as [|p table IH]; simpl; auto.
  destruct (jseqb (id p) providerId) eqn:E; simpl; rewrite E; auto.
Qed.

Lemma find_after_failures (table : list Provider) (providerId : jsstring)
  (p : Provider) (n : nat) :
  find (fun p => jseqb (id p) providerId) table = Some p ->
  find (fun p => jseqb (id p) providerId)
    (fold_left (fun t s => updateProviderStats t providerId s)
       (repeat false n) table)
  = Some (setErrorCount (errorCount p + Z.of_nat n) p).
Proof.
  revert table p. induction n as [|n IH]; intros table p Hp.
  - simpl. rewrite Hp. f_equal. destruct p. unfold setErrorCount. simpl.
    f_equal. lia.
  - cbn [repeat fold_left].
    rewrite (IH _ (setErrorCount (errorCount p + 1) p)).
    + f_equal. unfold setErrorCount. simpl. f_equal. lia.
    + rewrite find_updateProviderStats, Hp. reflexivity.
Qed.

Lemma find_after_reports (table : list Provider) (providerId : jsstring)
  (history : list bool) :
  forall p,
  find (fun p => jseqb (id p) providerId) table = Some p ->
  exists n,
    find (fun p => jseqb (id p) providerId)
      (fold_left (fun t s => updateProviderStats t providerId s) history table)
    = Some (setErrorCount n p).
Proof.
  revert table. induction history as [|s history IH]; intros table p Hp.
  - exists (errorCount p). simpl. rewrite Hp. now destruct p.
  - cbn [fold_left].
    destruct (IH (updateProviderStats table providerId s)
                (setErrorCount (if s then 0 else errorCount p + 1) p))
      as [n Hn].
    + rewrite find_updateProviderStats, Hp. reflexivity.
    + exists n. rewrite Hn. reflexivity.
Qed.

(** X27.  The health of a provider is decided by its status and by the
    failures reported since the last success: for a provider the store
    holds, after any history of reports, a success and then [n] failures,
    [checkProviderHealth] is true exactly when the provider is ACTIVE and
    [n] is at most 10; a provider the store does not hold is never
    healthy. *)
Theorem checkProviderHealth_after_reports (table : list Provider)
  (providerId : jsstring) (history : list bool) (n : nat) :
  let reports := history ++ true :: repeat false n in
  let table' :=
    fold_left (fun t s => updateProviderStats t providerId s) reports table in
  match find (fun p => jseqb (id p) providerId) table with
  | Some p =>
      checkProviderHealth (Ok table') providerId
      = jseqb (status p) (js "ACTIVE") && (Z.of_nat n <=? 10)
  | None => checkProviderHealth (Ok table') providerId = false
  end.
Proof.
  cbv zeta. rewrite fold_left_app. cbn [fold_left].
  destruct (find (fun p => jseqb (id p) providerId) table) as [p|] eqn:Hp.
  - destruct (find_after_reports table providerId history p Hp) as [k Hk].
    set (t1 := fold_left _ history table) in *.
    assert (H1 : find (fun p => jseqb (id p) providerId)
                   (updateProviderStats t1 providerId true)
                 = Some (setErrorCount 0 p)).
    { rewrite find_updateProviderStats, Hk. reflexivity. }
    unfold checkProviderHealth.
    rewrite (find_after_failures _ _ _ n H1).
    cbn [status errorCount setErrorCount].
    destruct (jseqb (status p) (js "ACTIVE")); cbn [negb andb]; auto.
    rewrite Z.gtb_ltb, Z.leb_antisym. reflexivity.
  - unfold checkProviderHealth.
    assert (Hnone : forall l t,
              find (fun p => jseqb (id p) providerId) t = None ->
              find (fun p => jseqb (id p) providerId)
                (fold_left (fun t s => updateProviderStats t providerId s) l t)
              = None).
    { induction l as [|s l IH]; intros t Ht; simpl; auto.
      apply IH. rewrite find_updateProviderStats, Ht. reflexivity. }
    rewrite (Hnone (repeat false n)); auto.
    rewrite find_updateProviderStats, (Hnone history); auto.
Qed.

End ProviderStatsFacts.

(** ** The single dispatch *)

Module SendSMSFacts.

Import SMSRouterService SMSService SMSServiceRest JSFacts.

Lemma valid_message_units (message : jsstring) :
  SMSValidationRest.message_valid (SMSValidationRest.validateMessage message)
  = true ->
  1 <= SMSValidationService.units
         (SMSValidationService.calculateMessageUnits message) <= 24.
Proof.
  unfold SMSValidationRest.validateMessage.
  cbn [SMSValidationRest.message_valid].
  destruct (_ || _) eqn:E0; [discriminate|].
  apply orb_false_iff in E0 as [E0 _].
  destruct (jslength message >? 1600) eqn:El; [discriminate|]. intros _.
  rewrite Z.gtb_ltb in El. apply Z.ltb_ge in El.
  assert (Hpos : 0 < jslength message).
  { apply Z.eqb_neq in E0. unfold jslength in *. lia. }
  unfold SMSValidationService.calculateMessageUnits. rewrite E0.
  destruct (negb _); cbv iota.
  - destruct (jslength message <=? 70); simpl; [lia|].
    pose proof (Math_ceil_div_bounds (jslength message) 67 ltac:(lia)). lia.
  - destruct (jslength message <=? 160); simpl; [lia|].
    pose proof (Math_ceil_div_bounds (jslength message) 153 ltac:(lia)). lia.
Qed.

(** X28.  What [sendSMS] stores when it returns: exactly one message row
    is added and nothing else is touched; the row belongs to no batch,
    goes to the cleaned number, which starts with + and has 10 to 16
    characters, costs between 1 and 24 units at the unit rate of the
    pricing, and is PENDING when the request is scheduled after the clock
    reading and QUEUED otherwise; the response reports that row. *)
Theorem sendSMS_stores_one_row (env : Env) (w : World) (accountId : jsstring)
  (request : SendSMSRequest) (response : SMSResponse) (w' : World) :
  sendSMS env w accountId request = Ok (response, w') ->
  exists m,
    w' = insertMessage w m
    /\ msg_batchId m = None /\ msg_accountId m = accountId
    /\ content m = message request
    /\ recipient m = digitsAndPlus (to request)
    /\ startsWith (recipient m) [plus_sign] = true
    /\ 10 <= jslength (recipient m) <= 16
    /\ 1 <= msg_units m <= 24
    /\ msg_totalCost m = (unitCost m * inject_Z (msg_units m))%Q
    /\ msg_status m
       = match scheduledFor request with
         | Some t => if t >? clock env 1 then PENDING else QUEUED
         | None => QUEUED
         end
    /\ response_id response = msg_id m /\ response_to response = recipient m
    /\ status response = msg_status m /\ units response = msg_units m
    /\ cost response = msg_totalCost m.
Proof.
  unfold sendSMS.
  destruct (SMSValidationService.valid
              (SMSValidationService.validatePhoneNumber (to request))) eqn:Ev;
    [|discriminate].
  destruct (SMSValidationRest.message_valid
              (SMSValidationRest.validateMessage (message request))) eqn:Em;
    [|discriminate].
  cbn [negb].
  destruct (resolveSenderId (senderIds w) accountId (senderId request))
    as [sender|e]; [|discriminate].
  destruct (SMSRouterService.provider _) as [prov|]; [|discriminate].
  intros H. injection H as <- <-.
  apply SMSValidationFacts.valid_iff in Ev.
  apply SMSValidationFacts.phoneErrors_nil in Ev as [Hplus Hlen].
  pose proof (valid_message_units _ Em) as Hu.
  eexists. split; [reflexivity|].
  cbn [msg_batchId msg_accountId content recipient msg_units msg_totalCost
       unitCost msg_status msg_id response_id response_to status units cost
       SMSValidationService.formatted SMSValidationService.validatePhoneNumber].
  repeat split; try assumption; try (apply Hlen); try (apply Hu).
  - destruct (findFirstRate _ _ _ _ _); reflexivity.
  - destruct (scheduledFor request) as [t|]; reflexivity.
Qed.

Lemma sendSMS_stores_one_row_witness :
  exists response w',
    sendSMS {| nanoid := js "batch"; clock := fun _ => 0;
               newId := fun _ => js "m1";
               regexp := {| SMSValidationService.replaceAll :=
                              fun s _ _ => Ok s |} |}
      {| providers := [RouterSamples.fastProvider]; rates := [];
         senderIds := [{| sender_id := js "s1"; sender_accountId := js "acme";
                          sender_name := js "Acme";
                          sender_status := js "APPROVED";
                          sender_isActive := true;
                          sender_isDefault := true |}];
         messages := [] |}
      (js "acme")
      {| to := js "+233244123456"; message := js "Hello";
         senderId := None; scheduledFor := None |}
    = Ok (response, w')
    /\ List.length (messages w') = 1%nat.
Proof.
  eexists. eexists. split; [vm_compute; reflexivity|].
  match goal with
  | |- context [messages ?w] =>
      destruct (sendSMS_stores_one_row
                  {| nanoid := js "batch"; clock := fun _ => 0;
                     newId := fun _ => js "m1";
                     regexp := {| SMSValidationService.replaceAll :=
                                    fun s _ _ => Ok s |} |}
                  {| providers := [RouterSamples.fastProvider]; rates := [];
                     senderIds :=
                       [{| sender_id := js "s1";
                           sender_accountId := js "acme";
                           sender_name := js "Acme";
                           sender_status := js "APPROVED";
                           sender_isActive := true;
                           sender_isDefault := true |}];
                     messages := [] |}
                  (js "acme")
                  {| to := js "+233244123456"; message := js "Hello";
                     senderId := None; scheduledFor := None |}
                  _ w eq_refl) as [m [-> _]]
  end.
  reflexivity.
Defined.

End SendSMSFacts.

(** ** A batch, read back *)

Module BatchFacts.

Import SMSRouterService SMSService JSFacts.

Lemma processRecipient_ledger (env : Env) (accountId : jsstring)
  (request : BulkSMSRequest) (sender : jsstring * jsstring) (i : nat)
  (r : Recipient) (st : Loop) :
  let st' := processRecipient env accountId request sender i r st in
  let isAccepted row := RowStatus_eqb (row_status row) accepted in
  exists new,
    messages (world st') = messages (world st) ++ new
    /\ totalCost st'
       = fold_left (fun sum m => (sum + msg_totalCost m)%Q) new (totalCost st)
    /\ List.map row_id (filter isAccepted (results st'))
       = List.map row_id (filter isAccepted (results st))
         ++ List.map msg_id new
    /\ Forall (fun m => msg_batchId m = Some (nanoid env)
                        /\ msg_accountId m = accountId
                        /\ msg_status m = QUEUED) new.
Proof.
  cbv zeta. unfold processRecipient.
  assert (Hrej : forall e,
    exists new,
      messages (world (reject st r e)) = messages (world st) ++ new
      /\ totalCost (reject st r e)
         = fold_left (fun sum m => (sum + msg_totalCost m)%Q) new (totalCost st)
      /\ List.map row_id
           (filter (fun row => RowStatus_eqb (row_status row) accepted)
              (results (reject st r e)))
         = List.map row_id
             (filter (fun row => RowStatus_eqb (row_status row) accepted)
                (results st))
           ++ List.map msg_id new
      /\ Forall (fun m => msg_batchId m = Some (nanoid env)
                          /\ msg_accountId m = accountId
                          /\ msg_status m = QUEUED) new).
  { intros e. exists []. unfold reject. cbn [world results totalCost].
    rewrite filter_app. simpl. rewrite !app_nil_r. repeat split; auto. }
  destruct (messageFor request r) as [message|]; [|apply Hrej].
  destruct (finalMessageFor env message r) as [finalMessage|e]; [|apply Hrej].
  cbv zeta.
  destruct (negb _); [apply Hrej|].
  destruct (provider _) as [prov|]; [|apply Hrej].
  eexists [_]. cbn [world results totalCost messages insertMessage].
  rewrite filter_app, map_app. simpl.
  repeat split; auto.
Qed.

Lemma processRecipients_ledger (env : Env) (accountId : jsstring)
  (request : BulkSMSRequest) (sender : jsstring * jsstring)
  (rs : list Recipient) :
  forall (i : nat) (st : Loop),
  let st' := processRecipients env accountId request sender i rs st in
  let isAccepted row := RowStatus_eqb (row_status row) accepted in
  exists new,
    messages (world st') = messages (world st) ++ new
    /\ totalCost st'
       = fold_left (fun sum m => (sum + msg_totalCost m)%Q) new (totalCost st)
    /\ List.map row_id (filter isAccepted (results st'))
       = List.map row_id (filter isAccepted (results st))
         ++ List.map msg_id new
    /\ Forall (fun m => msg_batchId m = Some (nanoid env)
                        /\ msg_accountId m = accountId
                        /\ msg_status m = QUEUED) new.
Proof.
  induction rs as [|r rs IH]; intros i st; cbv zeta; simpl.
  - exists []. simpl. rewrite !app_nil_r. repeat split; auto.
  - destruct (processRecipient_ledger env accountId request sender i r st)
      as [new1 [Hm [Hc [Hi Hb]]]].
    set (st1 := processRecipient env accountId request sender i r st) in *.
    destruct (IH (S i) st1) as [new2 [Hm' [Hc' [Hi' Hb']]]].
    exists (new1 ++ new2).
    rewrite Hm', Hm, Hc', Hc, Hi', Hi, fold_left_app, map_app, <- !app_assoc.
    repeat split; auto. apply Forall_app. auto.
Qed.

Lemma countOf_queued (s : MessageStatus) (l : list Message) :
  Forall (fun m => msg_status m = QUEUED) l ->
  SMSServiceRest.countOf s l
  = if SMSServiceRest.MessageStatus_eqb QUEUED s
    then Z.of_nat (List.length l) else 0.
Proof.
  unfold SMSServiceRest.countOf.
  induction 1 as [|m l Hm _ IH]; cbn [filter List.length].
  - now destruct (SMSServiceRest.MessageStatus_eqb QUEUED s).
  - rewrite Hm. destruct (SMSServiceRest.MessageStatus_eqb QUEUED s);
      cbn [List.length]; [|exact IH].
    now rewrite !Nat2Z.inj_succ, IH.
Qed.

(** X29.  A batch read back right after it was sent.  When the batch id
    drawn for the call is carried by no earlier message, [getBatchMessages]
    for that id and the account finds exactly the rows of the accepted
    recipients, in their order: the total and the QUEUED count equal
    [acceptedCount], the other counts are 0, the cost total equals
    [estimatedCost], and the ids are those of the accepted result rows. *)
Theorem getBatchMessages_after_sendBulkSMS (env : Env) (w w' : World)
  (accountId : jsstring) (request : BulkSMSRequest)
  (response : BulkSMSResponse) :
  sendBulkSMS env w accountId request = Ok (response, w') ->
  Forall (fun m => msg_batchId m <> Some (nanoid env)) (messages w) ->
  let batch :=
    SMSServiceRest.getBatchMessages w' (batchId response) accountId in
  let stats := SMSServiceRest.stats batch in
  SMSServiceRest.total stats = acceptedCount response
  /\ SMSServiceRest.queued stats = acceptedCount response
  /\ SMSServiceRest.pending stats = 0 /\ SMSServiceRest.sent stats = 0
  /\ SMSServiceRest.delivered stats = 0 /\ SMSServiceRest.failed stats = 0
  /\ SMSServiceRest.stats_totalCost stats = estimatedCost response
  /\ List.map (fun row => fst (fst (fst row)))
       (SMSServiceRest.batch_rows batch)
     = List.map row_id
         (filter (fun row => RowStatus_eqb (row_status row) accepted)
            (rows response)).
Proof.
  unfold sendBulkSMS.
  destruct (resolveSenderId (senderIds w) accountId (senderId request))
    as [sender|e]; [|discriminate].
  intros H Hfresh. injection H as <- <-. cbv zeta.
  destruct (processRecipients_ledger env accountId request sender
              (recipients request) 0
              {| results := []; totalCost := 0%Q; world := w |})
    as [new [Hm [Hc [Hi Hb]]]].
  cbv zeta in Hm, Hc, Hi. cbn [world results totalCost] in Hm, Hc, Hi.
  set (st := processRecipients env accountId request sender 0
               (recipients request) _) in *.
  unfold SMSServiceRest.getBatchMessages.
  cbn [batchId acceptedCount estimatedCost rows SMSServiceRest.stats
       SMSServiceRest.total SMSServiceRest.queued SMSServiceRest.pending
       SMSServiceRest.sent SMSServiceRest.delivered SMSServiceRest.failed
       SMSServiceRest.stats_totalCost SMSServiceRest.batch_rows].
  assert (Hfound : filter (SMSServiceRest.inBatch (nanoid env) accountId)
                     (messages (world st)) = new).
  { rewrite Hm, filter_app.
    assert (Hold : filter (SMSServiceRest.inBatch (nanoid env) accountId)
                     (messages w) = []).
    { clear - Hfresh. induction Hfresh as [|m l Hx _ IH]; simpl; auto.
      unfold SMSServiceRest.inBatch at 1. unfold optionEqb.
      destruct (msg_batchId m) as [b|]; simpl; auto.
      destruct (jseqb b (nanoid env)) eqn:E; simpl; auto.
      apply jseqb_eq in E. congruence. }
    rewrite Hold. simpl.
    clear - Hb. induction Hb as [|m l [Hx [Hy _]] _ IH]; simpl; auto.
    unfold SMSServiceRest.inBatch at 1. rewrite Hx, Hy. unfold optionEqb.
    rewrite !jseqb_refl. simpl. now rewrite IH. }
  rewrite Hfound.
  assert (Hq : Forall (fun m => msg_status m = QUEUED) new).
  { eapply Forall_impl; [|exact Hb]. simpl. tauto. }
  assert (Hacc : countStatus accepted (results st)
                 = Z.of_nat (List.length new)).
  { unfold countStatus. f_equal.
    apply (f_equal (@List.length jsstring)) in Hi.
    simpl in Hi. now rewrite !length_map in Hi. }
  rewrite !(countOf_queued _ _ Hq). cbn [SMSServiceRest.MessageStatus_eqb].
  rewrite Hacc, Hc, Hi, map_map. simpl.
  repeat split; reflexivity.
Qed.

Lemma getBatchMessages_after_sendBulkSMS_witness :
  let env :=
    {| nanoid := js "batch"; clock := fun _ => 0;
       newId := fun n => js "m" ++ [N.of_nat n];
       regexp := {| SMSValidationService.replaceAll := fun s _ _ => Ok s |} |} in
  let w :=
    {| providers := [RouterSamples.fastProvider]; rates := [];
       senderIds := [{| sender_id := js "s1"; sender_accountId := js "acme";
                        sender_name := js "Acme";
                        sender_status := js "APPROVED";
                        sender_isActive := true; sender_isDefault := true |}];
       messages := [] |} in
  let request :=
    {| recipients := [{| to := js "+233244123456"; message := Some (js "Hi");
                         variables := None |};
                      {| to := js "12"; message := Some (js "Hi");
                         variables := None |}];
       defaultMessage := None; senderId := None; scheduledFor := None |} in
  match sendBulkSMS env w (js "acme") request with
  | Ok (response, w') =>
      SMSServiceRest.total
        (SMSServiceRest.stats
           (SMSServiceRest.getBatchMessages w' (batchId response) (js "acme")))
      = 1
  | Throw _ => False
  end.
Proof.
  cbv zeta.
  match goal with
  | |- match ?call with _ => _ end =>
      destruct call as [[response w']|e] eqn:E; [|vm_compute in E; discriminate]
  end.
  destruct (getBatchMessages_after_sendBulkSMS _ _ _ _ _ _ E
              (Forall_nil _)) as [H _].
  rewrite H. vm_compute in E. injection E as <- _. reflexivity.
Defined.

End BatchFacts.

(** ** The code schema of the verify route *)

Module CodeSchemaFacts.

Import OTPService VerifySchemas JSFacts.

(** X30.  Every code the service generates for a pin length the send
    schema allows (4 to 10) is let through by the code schema of the
    verify route, whatever the pin type, and so is the same code typed in
    lower case. *)
Theorem otpCodeSchema_accepts_generated (rnd : RandomSources) (length : Z)
  (type : PinType) :
  (forall k, (0 <= Math_random rnd k)%Q /\ (Math_random rnd k < 1)%Q) ->
  4 <= length <= 10 ->
  otpCodeSchema (generateCode rnd length type) = true
  /\ otpCodeSchema (OTPServiceRest.toLowerCase (generateCode rnd length type))
     = true.
Proof.
  intros Hr Hl.
  destruct (OTPFacts.generateCode_shape rnd length type Hr ltac:(lia))
    as [Hlen Hchars].
  assert (Hclass : Forall (fun c => SMSValidationRest.isLetter c || isDigit c
                                    = true)
                     (generateCode rnd length type)).
  { eapply Forall_impl; [|exact Hchars]. intros c Hc. simpl in Hc.
    pose proof (OTPRestFacts.characters_class type) as H.
    rewrite Forall_forall in H. specialize (H c Hc).
    destruct type; auto; rewrite H; auto using orb_true_r. }
  assert (Hlower : forall c,
            SMSValidationRest.isLetter c || isDigit c = true ->
            SMSValidationRest.isLetter (OTPServiceRest.lowerUnit c)
            || isDigit (OTPServiceRest.lowerUnit c) = true).
  { intros c. unfold OTPServiceRest.lowerUnit, SMSValidationRest.isLetter,
      isDigit.
    destruct ((65 <=? c)%N && (c <=? 90)%N) eqn:E.
    - intros _. apply andb_true_iff in E as [E1 E2].
      apply N.leb_le in E1. apply N.leb_le in E2.
      apply orb_true_iff. left. apply orb_true_iff. right.
      apply andb_true_iff. split; apply N.leb_le; lia.
    - rewrite E. auto. }
  unfold otpCodeSchema, SMSValidationRest.alphanumeric_test.
  assert (Hlen' : jslength (OTPServiceRest.toLowerCase
                              (generateCode rnd length type)) = length).
  { unfold jslength, OTPServiceRest.toLowerCase in *.
    now rewrite length_map. }
  rewrite Hlen, Hlen'.
  assert (E4 : (4 <=? length) = true) by (apply Z.leb_le; lia).
  assert (E10 : (length <=? 10) = true) by (apply Z.leb_le; lia).
  assert (E0 : (length =? 0) = false) by (apply Z.eqb_neq; lia).
  rewrite E4, E10, E0. cbn [andb negb]. split.
  - apply forallb_forall. rewrite Forall_forall in Hclass. exact Hclass.
  - apply forallb_forall. intros c Hc.
    unfold OTPServiceRest.toLowerCase in Hc.
    apply in_map_iff in Hc as [d [<- Hd]]. apply Hlower.
    rewrite Forall_forall in Hclass. auto.
Qed.

Lemma otpCodeSchema_accepts_generated_witness :
  otpCodeSchema (generateCode OTPMoreSamples.halves 6 ALPHANUMERIC) = true.
Proof.
  apply (otpCodeSchema_accepts_generated OTPMoreSamples.halves 6 ALPHANUMERIC).
  - intros k. split; discriminate || reflexivity.
  - lia.
Defined.

End CodeSchemaFacts.

(** ** The class of [gsm7chars] against the GSM-7 repertoire *)

Module GSM7Facts.

Import SMSValidationService GSM7Notions JSFacts.

Lemma rangeMembers_spec (r : N * N) (c : N) :
  (fst r <= snd r)%N ->
  In c (rangeMembers r) <-> (fst r <= c <= snd r)%N.
Proof.
  intros Hr. unfold rangeMembers. rewrite in_map_iff. split.
  - intros [i [<- Hi]]. apply in_seq in Hi. lia.
  - intros Hc. exists (N.to_nat (c - fst r)). split; [lia|].
    apply in_seq. lia.
Qed.

Lemma inClass_members (cls : list (N * N)) (c : N) :
  Forall (fun r => (fst r <= snd r)%N) cls ->
  inClass cls c = true <-> In c (members cls).
Proof.
  intros Hcls. unfold inClass, members.
  rewrite existsb_exists, in_flat_map. rewrite Forall_forall in Hcls.
  split; intros [r [Hr H]]; exists r; split; auto.
  - apply rangeMembers_spec; auto.
    apply andb_true_iff in H as [H1 H2].
    apply N.leb_le in H1. apply N.leb_le in H2. lia.
  - apply rangeMembers_spec in H; auto.
    apply andb_true_iff. split; apply N.leb_le; lia.
Qed.

Lemma ranges_ordered :
  Forall (fun r => (fst r <= snd r)%N) gsm7class
  /\ Forall (fun r => (fst r <= snd r)%N) GSM7_repertoire.
Proof.
  split; apply Forall_forall; intros r Hr;
    assert (H : forallb (fun r => (fst r <=? snd r)%N) gsm7class = true
                /\ forallb (fun r => (fst r <=? snd r)%N) GSM7_repertoire = true)
      by (split; vm_compute; reflexivity);
    destruct H as [H1 H2]; rewrite forallb_forall in H1, H2;
    apply N.leb_le; auto.
Qed.

(** The class of the source, character by character: the repertoire
    without U-umlaut and the section sign, and the three strays. *)
Lemma gsm7class_members (c : N) :
  inClass gsm7class c = true <->
  (inClass GSM7_repertoire c = true /\ c <> U_umlaut /\ c <> section_sign)
  \/ In c strays.
Proof.
  destruct ranges_ordered as [Hc Hr]. split.
  - intros H. apply (inClass_members _ _ Hc) in H.
    assert (Hall : forallb
                     (fun c => (inClass GSM7_repertoire c
                                && negb (N.eqb c U_umlaut)
                                && negb (N.eqb c section_sign))
                               || existsb (N.eqb c) strays)
                     (members gsm7class) = true)
      by (vm_compute; reflexivity).
    rewrite forallb_forall in Hall. specialize (Hall c H).
    apply orb_true_iff in Hall as [Hall|Hall].
    + left. apply andb_true_iff in Hall as [Hall H3].
      apply andb_true_iff in Hall as [H1 H2].
      apply negb_true_iff, N.eqb_neq in H2.
      apply negb_true_iff, N.eqb_neq in H3. auto.
    + right. apply existsb_exists in Hall as [x [Hx Hcx]].
      apply N.eqb_eq in Hcx. now subst.
  - intros [[H [Hu Hs]]|H].
    + apply (inClass_members _ _ Hr) in H.
      assert (Hall : forallb
                       (fun c => N.eqb c U_umlaut || N.eqb c section_sign
                                 || inClass gsm7class c)
                       (members GSM7_repertoire) = true)
        by (vm_compute; reflexivity).
      rewrite forallb_forall in Hall. specialize (Hall c H).
      apply orb_true_iff in Hall as [Hall|Hall]; auto.
      apply orb_true_iff in Hall as [Hall|Hall];
        apply N.eqb_eq in Hall; contradiction.
    + assert (Hall : forallb (inClass gsm7class) strays = true)
        by (vm_compute; reflexivity).
      rewrite forallb_forall in Hall. auto.
Qed.

(** C1 fails on U-umlaut and the section sign.  Both are characters of the
    GSM-7 repertoire, but the class of [gsm7chars] holds the one character
    U+0727 in their place: every message that holds one of the two is
    billed as UCS-2, so that 71 times U-umlaut cost 2 units of 67
    characters where the claim gives 1 unit of 160.  The class is the
    repertoire without these two, and with the diaeresis, the not sign and
    U+0727, which a message may hold and stay GSM-7; on every other
    character the code follows the claim. *)
Theorem calculateMessageUnits_misses_U_umlaut :
  inClass GSM7_repertoire U_umlaut = true
  /\ inClass GSM7_repertoire section_sign = true
  /\ (forall message,
        In U_umlaut message \/ In section_sign message ->
        encoding (calculateMessageUnits message) = UCS2)
  /\ (let r := calculateMessageUnits (repeat U_umlaut 71) in
      messageLength r = 71 /\ encoding r = UCS2
      /\ charactersPerUnit r = 67 /\ units r = 2)
  /\ (forall message,
        encoding (calculateMessageUnits message) = GSM7 <->
        Forall (fun c =>
                  (inClass GSM7_repertoire c = true
                   /\ c <> U_umlaut /\ c <> section_sign)
                  \/ In c strays) message)
  /\ Forall (fun c => inClass GSM7_repertoire c = false) strays.
Proof.
  assert (Henc : forall message,
            encoding (calculateMessageUnits message) = GSM7 <->
            forallb (inClass gsm7class) message = true).
  { intros message. unfold calculateMessageUnits, gsm7chars_test.
    destruct (forallb (inClass gsm7class) message); cbn [negb].
    - destruct (jslength message =? 0); [now split|].
      destruct (jslength message <=? 160); now split.
    - destruct (jslength message =? 0); [split; discriminate|].
      destruct (jslength message <=? 70); split; discriminate. }
  assert (Hiff : forall message,
            encoding (calculateMessageUnits message) = GSM7 <->
            Forall (fun c =>
                      (inClass GSM7_repertoire c = true
                       /\ c <> U_umlaut /\ c <> section_sign)
                      \/ In c strays) message).
  { intros message. rewrite Henc, forallb_forall, Forall_forall.
    split; intros H c Hc; apply gsm7class_members; auto. }
  split; [reflexivity|]. split; [reflexivity|]. split.
  { intros message Hm.
    destruct (encoding (calculateMessageUnits message)) eqn:E; auto.
    exfalso. apply Hiff in E. rewrite Forall_forall in E.
    destruct Hm as [Hm|Hm]; destruct (E _ Hm) as [[_ [Hu Hs]]|Hs];
      try congruence;
      vm_compute in Hs; intuition discriminate. }
  split; [vm_compute; repeat split; reflexivity|].
  split; [exact Hiff|].
  repeat constructor.
Qed.

End GSM7Facts.

(** ** The lifecycle where a pair has two PENDING rows *)

Module LifecycleFacts.

Import OTPService VerificationStorageService VerificationService JSFacts
  OTPNotions OTPSamples OTPMoreSamples VerificationFacts.

Lemma plainBun_tellsApart : tellsApart plainBun.
Proof.
  split.
  - intros code salt. cbn. now rewrite jseqb_refl.
  - intros code other salt H. cbn. f_equal. now apply jseqb_neq.
Qed.

(** C3 fails where a pair has two PENDING rows, which the defect of C4
    lets the service reach: after a request by [acme] and one by [acme_1]
    for the same number, both rows stand under [acme], PENDING, unexpired
    and without attempts.  The matching code of the older row is then
    refused as invalid, and counted against the newer row; and after the
    newer row was verified with its code, the older one verifies with its
    own: a second success for the pair, where the claim lets every later
    call fail with "no active OTP". *)
Theorem verifyOTP_two_pending_rows (bun : BunPassword) :
  tellsApart bun ->
  let acme := js "acme" in
  let phone := js "+233244123456" in
  let older := js "001123" in
  let newer := js "555555" in
  let table :=
    afterCalls bun []
      [Request (sampleEnv 0) acme (sampleRequest NUMERIC);
       Request (halvesEnv 1000) (js "acme_1") (sampleRequest NUMERIC)] in
  let clock t :=
    {| t_query := t; t_expired := t; t_verified := t; t_response := t |} in
  let view (o : OtpMessage) :=
    (accountId o, codeHash o, status o, attempts o) in
  let refused :=
    verifyOTP bun (clock 2000) table acme
      {| verify_phone := phone; code := older |} in
  let first :=
    verifyOTP bun (clock 2000) table acme
      {| verify_phone := phone; code := newer |} in
  let second :=
    verifyOTP bun (clock 3000) (snd first) acme
      {| verify_phone := phone; code := older |} in
  List.map view table
  = [(acme, hash bun older 7, PENDING, 0); (acme, hash bun newer 7, PENDING, 0)]
  /\ Forall (fun o => recipient o = phone /\ 3000 < expiresAt o
                      /\ attempts o < VerificationStorageService.maxAttempts o)
       table
  /\ fst refused = Ok (failure phone (msg_invalid 4) (Some 4))
  /\ List.map view (snd refused)
     = [(acme, hash bun older 7, PENDING, 0);
        (acme, hash bun newer 7, PENDING, 1)]
  /\ fst first
     = Ok {| success := true; verified_phone := phone; verified := true;
             attemptsLeft := None; message := msg_verified;
             VerificationService.verifiedAt := Some 2000 |}
  /\ fst second
     = Ok {| success := true; verified_phone := phone; verified := true;
             attemptsLeft := None; message := msg_verified;
             VerificationService.verifiedAt := Some 3000 |}
  /\ List.map view (snd second)
     = [(acme, hash bun older 7, VERIFIED, 0);
        (acme, hash bun newer 7, VERIFIED, 0)].
Proof.
  intros [Hyes Hno]. cbv zeta.
  set (row := fun (k : N) (code : jsstring) (t : Z) (s : OTPStatus) (n : Z)
                  (v : option Z) =>
    {| id := k; accountId := js "acme"; recipient := js "+233244123456";
       codeHash := hash bun code 7; codeLength := 6; status := s;
       expiresAt := t + 600000;
       VerificationStorageService.maxAttempts := 5; attempts := n;
       senderId := js "default"; senderName := js "default"; createdAt := t;
       VerificationStorageService.verifiedAt := v |}).
  assert (Ht : afterCalls bun []
                 [Request (sampleEnv 0) (js "acme") (sampleRequest NUMERIC);
                  Request (halvesEnv 1000) (js "acme_1")
                    (sampleRequest NUMERIC)]
               = [row 0%N (js "001123") 0 PENDING 0 None;
                  row 1%N (js "555555") 1000 PENDING 0 None])
    by reflexivity.
  rewrite Ht. clear Ht.
  assert (Hk : forall s0 n0 v0 s1 n1 v1,
            wellKeyed [row 0%N (js "001123") 0 s0 n0 v0;
                       row 1%N (js "555555") 1000 s1 n1 v1])
    by (intros; reflexivity).
  pose proof (Hyes (js "001123") 7%N) as Hold.
  pose proof (Hyes (js "555555") 7%N) as Hnew.
  pose proof (Hno (js "001123") (js "555555") 7%N ltac:(discriminate)) as Hmis.
  split; [reflexivity|]. split.
  { repeat constructor; reflexivity. }
  rewrite !verifyOTP_cases by apply Hk. cbv zeta.
  assert (Ha : forall t, t < 601000 ->
            findActive [row 0%N (js "001123") 0 PENDING 0 None;
                        row 1%N (js "555555") 1000 PENDING 0 None] t
              (js "acme") (normalizePhoneNumber (js "+233244123456"))
            = Some (row 1%N (js "555555") 1000 PENDING 0 None)).
  { intros t Hlt. unfold findActive. cbn [filter].
    change (forPair (js "acme") (normalizePhoneNumber (js "+233244123456"))
              (row 0%N (js "001123") 0 PENDING 0 None)) with true.
    change (forPair (js "acme") (normalizePhoneNumber (js "+233244123456"))
              (row 1%N (js "555555") 1000 PENDING 0 None)) with true.
    change (isPending (row 0%N (js "001123") 0 PENDING 0 None)) with true.
    change (isPending (row 1%N (js "555555") 1000 PENDING 0 None)) with true.
    cbn [andb expiresAt row].
    assert (E1 : (1000 + 600000 >? t) = true)
      by (rewrite Z.gtb_ltb; apply Z.ltb_lt; lia).
    rewrite E1.
    destruct (0 + 600000 >? t); reflexivity. }
  cbn [verify_phone code t_query t_expired t_verified t_response].
  rewrite !Ha by lia.
  change (toUpperCase (js "001123")) with (js "001123").
  change (toUpperCase (js "555555")) with (js "555555").
  unfold verifyCode. cbn [codeHash row]. rewrite Hmis, Hnew.
  cbn [negb].
  split; [reflexivity|]. split; [reflexivity|]. split; [reflexivity|].
  change (id (row 1%N (js "555555") 1000 PENDING 0 None)) with 1%N.
  change (isExpired 2000
            (expiresAt (row 1%N (js "555555") 1000 PENDING 0 None)))
    with false.
  change (attempts (row 1%N (js "555555") 1000 PENDING 0 None)
          >=? VerificationStorageService.maxAttempts
                (row 1%N (js "555555") 1000 PENDING 0 None))
    with false.
  cbn [snd].
  assert (Hk' : wellKeyed
                  (updated 1%N (setVerified 2000)
                     [row 0%N (js "001123") 0 PENDING 0 None;
                      row 1%N (js "555555") 1000 PENDING 0 None]))
    by reflexivity.
  rewrite !verifyOTP_cases by exact Hk'. cbv zeta.
  cbn [verify_phone code t_query t_expired t_verified t_response].
  assert (Hb : findActive
                 (updated 1%N (setVerified 2000)
                    [row 0%N (js "001123") 0 PENDING 0 None;
                     row 1%N (js "555555") 1000 PENDING 0 None]) 3000
                 (js "acme") (normalizePhoneNumber (js "+233244123456"))
               = Some (row 0%N (js "001123") 0 PENDING 0 None))
    by reflexivity.
  rewrite Hb. change (toUpperCase (js "001123")) with (js "001123").
  unfold verifyCode. cbn [codeHash row]. rewrite Hold.
  split; reflexivity.
Qed.

Lemma verifyOTP_two_pending_rows_witness :
  fst (verifyOTP plainBun
         {| t_query := 2000; t_expired := 2000; t_verified := 2000;
            t_response := 2000 |}
         (afterCalls plainBun []
            [Request (sampleEnv 0) (js "acme") (sampleRequest NUMERIC);
             Request (halvesEnv 1000) (js "acme_1") (sampleRequest NUMERIC)])
         (js "acme")
         {| verify_phone := js "+233244123456"; code := js "001123" |})
  = Ok (failure (js "+233244123456") (msg_invalid 4) (Some 4)).
Proof.
  destruct (verifyOTP_two_pending_rows plainBun plainBun_tellsApart)
    as [_ [_ [H _]]].
  exact H.
Defined.

End LifecycleFacts.
